(** * History-API: the Express applications of the repository, embedded in Rocq

    The repository holds three Express applications wired to a MySQL database
    through Sequelize:

    - [src/riwayat.js]   history keyed by email, messages in a table of their own;
    - [src/history.js]   one history table keyed by id, one message per row;
    - the "Capstone" server (soundboards, history, profile, feedback), in two
      copies that differ in how a failure reaches the client.

    Every route handler is an [async] function whose whole body sits in a
    [try]/[catch].  It is embedded as a computation in a small state-and-error
    monad over the database; what the handler cannot decide by itself (the
    values of [uuidv4()], the clock, whether a statement sent to the database
    or a call to a cloud service throws) is read from an environment [Env].
    Express itself is embedded as a walk over the list of registered layers. *)

From Stdlib Require Import ZArith Ascii String List Lia.
From stdpp Require Import gmap strings list fin_maps sorting pretty.

Open Scope string_scope.
Open Scope Z_scope.
Open Scope list_scope.

(** ** JSON values and responses *)

#[local] Set Warnings "-register-all".

(** What [res.json] is given.  A [Date] is carried as its epoch milliseconds. *)
Inductive Json : Type :=
| JNull
| JBool (b : bool)
| JNum (z : Z)
| JStr (s : string)
| JArr (items : list Json)
| JObj (fields : list (string * Json)).

Definition json_opt {A} (f : A -> Json) (o : option A) : Json :=
  match o with Some a => f a | None => JNull end.

(** [field k j] is [j[k]]; [None] stands for [undefined]. *)
Fixpoint assoc (k : string) (fields : list (string * Json)) : option Json :=
  match fields with
  | [] => None
  | (k', v) :: rest => if String.eqb k k' then Some v else assoc k rest
  end.

Definition field (k : string) (j : Json) : option Json :=
  match j with JObj fields => assoc k fields | _ => None end.

Record Response := { status : Z; body : Json }.

(** [res.status(n).json(b)] and [res.json(b)]. *)
Definition res_status_json (n : Z) (b : Json) : Response := {| status := n; body := b |}.
Definition res_json (b : Json) : Response := res_status_json 200 b.

(** ** Requests *)

Inductive Method := GET | POST | PUT | DELETE.

Definition Method_eqb (a b : Method) : bool :=
  match a, b with
  | GET, GET | POST, POST | PUT, PUT | DELETE, DELETE => true
  | _, _ => false
  end.

(** The part of a multipart request that multer hands over as [req.file]. *)
Record Upload := {
  originalname : string;
  mimetype : string;
  size : N;
  buffer : string }.

(** A request after the body parsers ran.  Each body field is carried at the
    JSON type the route documents for it; [None] is a field that is absent
    ([undefined]).  The path is the list of its segments. *)
Record Request := {
  req_method : Method;
  req_path : list string;
  body_title : option string;
  body_email : option string;
  body_message : option string;
  body_is_speech_to_text : option bool;
  body_text : option string;
  body_name : option string;
  body_comment : option string;
  body_rating : option Z;
  req_upload : option Upload }.

(** JavaScript truthiness of a string-valued and of a number-valued field. *)
Definition truthy_str (o : option string) : bool :=
  match o with
  | Some s => negb (String.eqb s "")
  | None => false
  end.

Definition truthy_num (o : option Z) : bool :=
  match o with
  | Some z => negb (z =? 0)
  | None => false
  end.

(** The value of a field a handler uses after it checked that it is truthy. *)
Definition str_of (o : option string) : string := default "" o.

(** ** Exceptions *)

Inductive ExnClass :=
| PlainError
| MulterError
| SequelizeValidationError
| SequelizeDatabaseError
| SequelizeUniqueConstraintError.

(** [errors] is the list [err.errors] of a Sequelize validation error, each
    entry reduced to its message. *)
Record Exn := { exn_class : ExnClass; exn_message : string; exn_errors : list string }.

Definition Error (msg : string) : Exn :=
  {| exn_class := PlainError; exn_message := msg; exn_errors := [] |}.

(** ** The environment of one request *)

Record Env := {
  (** successive values of [uuidv4()] and of Sequelize's [UUIDV4] default *)
  env_uuid : nat -> string;
  (** [new Date()] and [Date.now()] *)
  env_now : Z;
  (** [NOW()] as the database evaluates it *)
  env_db_now : Z;
  (** [process.uptime()], in whole seconds *)
  env_uptime : Z;
  (** the n-th statement this request sends to the database throws, with
      this message *)
  env_db_fault : nat -> option string;
  (** [ttsClient] was initialised *)
  env_tts_client : bool;
  (** [ttsClient.synthesizeSpeech]: the audio, or the message it throws with *)
  env_synthesize : string -> string + string;
  (** [bucket] was initialised *)
  env_bucket : bool;
  (** [process.env.GCP_BUCKET_NAME] *)
  env_bucket_name : string;
  (** [file.save] for this object name throws, with this message *)
  env_gcs_save : string -> option string;
  (** [process.env.NODE_ENV === "development"] *)
  env_development : bool }.

(** ** The handler monad *)

(** How many statements the request sent to the database so far, and how many
    uuids it drew. *)
Record Ctr := { db_calls : nat; uuid_draws : nat }.

Definition ctr0 : Ctr := {| db_calls := 0; uuid_draws := 0 |}.

Definition M (St A : Type) : Type := Env -> St -> Ctr -> (Exn + A) * St * Ctr.

Definition ret {St A} (a : A) : M St A := fun _ s c => (inr a, s, c).

Definition bind {St A B} (m : M St A) (k : A -> M St B) : M St B :=
  fun env s c =>
    match m env s c with
    | (inr a, s', c') => k a env s' c'
    | (inl e, s', c') => (inl e, s', c')
    end.

Definition throw {St A} (e : Exn) : M St A := fun _ s c => (inl e, s, c).

Notation "x <- m ;; k" := (bind m (fun x => k))
  (at level 100, m at next level, right associativity).
Notation "m ;;; k" := (bind m (fun _ => k))
  (at level 100, right associativity).

Definition ask {St} : M St Env := fun env s c => (inr env, s, c).

Definition uuidv4 {St} : M St string :=
  fun env s c =>
    (inr (env_uuid env (uuid_draws c)), s,
     {| db_calls := db_calls c; uuid_draws := S (uuid_draws c) |}).

Definition new_Date {St} : M St Z := fun env s c => (inr (env_now env), s, c).

(** One statement sent to the database: it throws when the environment says
    so or when the statement itself is refused, and otherwise yields its
    result and the new database. *)
Definition db_stmt {St A} (f : Env -> St -> Exn + (A * St)) : M St A :=
  fun env s c =>
    let c' := {| db_calls := S (db_calls c); uuid_draws := uuid_draws c |} in
    match env_db_fault env (db_calls c) with
    | Some msg =>
        (inl {| exn_class := SequelizeDatabaseError; exn_message := msg;
                exn_errors := [] |}, s, c')
    | None =>
        match f env s with
        | inl e => (inl e, s, c')
        | inr (a, s') => (inr a, s', c')
        end
    end.

Definition unique_violation : Exn :=
  {| exn_class := SequelizeUniqueConstraintError; exn_message := "Validation error";
     exn_errors := ["PRIMARY must be unique"] |}.

(** ** Express *)

(** What a handler did with the request: it sent a response, called [next()],
    or called [next(error)]. *)
Inductive Outcome :=
| Responded (r : Response)
| CallNext
| CallNextErr (e : Exn).

(** A handler is total: its body runs inside [try], and [catch] turns the
    exception into an outcome. *)
Definition Ran (St : Type) : Type := Env -> St -> Ctr -> Outcome * St * Ctr.

Definition try_catch {St} (body : M St Outcome) (handler : Exn -> Outcome) : Ran St :=
  fun env s c =>
    match body env s c with
    | (inr o, s', c') => (o, s', c')
    | (inl e, s', c') => (handler e, s', c')
    end.

Inductive Seg := Lit (s : string) | Param (name : string).

Definition Params := list (string * string).

(** [req.params.name]; a parameter the path does not bind reads as the empty
    string (no route here reads one). *)
Fixpoint param (name : string) (ps : Params) : string :=
  match ps with
  | [] => ""
  | (k, v) :: rest => if String.eqb name k then v else param name rest
  end.

(** ASCII lower case: the letters A to Z are moved to a to z.  The capital
    letters are the codes 65 to 90: their three high bits are 010 and their
    five low bits count from 1 to 26; the small letter has the same low bits
    under 011. *)
Definition lower_ascii (c : ascii) : ascii :=
  match c with
  | Ascii b0 b1 b2 b3 b4 false true false =>
      let zero := negb (b0 || b1 || b2 || b3 || b4) in
      let above_26 := b4 && b3 && (b2 || (b1 && b0)) in
      if zero || above_26 then c else Ascii b0 b1 b2 b3 b4 true true false
  | _ => c
  end.

Fixpoint lower (s : string) : string :=
  match s with
  | EmptyString => EmptyString
  | String c rest => String (lower_ascii c) (lower rest)
  end.

(** A route path is matched as Express does with its default settings
    (case-insensitive routing, strict routing off): segment by segment, a
    literal segment in any letter case, a parameter taking one segment that
    is not empty, and after the last segment of the route one trailing slash,
    which the path carries as an empty last segment.  Segments are taken to
    hold no percent-escape, so a parameter's value is the segment itself. *)
Fixpoint match_segments (pat : list Seg) (path : list string) : option Params :=
  match pat, path with
  | [], [] => Some []
  | [], x :: [] => if String.eqb x "" then Some [] else None
  | Lit s :: pat', x :: path' =>
      if String.eqb (lower s) (lower x) then match_segments pat' path' else None
  | Param n :: pat', x :: path' =>
      if String.eqb x "" then None
      else match match_segments pat' path' with
           | Some ps => Some ((n, x) :: ps)
           | None => None
           end
  | _, _ => None
  end.

(** The root route takes the root path only. *)
Definition match_path (pat : list Seg) (path : list string) : option Params :=
  match pat, path with
  | [], [] => Some []
  | [], _ :: _ => None
  | _ :: _, _ => match_segments pat path
  end.

Definition Handler (St : Type) : Type := Params -> Request -> Ran St.

Inductive Layer (St : Type) :=
| Route (m : Method) (pat : list Seg) (stack : list (string * Handler St))
| Use (name : string) (h : Request -> Ran St)
| UseErr (name : string) (h : Exn -> Request -> Ran St).

Arguments Route {St} m pat stack.
Arguments Use {St} name h.
Arguments UseErr {St} name h.

(** The result of serving a request: the response, the database, the counters
    and the names of the functions that ran, in order. *)
Definition Served (St : Type) : Type := Response * St * Ctr * list string.

(** The handlers of one route run in order until one of them does not call
    [next()]. *)
Fixpoint run_stack {St} (stack : list (string * Handler St)) (ps : Params) (req : Request)
    (env : Env) (s : St) (c : Ctr) (tr : list string) : Outcome * St * Ctr * list string :=
  match stack with
  | [] => (CallNext, s, c, tr)
  | (name, h) :: rest =>
      match h ps req env s c with
      | (CallNext, s', c') => run_stack rest ps req env s' c' (tr ++ [name])
      | (o, s', c') => (o, s', c', tr ++ [name])
      end
  end.

(** Express's own last resort when no layer answered. *)
Definition finalhandler (pending : option Exn) : Response :=
  match pending with
  | None => res_status_json 404 (JStr "Not Found")
  | Some _ => res_status_json 500 (JStr "Internal Server Error")
  end.

(** The walk over the layers.  While no error is pending, routes and plain
    middleware are tried in registration order and error middleware is
    skipped; once [next(error)] was called, only error middleware is tried. *)
Fixpoint dispatch {St} (layers : list (Layer St)) (pending : option Exn) (req : Request)
    (env : Env) (s : St) (c : Ctr) (tr : list string) : Served St :=
  match layers with
  | [] => (finalhandler pending, s, c, tr)
  | Route m pat stack :: rest =>
      match pending with
      | Some _ => dispatch rest pending req env s c tr
      | None =>
          if Method_eqb m (req_method req) then
            match match_path pat (req_path req) with
            | Some ps =>
                match run_stack stack ps req env s c tr with
                | (Responded r, s', c', tr') => (r, s', c', tr')
                | (CallNext, s', c', tr') => dispatch rest None req env s' c' tr'
                | (CallNextErr e, s', c', tr') => dispatch rest (Some e) req env s' c' tr'
                end
            | None => dispatch rest pending req env s c tr
            end
          else dispatch rest pending req env s c tr
      end
  | Use name h :: rest =>
      match pending with
      | Some _ => dispatch rest pending req env s c tr
      | None =>
          match h req env s c with
          | (Responded r, s', c') => (r, s', c', tr ++ [name])
          | (CallNext, s', c') => dispatch rest None req env s' c' (tr ++ [name])
          | (CallNextErr e, s', c') => dispatch rest (Some e) req env s' c' (tr ++ [name])
          end
      end
  | UseErr name h :: rest =>
      match pending with
      | None => dispatch rest pending req env s c tr
      | Some e =>
          match h e req env s c with
          | (Responded r, s', c') => (r, s', c', tr ++ [name])
          | (CallNext, s', c') => dispatch rest None req env s' c' (tr ++ [name])
          | (CallNextErr e', s', c') => dispatch rest (Some e') req env s' c' (tr ++ [name])
          end
      end
  end.

Definition serve {St} (app : list (Layer St)) (env : Env) (s : St) (req : Request) : Served St :=
  dispatch app None req env s ctr0 [].

Definition response_of {St} (r : Served St) : Response := r.1.1.1.
Definition db_of {St} (r : Served St) : St := r.1.1.2.
Definition ctr_of {St} (r : Served St) : Ctr := r.1.2.
Definition trace_of {St} (r : Served St) : list string := r.2.

(** The body parsers and [cors()] pass every request of the four methods on. *)
Definition passthrough {St} : Request -> Ran St := fun _ _ s c => (CallNext, s, c).

(** A handler that answers without looking at the database. *)
Definition answer {St} (r : Response) : Ran St := fun _ s c => (Responded r, s, c).

(** ** src/riwayat.js *)

Module Riwayat.

(** Table HISTORY, keyed by [email]. *)
Record HistoryRow := { h_id : string; h_title : string }.

(** Table MESSAGE, keyed by [message_id]. *)
Record MessageRow := {
  m_email : string;
  m_message : string;
  m_created_at : Z;
  m_is_speech_to_text : bool }.

Record DB := {
  HISTORY : gmap string HistoryRow;
  MESSAGE : gmap string MessageRow }.

Definition history_json (email : string) (h : HistoryRow) : Json :=
  JObj [("email", JStr email); ("id", JStr (h_id h)); ("title", JStr (h_title h))].

Definition message_json (kv : string * MessageRow) : Json :=
  JObj [("message_id", JStr kv.1); ("email", JStr (m_email kv.2));
        ("message", JStr (m_message kv.2)); ("created_at", JNum (m_created_at kv.2));
        ("is_speech_to_text", JBool (m_is_speech_to_text kv.2))].

(** [History.findOne({ where: { email } })] *)
Definition History_findOne (email : string) : M DB (option HistoryRow) :=
  db_stmt (fun _ db => inr (HISTORY db !! email, db)).

(** [History.create({ email, id, title })] *)
Definition History_create (email id title : string) : M DB unit :=
  db_stmt (fun _ db =>
    match HISTORY db !! email with
    | Some _ => inl unique_violation
    | None =>
        inr (tt, {| HISTORY := <[email := {| h_id := id; h_title := title |}]> (HISTORY db);
                    MESSAGE := MESSAGE db |})
    end).

(** [Message.create({ message_id, email, message, created_at, is_speech_to_text })] *)
Definition Message_create (message_id : string) (row : MessageRow) : M DB unit :=
  db_stmt (fun _ db =>
    match MESSAGE db !! message_id with
    | Some _ => inl unique_violation
    | None =>
        inr (tt, {| HISTORY := HISTORY db;
                    MESSAGE := <[message_id := row]> (MESSAGE db) |})
    end).

(** [Message.findAll({ where: { email } })] *)
Definition Message_findAll (email : string) : M DB (list (string * MessageRow)) :=
  db_stmt (fun _ db =>
    inr (map_to_list (filter (fun kv => m_email kv.2 = email) (MESSAGE db)), db)).

(** [Message.destroy({ where: { email } })] *)
Definition Message_destroy (email : string) : M DB unit :=
  db_stmt (fun _ db =>
    inr (tt, {| HISTORY := HISTORY db;
                MESSAGE := filter (fun kv => m_email kv.2 ≠ email) (MESSAGE db) |})).

(** [History.destroy({ where: { email } })] *)
Definition History_destroy (email : string) : M DB unit :=
  db_stmt (fun _ db =>
    inr (tt, {| HISTORY := delete email (HISTORY db); MESSAGE := MESSAGE db |})).

(** [catch (error) { res.status(500).json({ message: error.message }) }] *)
Definition catch_500 (e : Exn) : Outcome :=
  Responded (res_status_json 500 (JObj [("message", JStr (exn_message e))])).

Definition welcome : Handler DB := fun _ _ =>
  answer (res_json (JObj [("success", JBool true);
                          ("message", JStr "Welcome to API for HISTORY and MESSAGE");
                          ("version", JStr "1.0.0")])).

(** POST /api/history/email *)
Definition post_history_email : Handler DB := fun _ req =>
  try_catch
    (let email := body_email req in
     let title := body_title req in
     if negb (truthy_str email) || negb (truthy_str title) then
       ret (Responded (res_status_json 400
              (JObj [("message", JStr "Email dan title harus diisi")])))
     else
       existingHistory <- History_findOne (str_of email) ;;
       match existingHistory with
       | Some _ =>
           ret (Responded (res_status_json 400
                  (JObj [("message", JStr "Email sudah terdaftar")])))
       | None =>
           id <- uuidv4 ;;
           History_create (str_of email) id (str_of title) ;;;
           ret (Responded (res_status_json 201
                  (JObj [("message", JStr "Data History berhasil dibuat");
                         ("data", JObj [("email", JStr (str_of email)); ("id", JStr id);
                                        ("title", JStr (str_of title))])])))
       end)
    catch_500.

(** POST /api/history/:email *)
Definition post_history_by_email : Handler DB := fun ps req =>
  try_catch
    (let email := param "email" ps in
     let message := body_message req in
     let is_speech_to_text := body_is_speech_to_text req in
     match is_speech_to_text with
     | Some stt =>
         if negb (truthy_str message) then
           ret (Responded (res_status_json 400
                  (JObj [("message", JStr "Message dan is_speech_to_text harus diisi")])))
         else
           existingHistory <- History_findOne email ;;
           match existingHistory with
           | None =>
               ret (Responded (res_status_json 404
                      (JObj [("message",
                              JStr ("History dengan email " +:+ email +:+ " tidak ditemukan"))])))
           | Some _ =>
               message_id <- uuidv4 ;;
               created_at <- new_Date ;;
               Message_create message_id
                 {| m_email := email; m_message := str_of message;
                    m_created_at := created_at; m_is_speech_to_text := stt |} ;;;
               ret (Responded (res_status_json 201
                      (JObj [("message", JStr "Data Message berhasil dibuat");
                             ("data", JObj [("message_id", JStr message_id);
                                            ("email", JStr email);
                                            ("message", JStr (str_of message));
                                            ("created_at", JNum created_at);
                                            ("is_speech_to_text", JBool stt)])])))
           end
     | None =>
         ret (Responded (res_status_json 400
                (JObj [("message", JStr "Message dan is_speech_to_text harus diisi")])))
     end)
    catch_500.

(** GET /api/history/:email *)
Definition get_history_by_email : Handler DB := fun ps _ =>
  try_catch
    (let email := param "email" ps in
     history <- History_findOne email ;;
     match history with
     | None =>
         ret (Responded (res_status_json 404
                (JObj [("message",
                        JStr ("History dengan email " +:+ email +:+ " tidak ditemukan"))])))
     | Some h =>
         messages <- Message_findAll email ;;
         ret (Responded (res_json
                (JObj [("message", JStr "Data ditemukan");
                       ("data", JObj [("history", history_json email h);
                                      ("messages", JArr (map message_json messages))])])))
     end)
    catch_500.

(** DELETE /api/history/:email *)
Definition delete_history_by_email : Handler DB := fun ps _ =>
  try_catch
    (let email := param "email" ps in
     history <- History_findOne email ;;
     match history with
     | None =>
         ret (Responded (res_status_json 404
                (JObj [("message",
                        JStr ("History dengan email " +:+ email +:+ " tidak ditemukan"))])))
     | Some _ =>
         Message_destroy email ;;;
         History_destroy email ;;;
         ret (Responded (res_json
                (JObj [("message",
                        JStr ("History dan message dengan email " +:+ email
                              +:+ " telah dihapus"))])))
     end)
    catch_500.

Definition error_middleware : Exn -> Request -> Ran DB := fun err _ =>
  answer (res_status_json 500
            (JObj [("message", JStr "Internal server error");
                   ("error", JStr (exn_message err))])).

Definition api_history : list Seg := [Lit "api"; Lit "history"].

Definition app : list (Layer DB) :=
  [ Use "cors" passthrough;
    Use "express.json" passthrough;
    Route GET [] [("welcome", welcome)];
    Route POST (api_history ++ [Lit "email"]) [("post_history_email", post_history_email)];
    Route POST (api_history ++ [Param "email"]) [("post_history_by_email", post_history_by_email)];
    Route GET (api_history ++ [Param "email"]) [("get_history_by_email", get_history_by_email)];
    Route DELETE (api_history ++ [Param "email"])
      [("delete_history_by_email", delete_history_by_email)];
    UseErr "error_middleware" error_middleware ].

End Riwayat.

(** ** src/history.js *)

Module HistoryJs.

(** Table [history], keyed by [id].  The model declares every column with
    [allowNull: false] and [sequelize.sync()] creates the table from it, so a
    stored row holds a message and a flag; both are carried as options
    because the raw INSERT and the raw SELECT pass NULL through the
    application. *)
Record HistoryRow := {
  h_title : string;
  h_message : option string;
  h_is_speech_to_text : option bool;
  h_email : string;
  h_created_at : Z }.

Record DB := { history : gmap string HistoryRow }.

(** A row as a raw SELECT returns it (a BOOLEAN column comes back as 0 or 1)
    and as a model instance serialises. *)
Definition tinyint (b : bool) : Json := JNum (if b then 1 else 0).

Definition raw_json (kv : string * HistoryRow) : Json :=
  JObj [("id", JStr kv.1); ("title", JStr (h_title kv.2));
        ("message", json_opt JStr (h_message kv.2));
        ("is_speech_to_text", json_opt tinyint (h_is_speech_to_text kv.2));
        ("email", JStr (h_email kv.2)); ("created_at", JNum (h_created_at kv.2))].

Definition instance_json (kv : string * HistoryRow) : Json :=
  JObj [("id", JStr kv.1); ("title", JStr (h_title kv.2));
        ("message", json_opt JStr (h_message kv.2));
        ("is_speech_to_text", json_opt JBool (h_is_speech_to_text kv.2));
        ("email", JStr (h_email kv.2)); ("created_at", JNum (h_created_at kv.2))].

Definition with_email (email : string) (db : DB) : list (string * HistoryRow) :=
  map_to_list (filter (fun kv => h_email kv.2 = email) (history db)).

(** [SELECT * FROM history WHERE email = ?] and
    [History.findAll({ where: { email } })] *)
Definition select_where_email (email : string) : M DB (list (string * HistoryRow)) :=
  db_stmt (fun _ db => inr (with_email email db, db)).

(** [History.findOne({ where: { email } })]: the first of the matching rows. *)
Definition History_findOne (email : string) : M DB (option (string * HistoryRow)) :=
  db_stmt (fun _ db => inr (head (with_email email db), db)).

(** [History.findByPk(key)] *)
Definition History_findByPk (key : string) : M DB (option (string * HistoryRow)) :=
  db_stmt (fun _ db => inr ((fun r => (key, r)) <$> history db !! key, db)).

(** What the table answers to a NULL bound for a column declared NOT NULL. *)
Definition not_null_violation (column : string) : Exn :=
  {| exn_class := SequelizeDatabaseError;
     exn_message := "Column '" +:+ column +:+ "' cannot be null";
     exn_errors := [] |}.

(** [INSERT INTO history (id, title, message, created_at, email,
    is_speech_to_text) VALUES (?, ?, ?, ?, ?, ?)].  The statement goes to the
    table as the model declares it: a NULL message or flag is refused, and so
    is a key that is taken. *)
Definition insert_history (id : string) (row : HistoryRow) : M DB unit :=
  db_stmt (fun _ db =>
    match h_message row, h_is_speech_to_text row with
    | None, _ => inl (not_null_violation "message")
    | Some _, None => inl (not_null_violation "is_speech_to_text")
    | Some _, Some _ =>
        match history db !! id with
        | Some _ => inl unique_violation
        | None => inr (tt, {| history := <[id := row]> (history db) |})
        end
    end).

(** The three assignments to the instance before [save()]. *)
Definition set_message (message : string) (stt : bool) (createdAt : Z)
    (r : HistoryRow) : HistoryRow :=
  {| h_title := h_title r;
     h_message := Some message;
     h_is_speech_to_text := Some stt;
     h_email := h_email r;
     h_created_at := createdAt |}.

(** [instance.save()]: an UPDATE of the changed columns of the row with the
    instance's primary key. *)
Definition save_message (id : string) (message : string) (stt : bool) (createdAt : Z)
    : M DB unit :=
  db_stmt (fun _ db =>
    inr (tt, {| history := alter (set_message message stt createdAt) id (history db) |})).

Definition newer_first (a b : string * HistoryRow) : Prop :=
  h_created_at b.2 <= h_created_at a.2.

#[global] Instance newer_first_dec a b : Decision (newer_first a b) :=
  Z_le_dec (h_created_at b.2) (h_created_at a.2).

(** [SELECT * FROM history ORDER BY created_at DESC] *)
Definition select_order_by_created_at_desc : M DB (list (string * HistoryRow)) :=
  db_stmt (fun _ db => inr (merge_sort newer_first (map_to_list (history db)), db)).

(** [History.destroy({ where: { email } })] *)
Definition History_destroy_where (email : string) : M DB unit :=
  db_stmt (fun _ db =>
    inr (tt, {| history := filter (fun kv => h_email kv.2 ≠ email) (history db) |})).

(** [instance.destroy()] *)
Definition History_destroy_instance (id : string) : M DB unit :=
  db_stmt (fun _ db => inr (tt, {| history := delete id (history db) |})).

Definition error_json (msg : string) : Json :=
  JObj [("status", JStr "error"); ("message", JStr msg)].

Definition welcome : Handler DB := fun _ _ =>
  answer (res_json
    (JObj [("success", JBool true);
           ("message", JStr "Welcome to Capstone API");
           ("version", JStr "1.0.0");
           ("endpoints", JObj [("soundboards", JStr "/api/soundboards");
                               ("history", JStr "/api/history");
                               ("profile", JStr "/api/profile");
                               ("feedback", JStr "/api/feedback")])])).

Definition health : Handler DB := fun _ _ env =>
  answer (res_json
    (JObj [("success", JBool true);
           ("timestamp", JNum (env_now env));
           ("uptime", JNum (env_uptime env));
           ("status", JStr "healthy")])) env.

(** POST /api/history/email *)
Definition post_history_email : Handler DB := fun _ req =>
  try_catch
    (let title := body_title req in
     let email := body_email req in
     if negb (truthy_str title) || negb (truthy_str email) then
       ret (Responded (res_status_json 400 (error_json "Title dan email harus diisi")))
     else
       existingEntry <- select_where_email (str_of email) ;;
       if (0 <? length existingEntry)%nat then
         ret (Responded (res_status_json 400 (error_json "Email sudah terdaftar")))
       else
         id <- uuidv4 ;;
         createdAt <- new_Date ;;
         insert_history id
           {| h_title := str_of title; h_message := None; h_is_speech_to_text := None;
              h_email := str_of email; h_created_at := createdAt |} ;;;
         ret (Responded (res_status_json 201
                (JObj [("status", JStr "success create data");
                       ("data", JObj [("id", JStr id);
                                      ("title", JStr (str_of title));
                                      ("message", JNull);
                                      ("created_at", JNum createdAt);
                                      ("email", JStr (str_of email));
                                      ("is_speech_to_text", JNull)])]))))
    CallNextErr.

(** POST /api/history/:email *)
Definition post_history_by_email : Handler DB := fun ps req =>
  try_catch
    (let email := param "email" ps in
     let message := body_message req in
     let is_speech_to_text := body_is_speech_to_text req in
     match is_speech_to_text with
     | Some stt =>
         if negb (truthy_str message) then
           ret (Responded (res_status_json 400
                  (error_json "Message dan is_speech_to_text harus diisi")))
         else
           existingHistory <- History_findOne email ;;
           createdAt <- new_Date ;;
           match existingHistory with
           | Some (id, row) =>
               save_message id (str_of message) stt createdAt ;;;
               ret (Responded (res_status_json 200
                      (JObj [("status", JStr "success update data");
                             ("data", instance_json
                                        (id, set_message (str_of message) stt createdAt row))])))
           | None =>
               ret (Responded (res_status_json 404
                      (error_json ("Tidak ditemukan history dengan email " +:+ email))))
           end
     | None =>
         ret (Responded (res_status_json 400
                (error_json "Message dan is_speech_to_text harus diisi")))
     end)
    CallNextErr.

Definition truthy_flag (o : option bool) : bool := default false o.

Definition detection_type (o : option bool) : Json :=
  JStr (if truthy_flag o then "Speech to Text" else "Gesture Detection").

(** The object the two GET routes build from a row; [flag] is how the row
    carries its BOOLEAN column. *)
Definition formatted_fields (flag : bool -> Json) (kv : string * HistoryRow)
    : Json * Json * Json * Json * Json :=
  (JStr kv.1, JStr (h_email kv.2), JStr (h_title kv.2),
   JArr [JObj [("text", json_opt JStr (h_message kv.2));
               ("created_at", JNum (h_created_at kv.2));
               ("is_speech_to_text", json_opt flag (h_is_speech_to_text kv.2))]],
   detection_type (h_is_speech_to_text kv.2)).

Definition format_listed (kv : string * HistoryRow) : Json :=
  let '(id, email, title, message, detection) := formatted_fields tinyint kv in
  JObj [("id", id); ("email", email); ("title", title); ("message", message);
        ("detection_type", detection)].

Definition format_found (kv : string * HistoryRow) : Json :=
  let '(id, email, title, message, detection) := formatted_fields JBool kv in
  JObj [("email", email); ("id", id); ("title", title); ("message", message);
        ("detection_type", detection)].

(** GET /api/history *)
Definition get_history : Handler DB := fun _ _ =>
  try_catch
    (histories <- select_order_by_created_at_desc ;;
     if (length histories =? 0)%nat then
       ret (Responded (res_status_json 404 (error_json "History tidak ditemukan")))
     else
       ret (Responded (res_json
              (JObj [("status", JStr "success get data");
                     ("data", JArr (map format_listed histories))]))))
    (fun error =>
       Responded (res_status_json 500
         (error_json (if String.eqb (exn_message error) "" then "Something went wrong"
                      else exn_message error)))).

(** GET /api/history/:email *)
Definition get_history_by_email : Handler DB := fun ps _ =>
  try_catch
    (let email := param "email" ps in
     histories <- select_where_email email ;;
     if (length histories =? 0)%nat then
       ret (Responded (res_status_json 404
              (error_json ("History untuk email " +:+ email +:+ " tidak ditemukan"))))
     else
       ret (Responded (res_json
              (JObj [("status", JStr "success get data");
                     ("data", JArr (map format_found histories))]))))
    CallNextErr.

(** DELETE /api/history/:email, as registered first *)
Definition delete_history_by_email : Handler DB := fun ps _ =>
  try_catch
    (let email := param "email" ps in
     histories <- select_where_email email ;;
     if (length histories =? 0)%nat then
       ret (Responded (res_status_json 404
              (error_json ("History untuk email " +:+ email +:+ " tidak ditemukan"))))
     else
       History_destroy_where email ;;;
       ret (Responded (res_json
              (JObj [("status", JStr "success");
                     ("message", JStr ("History dengan Email " +:+ email
                                       +:+ " telah dihapus"))]))))
    CallNextErr.

(** DELETE /api/history/:email, as registered second *)
Definition delete_history_by_pk : Handler DB := fun ps _ =>
  try_catch
    (let email := param "email" ps in
     history <- History_findByPk email ;;
     match history with
     | None =>
         ret (Responded (res_status_json 404 (error_json "History tidak ditemukan")))
     | Some (id, _) =>
         History_destroy_instance id ;;;
         ret (Responded (res_json
                (JObj [("status", JStr "success");
                       ("message", JStr ("History dengan Email " +:+ email
                                         +:+ " telah dihapus"))])))
     end)
    CallNextErr.

Definition not_found : Request -> Ran DB := fun _ =>
  answer (res_status_json 404 (error_json "Route not found")).

Definition error_middleware : Exn -> Request -> Ran DB := fun err _ env =>
  answer
    (match exn_class err with
     | MulterError =>
         res_status_json 400
           (JObj [("status", JStr "error"); ("message", JStr "File upload error");
                  ("error", JStr (exn_message err))])
     | SequelizeValidationError =>
         res_status_json 400
           (JObj [("status", JStr "error"); ("message", JStr "Validation error");
                  ("errors", JArr (map JStr (exn_errors err)))])
     | _ =>
         res_status_json 500
           (JObj [("status", JStr "error"); ("message", JStr "Internal server error");
                  ("error", JStr (if env_development env then exn_message err
                                  else "Something went wrong"))])
     end) env.

Definition api_history : list Seg := [Lit "api"; Lit "history"].

Definition app : list (Layer DB) :=
  [ Use "cors" passthrough;
    Use "express.json" passthrough;
    Use "express.urlencoded" passthrough;
    Route GET [] [("welcome", welcome)];
    Route GET [Lit "health"] [("health", health)];
    Route POST (api_history ++ [Lit "email"]) [("post_history_email", post_history_email)];
    Route POST (api_history ++ [Param "email"]) [("post_history_by_email", post_history_by_email)];
    Route GET api_history [("get_history", get_history)];
    Route GET (api_history ++ [Param "email"]) [("get_history_by_email", get_history_by_email)];
    Route DELETE (api_history ++ [Param "email"])
      [("delete_history_by_email", delete_history_by_email)];
    Route DELETE (api_history ++ [Param "email"])
      [("delete_history_by_pk", delete_history_by_pk)];
    Use "not_found" not_found;
    UseErr "error_middleware" error_middleware ].

End HistoryJs.

(** ** The Capstone server, second copy (with welcome and health routes)

    Embedded routes: GET /, GET /health, POST and GET /api/soundboards,
    GET /api/history, GET and PUT /api/profile, POST /api/feedback, the 404
    layer and the error middleware.  POST /api/history and
    GET /api/history/:id are not embedded; no request to an embedded route
    matches their paths. *)

Module Capstone.

(** Table of the [Soundboard] model, keyed by [id]. *)
Record SoundboardRow := {
  s_text : string;
  s_audioUrl : string;
  s_fileName : string;
  s_createdAt : Z;
  s_updatedAt : Z }.

(** Tables [history], [profile] and [feedback], keyed by their integer [id]. *)
Record HistoryRow := {
  h_title : string;
  h_message : string;
  h_created_at : Z;
  h_updated_at : Z }.

Record ProfileRow := {
  p_name : string;
  p_profile_picture_url : option string;
  p_created_at : Z;
  p_updated_at : Z }.

Record FeedbackRow := {
  f_comment : string;
  f_rating : Z;
  f_created_at : Z;
  f_updated_at : Z }.

(** [feedback_auto_increment] is the id the next INSERT into [feedback] gets. *)
Record DB := {
  soundboards : gmap string SoundboardRow;
  history : gmap Z HistoryRow;
  profile : gmap Z ProfileRow;
  feedback : gmap Z FeedbackRow;
  feedback_auto_increment : Z }.

Definition soundboard_json (kv : string * SoundboardRow) : Json :=
  JObj [("id", JStr kv.1); ("text", JStr (s_text kv.2));
        ("audioUrl", JStr (s_audioUrl kv.2)); ("fileName", JStr (s_fileName kv.2));
        ("updatedAt", JNum (s_updatedAt kv.2)); ("createdAt", JNum (s_createdAt kv.2))].

Definition history_json (kv : Z * HistoryRow) : Json :=
  JObj [("id", JNum kv.1); ("title", JStr (h_title kv.2));
        ("message", JStr (h_message kv.2)); ("created_at", JNum (h_created_at kv.2));
        ("updated_at", JNum (h_updated_at kv.2))].

Definition profile_json (kv : Z * ProfileRow) : Json :=
  JObj [("id", JNum kv.1); ("name", JStr (p_name kv.2));
        ("profile_picture_url", json_opt JStr (p_profile_picture_url kv.2));
        ("created_at", JNum (p_created_at kv.2));
        ("updated_at", JNum (p_updated_at kv.2))].

(** *** Multer *)

Definition allowedMimes : list string := ["image/jpeg"; "image/png"; "image/jpg"].

Definition includes (l : list string) (x : string) : bool := existsb (String.eqb x) l.

Definition fileSize_limit : N := 5 * 1024 * 1024.

(** [upload.single("profile_picture")] with the given [fileFilter] message:
    the filter sees the part's headers first, the size limit applies while
    the part is read and is hit as soon as the part holds [fileSize] bytes. *)
Definition upload_single {St} (filter_message : string) : Handler St := fun _ req _ s c =>
  match req_upload req with
  | None => (CallNext, s, c)
  | Some file =>
      if includes allowedMimes (mimetype file) then
        if (fileSize_limit <=? size file)%N then
          (CallNextErr {| exn_class := MulterError; exn_message := "File too large";
                          exn_errors := [] |}, s, c)
        else (CallNext, s, c)
      else (CallNextErr (Error filter_message), s, c)
  end.

(** *** Helper functions *)

Definition generateSpeech {St} (text : string) : M St string :=
  env <- ask ;;
  if negb (env_tts_client env) then throw (Error "Text-to-Speech client not initialized")
  else
    match env_synthesize env text with
    | inl audioContent => ret audioContent
    | inr message => throw (Error ("Error generating speech: " +:+ message))
    end.

Definition publicUrl (env : Env) (filename : string) : string :=
  "https://storage.googleapis.com/" +:+ env_bucket_name env +:+ "/" +:+ filename.

Definition uploadToGCS {St} (buffer filename contentType : string) : M St string :=
  env <- ask ;;
  if negb (env_bucket env) then throw (Error "Storage bucket not initialized")
  else
    match env_gcs_save env filename with
    | None => ret (publicUrl env filename)
    | Some message => throw (Error ("Error uploading to Google Cloud Storage: " +:+ message))
    end.

(** *** Statements *)

(** [Soundboard.create({ text, audioUrl, fileName })]: the id is the model's
    [UUIDV4] default, both timestamps are set by Sequelize. *)
Definition Soundboard_create (text audioUrl fileName : string)
    : M DB (string * SoundboardRow) :=
  id <- uuidv4 ;;
  now <- new_Date ;;
  let row := {| s_text := text; s_audioUrl := audioUrl; s_fileName := fileName;
                s_createdAt := now; s_updatedAt := now |} in
  db_stmt (fun _ db =>
    match soundboards db !! id with
    | Some _ => inl unique_violation
    | None =>
        inr ((id, row),
             {| soundboards := <[id := row]> (soundboards db);
                history := history db; profile := profile db;
                feedback := feedback db;
                feedback_auto_increment := feedback_auto_increment db |})
    end).

Definition newest_soundboard_first (a b : string * SoundboardRow) : Prop :=
  s_createdAt b.2 <= s_createdAt a.2.

#[global] Instance newest_soundboard_first_dec a b : Decision (newest_soundboard_first a b) :=
  Z_le_dec (s_createdAt b.2) (s_createdAt a.2).

(** [Soundboard.findAll({ order: [["createdAt", "DESC"]] })] *)
Definition Soundboard_findAll : M DB (list (string * SoundboardRow)) :=
  db_stmt (fun _ db =>
    inr (merge_sort newest_soundboard_first (map_to_list (soundboards db)), db)).

Definition newer_history_first (a b : Z * HistoryRow) : Prop :=
  h_created_at b.2 <= h_created_at a.2.

#[global] Instance newer_history_first_dec a b : Decision (newer_history_first a b) :=
  Z_le_dec (h_created_at b.2) (h_created_at a.2).

(** [sequelize.query("SELECT * FROM history ORDER BY created_at DESC",
    { type: Sequelize.QueryTypes.SELECT })]: with this query type the promise
    resolves to the array of rows itself. *)
Definition select_history_desc : M DB (list (Z * HistoryRow)) :=
  db_stmt (fun _ db => inr (merge_sort newer_history_first (map_to_list (history db)), db)).

(** [SELECT * FROM profile LIMIT 1] *)
Definition select_profile_limit_1 : M DB (list (Z * ProfileRow)) :=
  db_stmt (fun _ db => inr (take 1 (map_to_list (profile db)), db)).

Definition set_name (name : string) (now : Z) (r : ProfileRow) : ProfileRow :=
  {| p_name := name; p_profile_picture_url := p_profile_picture_url r;
     p_created_at := p_created_at r; p_updated_at := now |}.

Definition set_name_and_picture (name url : string) (now : Z) (r : ProfileRow) : ProfileRow :=
  {| p_name := name; p_profile_picture_url := Some url;
     p_created_at := p_created_at r; p_updated_at := now |}.

Definition with_profile (db : DB) (p : gmap Z ProfileRow) : DB :=
  {| soundboards := soundboards db; history := history db; profile := p;
     feedback := feedback db; feedback_auto_increment := feedback_auto_increment db |}.

(** [UPDATE profile SET name = ?, updated_at = NOW() WHERE id = 1] *)
Definition update_profile_name (name : string) : M DB unit :=
  db_stmt (fun env db =>
    inr (tt, with_profile db (alter (set_name name (env_db_now env)) 1 (profile db)))).

(** [UPDATE profile SET name = ?, profile_picture_url = ?, updated_at = NOW()
    WHERE id = 1] *)
Definition update_profile_name_and_picture (name url : string) : M DB unit :=
  db_stmt (fun env db =>
    inr (tt, with_profile db
               (alter (set_name_and_picture name url (env_db_now env)) 1 (profile db)))).

(** [INSERT INTO feedback (comment, rating, created_at, updated_at)
    VALUES (?, ?, NOW(), NOW())]; the first component of what the promise
    resolves to is the id of the new row. *)
Definition insert_feedback (comment : string) (rating : Z) : M DB Z :=
  db_stmt (fun env db =>
    let id := feedback_auto_increment db in
    match feedback db !! id with
    | Some _ => inl unique_violation
    | None =>
        inr (id,
             {| soundboards := soundboards db; history := history db;
                profile := profile db;
                feedback := <[id := {| f_comment := comment; f_rating := rating;
                                       f_created_at := env_db_now env;
                                       f_updated_at := env_db_now env |}]> (feedback db);
                feedback_auto_increment := id + 1 |})
    end).

(** *** Routes *)

Definition welcome : Handler DB := fun _ _ =>
  answer (res_json
    (JObj [("success", JBool true);
           ("message", JStr "Welcome to Capstone API");
           ("version", JStr "1.0.0");
           ("endpoints", JObj [("soundboards", JStr "/api/soundboards");
                               ("history", JStr "/api/history");
                               ("profile", JStr "/api/profile");
                               ("feedback", JStr "/api/feedback")])])).

Definition health : Handler DB := fun _ _ env =>
  answer (res_json
    (JObj [("success", JBool true);
           ("timestamp", JNum (env_now env));
           ("uptime", JNum (env_uptime env));
           ("status", JStr "healthy")])) env.

(** POST /api/soundboards *)
Definition post_soundboards : Handler DB := fun _ req =>
  try_catch
    (let text := body_text req in
     if negb (truthy_str text) then
       ret (Responded (res_status_json 400
              (JObj [("success", JBool false); ("error", JStr "Text is required")])))
     else
       audioBuffer <- generateSpeech (str_of text) ;;
       uuid <- uuidv4 ;;
       let fileName := uuid +:+ ".mp3" in
       audioUrl <- uploadToGCS audioBuffer fileName "audio/mpeg" ;;
       soundboard <- Soundboard_create (str_of text) audioUrl fileName ;;
       ret (Responded (res_status_json 201
              (JObj [("success", JBool true);
                     ("message", JStr "Soundboard created successfully");
                     ("data", soundboard_json soundboard)]))))
    CallNextErr.

(** GET /api/soundboards *)
Definition get_soundboards : Handler DB := fun _ _ =>
  try_catch
    (soundboards <- Soundboard_findAll ;;
     ret (Responded (res_json
            (JObj [("success", JBool true);
                   ("message", JStr "Soundboards retrieved successfully");
                   ("data", JArr (map soundboard_json soundboards))]))))
    CallNextErr.

(** A property whose value is [undefined] is left out by [res.json]. *)
Definition data_field {A} (f : A -> Json) (o : option A) : list (string * Json) :=
  match o with
  | Some a => [("data", f a)]
  | None => []
  end.

(** GET /api/history.  [const [histories] = await sequelize.query(...)] binds
    [histories] to the first element of the array of rows. *)
Definition get_history : Handler DB := fun _ _ =>
  try_catch
    (rows <- select_history_desc ;;
     let histories := head rows in
     ret (Responded (res_json
            (JObj (("success", JBool true) :: data_field history_json histories)))))
    CallNextErr.

(** GET /api/profile *)
Definition get_profile : Handler DB := fun _ _ =>
  try_catch
    (rows <- select_profile_limit_1 ;;
     match head rows with
     | None =>
         ret (Responded (res_status_json 404
                (JObj [("success", JBool false);
                       ("message", JStr "Profil tidak ditemukan")])))
     | Some profile =>
         ret (Responded (res_json
                (JObj [("success", JBool true); ("data", profile_json profile)])))
     end)
    CallNextErr.

(** The part of PUT /api/profile the two copies share: [update_name] and
    [update_both] are the two UPDATE statements, [upload] is [uploadToGCS]. *)
Definition put_profile_body
    (upload : string -> string -> string -> M DB string)
    (update_name : string -> M DB unit)
    (update_both : string -> string -> M DB unit)
    (req : Request) : M DB Outcome :=
  let name := body_name req in
  if negb (truthy_str name) then
    ret (Responded (res_status_json 400
           (JObj [("success", JBool false); ("message", JStr "Name is required")])))
  else
    profilePictureUrl <-
      match req_upload req with
      | Some file =>
          now <- new_Date ;;
          let filename := "profiles/" +:+ pretty now +:+ "-" +:+ originalname file in
          url <- upload (buffer file) filename (mimetype file) ;;
          ret (Some url)
      | None => ret None
      end ;;
    (if truthy_str profilePictureUrl
     then update_both (str_of name) (str_of profilePictureUrl)
     else update_name (str_of name)) ;;;
    ret (Responded (res_json
           (JObj [("success", JBool true);
                  ("data", JObj [("name", JStr (str_of name));
                                 ("profile_picture_url",
                                  json_opt JStr profilePictureUrl)])]))).

(** PUT /api/profile *)
Definition put_profile : Handler DB := fun _ req =>
  try_catch
    (put_profile_body uploadToGCS update_profile_name update_profile_name_and_picture req)
    CallNextErr.

(** POST /api/feedback *)
Definition post_feedback : Handler DB := fun _ req =>
  try_catch
    (let comment := body_comment req in
     let rating := body_rating req in
     if negb (truthy_str comment) || negb (truthy_num rating) then
       ret (Responded (res_status_json 400
              (JObj [("success", JBool false);
                     ("message", JStr "Komentar dan rating harus diisi")])))
     else
       let r := default 0 rating in
       if (r <? 1) || (4 <? r) then
         ret (Responded (res_status_json 400
                (JObj [("success", JBool false);
                       ("message", JStr "Rating harus antara 1-4")])))
       else
         result <- insert_feedback (str_of comment) r ;;
         ret (Responded (res_status_json 201
                (JObj [("success", JBool true);
                       ("data", JObj [("id", JNum result);
                                      ("comment", JStr (str_of comment));
                                      ("rating", JNum r)])]))))
    CallNextErr.

Definition not_found : Request -> Ran DB := fun _ =>
  answer (res_status_json 404
            (JObj [("success", JBool false); ("message", JStr "Route not found")])).

Definition error_middleware : Exn -> Request -> Ran DB := fun err _ env =>
  answer
    (match exn_class err with
     | MulterError =>
         res_status_json 400
           (JObj [("success", JBool false); ("message", JStr "File upload error");
                  ("error", JStr (exn_message err))])
     | SequelizeValidationError =>
         res_status_json 400
           (JObj [("success", JBool false); ("message", JStr "Validation error");
                  ("errors", JArr (map JStr (exn_errors err)))])
     | _ =>
         res_status_json 500
           (JObj [("success", JBool false); ("message", JStr "Internal server error");
                  ("error", JStr (if env_development env then exn_message err
                                  else "Something went wrong"))])
     end) env.

Definition app : list (Layer DB) :=
  [ Use "cors" passthrough;
    Use "express.json" passthrough;
    Use "express.urlencoded" passthrough;
    Route GET [] [("welcome", welcome)];
    Route GET [Lit "health"] [("health", health)];
    Route POST [Lit "api"; Lit "soundboards"] [("post_soundboards", post_soundboards)];
    Route GET [Lit "api"; Lit "soundboards"] [("get_soundboards", get_soundboards)];
    Route GET [Lit "api"; Lit "history"] [("get_history", get_history)];
    Route GET [Lit "api"; Lit "profile"] [("get_profile", get_profile)];
    Route PUT [Lit "api"; Lit "profile"]
      [("upload.single",
        upload_single "File harus berupa gambar (JPG, JPEG, atau PNG).");
       ("put_profile", put_profile)];
    Route POST [Lit "api"; Lit "feedback"] [("post_feedback", post_feedback)];
    Use "not_found" not_found;
    UseErr "error_middleware" error_middleware ].

End Capstone.

(** ** The Capstone server, first copy: PUT /api/profile

    The first copy answers a failure from inside the handler, checks neither
    client before use, and leaves [updated_at] to the table's own default. *)

Module CapstoneFirst.

Import Capstone.

Definition uploadToGCS {St} (buffer filename contentType : string) : M St string :=
  env <- ask ;;
  match env_gcs_save env filename with
  | None => ret (publicUrl env filename)
  | Some message => throw (Error ("Error uploading to Google Cloud Storage: " +:+ message))
  end.

Definition rename (name : string) (r : ProfileRow) : ProfileRow :=
  {| p_name := name; p_profile_picture_url := p_profile_picture_url r;
     p_created_at := p_created_at r; p_updated_at := p_updated_at r |}.

Definition rename_and_picture (name url : string) (r : ProfileRow) : ProfileRow :=
  {| p_name := name; p_profile_picture_url := Some url;
     p_created_at := p_created_at r; p_updated_at := p_updated_at r |}.

(** [UPDATE profile SET name = ? WHERE id = 1] *)
Definition update_profile_name (name : string) : M DB unit :=
  db_stmt (fun _ db => inr (tt, with_profile db (alter (rename name) 1 (profile db)))).

(** [UPDATE profile SET name = ?, profile_picture_url = ? WHERE id = 1] *)
Definition update_profile_name_and_picture (name url : string) : M DB unit :=
  db_stmt (fun _ db =>
    inr (tt, with_profile db (alter (rename_and_picture name url) 1 (profile db)))).

(** PUT /api/profile *)
Definition put_profile : Handler DB := fun _ req =>
  try_catch
    (put_profile_body uploadToGCS update_profile_name update_profile_name_and_picture req)
    (fun error =>
       Responded (res_status_json 500
         (JObj [("success", JBool false); ("message", JStr (exn_message error))]))).

Definition error_middleware : Exn -> Request -> Ran DB := fun err _ =>
  answer (res_status_json 500
            (JObj [("success", JBool false); ("message", JStr (exn_message err))])).

(** The layers a PUT /api/profile request can reach. *)
Definition app : list (Layer DB) :=
  [ Use "cors" passthrough;
    Use "express.json" passthrough;
    Use "express.urlencoded" passthrough;
    Route PUT [Lit "api"; Lit "profile"]
      [("upload.single", upload_single "File harus berupa gambar.");
       ("put_profile", put_profile)];
    UseErr "error_middleware" error_middleware ].

End CapstoneFirst.

(** ** Requests, environments and properties used in the statements *)

(** A request with an empty body. *)
Definition request (m : Method) (path : list string) : Request :=
  {| req_method := m; req_path := path;
     body_title := None; body_email := None; body_message := None;
     body_is_speech_to_text := None; body_text := None; body_name := None;
     body_comment := None; body_rating := None; req_upload := None |}.

(** An environment in which nothing fails. *)
Definition calm : Env :=
  {| env_uuid := fun n => "uuid-" +:+ pretty n;
     env_now := 1700000000000;
     env_db_now := 1700000000001;
     env_uptime := 42;
     env_db_fault := fun _ => None;
     env_tts_client := true;
     env_synthesize := fun text => inl ("mp3:" +:+ text);
     env_bucket := true;
     env_bucket_name := "handlips";
     env_gcs_save := fun _ => None;
     env_development := false |}.

(** The same, except that the n-th statement sent to the database throws. *)
Definition db_down_at (n : nat) : Env :=
  {| env_uuid := env_uuid calm;
     env_now := env_now calm;
     env_db_now := env_db_now calm;
     env_uptime := env_uptime calm;
     env_db_fault := fun k => if (k =? n)%nat then Some "connect ETIMEDOUT" else None;
     env_tts_client := true;
     env_synthesize := env_synthesize calm;
     env_bucket := true;
     env_bucket_name := env_bucket_name calm;
     env_gcs_save := env_gcs_save calm;
     env_development := false |}.

(** No statement of the request is refused by the database. *)
Definition db_up (env : Env) : Prop := forall n, env_db_fault env n = None.

Module RiwayatProps.

Import Riwayat.

Definition no_messages_for (e : string) (msgs : gmap string MessageRow) : Prop :=
  forall k m, msgs !! k = Some m -> m_email m ≠ e.

(** Rows that belong to another email are the same in [db] and [db']. *)
Definition others_kept (e : string) (db db' : DB) : Prop :=
  (forall e', e' ≠ e -> HISTORY db' !! e' = HISTORY db !! e') /\
  (forall k m, m_email m ≠ e -> MESSAGE db' !! k = Some m <-> MESSAGE db !! k = Some m).

(** Deletion of the history of [e] as an atomic step: a call that answers 200
    leaves neither the history row nor a message of [e], and any other call
    leaves both tables as they were. *)
Definition delete_is_atomic (env : Env) (db : DB) (e : string) : Prop :=
  is_Some (HISTORY db !! e) ->
  let r := serve app env db (request DELETE ["api"; "history"; e]) in
  (status (response_of r) = 200 ->
     HISTORY (db_of r) !! e = None /\ no_messages_for e (MESSAGE (db_of r))) /\
  (status (response_of r) ≠ 200 ->
     HISTORY (db_of r) = HISTORY db /\ MESSAGE (db_of r) = MESSAGE db).

Definition one_history_one_message : DB :=
  {| HISTORY := {[ "ani@example.com" := {| h_id := "h-1"; h_title := "Ani" |} ]};
     MESSAGE := {[ "m-1" := {| m_email := "ani@example.com"; m_message := "halo";
                               m_created_at := 1699999999000;
                               m_is_speech_to_text := true |} ]} |}.

End RiwayatProps.

(** The requests of the history routes. *)
Definition is_identity_request (req : Request) (title email : string) : Prop :=
  req_method req = POST /\ req_path req = ["api"; "history"; "email"] /\
  body_title req = Some title /\ body_email req = Some email.

Definition is_attach_request (req : Request) (email message : string) (stt : bool) : Prop :=
  req_method req = POST /\ req_path req = ["api"; "history"; email] /\
  body_message req = Some message /\ body_is_speech_to_text req = Some stt.

Definition identity_request (title email : string) : Request :=
  {| req_method := POST; req_path := ["api"; "history"; "email"];
     body_title := Some title; body_email := Some email; body_message := None;
     body_is_speech_to_text := None; body_text := None; body_name := None;
     body_comment := None; body_rating := None; req_upload := None |}.

Definition attach_request (email message : string) (stt : bool) : Request :=
  {| req_method := POST; req_path := ["api"; "history"; email];
     body_title := None; body_email := None; body_message := Some message;
     body_is_speech_to_text := Some stt; body_text := None; body_name := None;
     body_comment := None; body_rating := None; req_upload := None |}.

Module HistoryJsProps.

Import HistoryJs.

(** No row of the table carries this email. *)
Definition no_identity (email : string) (db : DB) : Prop :=
  forall id r, history db !! id = Some r -> h_email r ≠ email.

Definition empty_db : DB := {| history := ∅ |}.

Definition one_identity : DB :=
  {| history := {[ "h-1" := {| h_title := "Ani"; h_message := Some "halo";
                               h_is_speech_to_text := Some true;
                               h_email := "ani@example.com";
                               h_created_at := 1699999999000 |} ]} |}.

Definition one_identity_delete : Request :=
  request DELETE ["api"; "history"; "ani@example.com"].

End HistoryJsProps.

Definition riwayat_empty : Riwayat.DB := {| Riwayat.HISTORY := ∅; Riwayat.MESSAGE := ∅ |}.

Module CapstoneProps.

Import Capstone.

(** The two helper calls of the soundboard flow, as the environment decides
    them. *)
Definition synthesis_fails (env : Env) (text : string) : Prop :=
  env_tts_client env = false \/ exists message, env_synthesize env text = inr message.

Definition upload_fails (env : Env) (filename : string) : Prop :=
  env_bucket env = false \/ exists message, env_gcs_save env filename = Some message.

Definition with_soundboards (db : DB) (s : gmap string SoundboardRow) : DB :=
  {| soundboards := s; history := history db; profile := profile db;
     feedback := feedback db; feedback_auto_increment := feedback_auto_increment db |}.

(** A feedback the route accepts: a comment that is not empty and a rating
    from 1 to 4. *)
Definition valid_feedback (req : Request) : Prop :=
  truthy_str (body_comment req) = true /\
  exists rating, body_rating req = Some rating /\ 1 <= rating <= 4.

Definition empty_db : DB :=
  {| soundboards := ∅; history := ∅; profile := ∅; feedback := ∅;
     feedback_auto_increment := 1 |}.

Definition soundboard_request (text : string) : Request :=
  {| req_method := POST; req_path := ["api"; "soundboards"];
     body_title := None; body_email := None; body_message := None;
     body_is_speech_to_text := None; body_text := Some text; body_name := None;
     body_comment := None; body_rating := None; req_upload := None |}.

Definition feedback_request (comment : string) (rating : Z) : Request :=
  {| req_method := POST; req_path := ["api"; "feedback"];
     body_title := None; body_email := None; body_message := None;
     body_is_speech_to_text := None; body_text := None; body_name := None;
     body_comment := Some comment; body_rating := Some rating; req_upload := None |}.

Definition profile_request (name : string) (file : option Upload) : Request :=
  {| req_method := PUT; req_path := ["api"; "profile"];
     body_title := None; body_email := None; body_message := None;
     body_is_speech_to_text := None; body_text := None; body_name := Some name;
     body_comment := None; body_rating := None; req_upload := file |}.

(** The bucket refuses every object. *)
Definition bucket_down : Env :=
  {| env_uuid := env_uuid calm;
     env_now := env_now calm;
     env_db_now := env_db_now calm;
     env_uptime := env_uptime calm;
     env_db_fault := env_db_fault calm;
     env_tts_client := true;
     env_synthesize := env_synthesize calm;
     env_bucket := true;
     env_bucket_name := env_bucket_name calm;
     env_gcs_save := fun _ => Some "503 Service Unavailable";
     env_development := false |}.

Definition older : HistoryRow :=
  {| h_title := "Senin"; h_message := "halo"; h_created_at := 1699000000000;
     h_updated_at := 1699000000000 |}.

Definition newer : HistoryRow :=
  {| h_title := "Selasa"; h_message := "apa kabar"; h_created_at := 1699100000000;
     h_updated_at := 1699100000000 |}.

Definition two_histories : DB :=
  {| soundboards := ∅; history := {[ 1 := older; 2 := newer ]}; profile := ∅;
     feedback := ∅; feedback_auto_increment := 1 |}.

Definition first_profile : ProfileRow :=
  {| p_name := "Ani"; p_profile_picture_url := Some "https://storage.googleapis.com/handlips/profiles/1-ani.png";
     p_created_at := 1698000000000; p_updated_at := 1698000000000 |}.

Definition one_profile : DB :=
  {| soundboards := ∅; history := ∅; profile := {[ 1 := first_profile ]};
     feedback := ∅; feedback_auto_increment := 1 |}.

Definition is_profile_update (req : Request) : Prop :=
  req_method req = PUT /\ req_path req = ["api"; "profile"].

(** The database after a sequence of PUT /api/profile calls, each in its own
    environment. *)
Fixpoint after_calls (calls : list (Env * Request)) (db : DB) : DB :=
  match calls with
  | [] => db
  | (env, req) :: rest => after_calls rest (db_of (serve app env db req))
  end.

(** The object name of an uploaded profile picture and its public URL. *)
Definition picture_url (env : Env) (file : Upload) : string :=
  publicUrl env ("profiles/" +:+ pretty (env_now env) +:+ "-" +:+ originalname file).

(** Multer lets the file through and the bucket stores it. *)
Definition upload_accepted (env : Env) (file : Upload) : Prop :=
  includes allowedMimes (mimetype file) = true /\
  (size file < fileSize_limit)%N /\
  env_bucket env = true /\
  env_gcs_save env ("profiles/" +:+ pretty (env_now env) +:+ "-" +:+ originalname file) = None.

(** The picture a row holds after an accepted update of a row that held
    [previous]. *)
Definition picture_after (env : Env) (req : Request) (previous : option string)
    : option string :=
  match req_upload req with
  | Some file => Some (picture_url env file)
  | None => previous
  end.

Definition photo : Upload :=
  {| originalname := "ani.png"; mimetype := "image/png"; size := 2048; buffer := "PNG" |}.

End CapstoneProps.

(** ** Properties of a whole application *)

(** A handler keeps [P] when it leaves a database that satisfies [P] whenever
    it was given one, whatever the environment decides. *)
Definition handler_keeps {St} (P : St -> Prop) (run : Ran St) : Prop :=
  forall env s c, P s -> P (run env s c).1.2.

(** A layer keeps [P] for a request when every handler of it that the request
    can reach keeps [P]. *)
Definition layer_keeps {St} (P : St -> Prop) (req : Request) (layer : Layer St) : Prop :=
  match layer with
  | Route m pat stack =>
      Method_eqb m (req_method req) = true ->
      forall ps, match_path pat (req_path req) = Some ps ->
      Forall (fun named => handler_keeps P (named.2 ps req)) stack
  | Use _ h => handler_keeps P (h req)
  | UseErr _ h => forall e, handler_keeps P (h e req)
  end.

Module RiwayatMore.

Import Riwayat.

(** Every message belongs to an email that has a history row. *)
Definition referential_integrity (db : DB) : Prop :=
  forall k m, MESSAGE db !! k = Some m -> is_Some (HISTORY db !! m_email m).

Definition get_request (email : string) : Request := request GET ["api"; "history"; email].

Definition delete_request (email : string) : Request :=
  request DELETE ["api"; "history"; email].

End RiwayatMore.

Module HistoryJsMore.

Import HistoryJs.

(** No two rows carry the same email. *)
Definition one_row_per_email (db : DB) : Prop :=
  forall id1 id2 r1 r2,
    history db !! id1 = Some r1 -> history db !! id2 = Some r2 ->
    h_email r1 = h_email r2 -> id1 = id2.

(** Every row of [db'] has the key, the title and the email of a row of
    [db]. *)
Definition rows_from (db db' : DB) : Prop :=
  forall id r', history db' !! id = Some r' ->
    exists r, history db !! id = Some r /\
              h_title r' = h_title r /\ h_email r' = h_email r.

Definition older_row : HistoryRow :=
  {| h_title := "Ani"; h_message := Some "halo"; h_is_speech_to_text := Some true;
     h_email := "ani@example.com"; h_created_at := 1699000000000 |}.

Definition newer_row : HistoryRow :=
  {| h_title := "Budi"; h_message := Some "apa kabar"; h_is_speech_to_text := Some false;
     h_email := "budi@example.com"; h_created_at := 1699100000000 |}.

Definition two_rows : DB := {| history := {[ "h-1" := older_row; "h-2" := newer_row ]} |}.

End HistoryJsMore.

Module CapstoneMore.

Import Capstone.

(** No row sits at or above the id the next feedback gets. *)
Definition feedback_ids_fresh (db : DB) : Prop :=
  forall k, feedback_auto_increment db <= k -> feedback db !! k = None.

Definition is_feedback_post (req : Request) : Prop :=
  req_method req = POST /\ req_path req = ["api"; "feedback"].

Definition animation : Upload :=
  {| originalname := "ani.gif"; mimetype := "image/gif"; size := 2048; buffer := "GIF" |}.

Definition poster : Upload :=
  {| originalname := "ani.png"; mimetype := "image/png"; size := 6 * 1024 * 1024;
     buffer := "PNG" |}.

End CapstoneMore.

(** ** The Capstone server, first copy: POST /api/soundboards

    The first copy builds both clients when the module loads and answers
    every failure of the route with one fixed body. *)

Module CapstoneFirstSoundboards.

Import Capstone.

Definition generateSpeech {St} (text : string) : M St string :=
  env <- ask ;;
  match env_synthesize env text with
  | inl audioContent => ret audioContent
  | inr message => throw (Error ("Error generating speech: " +:+ message))
  end.

(** POST /api/soundboards *)
Definition post_soundboards : Handler DB := fun _ req =>
  try_catch
    (let text := body_text req in
     if negb (truthy_str text) then
       ret (Responded (res_status_json 400 (JObj [("error", JStr "Text is required")])))
     else
       audioBuffer <- generateSpeech (str_of text) ;;
       uuid <- uuidv4 ;;
       let fileName := uuid +:+ ".mp3" in
       audioUrl <- CapstoneFirst.uploadToGCS audioBuffer fileName "audio/mpeg" ;;
       soundboard <- Soundboard_create (str_of text) audioUrl fileName ;;
       ret (Responded (res_status_json 201
              (JObj [("success", JBool true);
                     ("message", JStr "Soundboard created successfully");
                     ("data", soundboard_json soundboard)]))))
    (fun _ =>
       Responded (res_status_json 500
         (JObj [("success", JBool false); ("error", JStr "Failed to create soundboard")]))).

(** The layers a POST /api/soundboards request can reach. *)
Definition app : list (Layer DB) :=
  [ Use "cors" passthrough;
    Use "express.json" passthrough;
    Use "express.urlencoded" passthrough;
    Route POST [Lit "api"; Lit "soundboards"] [("post_soundboards", post_soundboards)];
    UseErr "error_middleware" CapstoneFirst.error_middleware ].

End CapstoneFirstSoundboards.

(** ** The Capstone server, second copy: POST /api/history

    The INSERT of this route writes its column names in square brackets;
    what the database makes of the statement is left open as [effect].  The
    object the route would answer with reads a variable [created_at] that
    nothing declares, so evaluating it throws a ReferenceError. *)

Module CapstoneHistoryPost.

Import Capstone.

Section Insert.

Variable effect : Env -> DB -> Exn + (Z * DB).

(** [INSERT INTO history ([title], [message], [created_at], [updated_at])
    VALUES (?, ?, NOW(), NOW())] *)
Definition insert_history (title message : string) : M DB Z := db_stmt effect.

Definition created_at_is_not_defined : Exn := Error "created_at is not defined".

(** POST /api/history *)
Definition post_history : Handler DB := fun _ req =>
  try_catch
    (let title := body_title req in
     let message := body_message req in
     if negb (truthy_str title) || negb (truthy_str message) then
       ret (Responded (res_status_json 400
              (JObj [("success", JBool false);
                     ("message", JStr "Judul dan pesan harus diisi")])))
     else
       result <- insert_history (str_of title) (str_of message) ;;
       throw created_at_is_not_defined)
    CallNextErr.

(** The layers a POST /api/history request can reach. *)
Definition app : list (Layer DB) :=
  [ Use "cors" passthrough;
    Use "express.json" passthrough;
    Use "express.urlencoded" passthrough;
    Route POST [Lit "api"; Lit "history"] [("post_history", post_history)];
    Use "not_found" not_found;
    UseErr "error_middleware" error_middleware ].

End Insert.

(** An INSERT that the database accepts. *)
Definition accepted : Env -> DB -> Exn + (Z * DB) := fun env db =>
  inr (1, {| soundboards := soundboards db;
             history := <[1 := {| h_title := "Contoh Judul";
                                  h_message := "Ini adalah isi pesan";
                                  h_created_at := env_db_now env;
                                  h_updated_at := env_db_now env |}]> (history db);
             profile := profile db; feedback := feedback db;
             feedback_auto_increment := feedback_auto_increment db |}).

Definition history_request (title message : string) : Request :=
  {| req_method := POST; req_path := ["api"; "history"];
     body_title := Some title; body_email := None; body_message := Some message;
     body_is_speech_to_text := None; body_text := None; body_name := None;
     body_comment := None; body_rating := None; req_upload := None |}.

End CapstoneHistoryPost.

(** ** Proofs *)

Lemma eqb_empty_false (e : string) : e ≠ "" -> String.eqb e "" = false.
Proof. intros H. apply String.eqb_neq. exact H. Qed.

(** Unfolds the monad and the statement wrappers of a handler body. *)
Ltac open_monad := unfold try_catch, bind, ret, throw, ask, uuidv4, new_Date, db_stmt; cbn.

Section Riwayat_delete.

Import Riwayat RiwayatProps.

Lemma filter_other_emails_none (e : string) (msgs : gmap string MessageRow) :
  no_messages_for e (filter (fun kv => m_email kv.2 ≠ e) msgs).
Proof.
  intros k m Hk. apply map_lookup_filter_Some in Hk as [_ Hne]. exact Hne.
Qed.

Lemma filter_other_emails_kept (e : string) (msgs : gmap string MessageRow) k m :
  m_email m ≠ e ->
  filter (fun kv => m_email kv.2 ≠ e) msgs !! k = Some m <-> msgs !! k = Some m.
Proof.
  intros Hne. rewrite map_lookup_filter_Some. simpl. tauto.
Qed.

(** C1, as amended.  DELETE /api/history/:email sends three statements: the
    lookup, the deletion of the messages, the deletion of the history row.
    When none of them throws the call answers 200, the history row and every
    message of the email are gone, and rows of other emails are untouched.
    When one throws the call answers 500 and the history row is still there;
    its messages are either all still there or, when it was the last
    statement that threw, all gone.  A throw of any of the three statements
    is answered 500. *)
Theorem delete_history_cascades_without_transaction
    (env : Env) (db : DB) (req : Request) (e : string) (h : HistoryRow) :
  req_method req = DELETE ->
  req_path req = ["api"; "history"; e] ->
  e ≠ "" ->
  HISTORY db !! e = Some h ->
  let r := serve app env db req in
  ((forall n, (n < 3)%nat -> env_db_fault env n = None) ->
     status (response_of r) = 200) /\
  ((status (response_of r) = 200 /\
    HISTORY (db_of r) !! e = None /\
    no_messages_for e (MESSAGE (db_of r)) /\
    others_kept e db (db_of r))
   \/
   (status (response_of r) = 500 /\
    HISTORY (db_of r) = HISTORY db /\
    (MESSAGE (db_of r) = MESSAGE db \/
     (env_db_fault env 2%nat ≠ None /\
      no_messages_for e (MESSAGE (db_of r)) /\ others_kept e db (db_of r))))) /\
  ((exists n, (n < 3)%nat /\ env_db_fault env n ≠ None) ->
     status (response_of r) = 500).
Proof.
  intros Hm Hp He Hh. destruct req; simpl in Hm, Hp; subst.
  unfold serve, app; cbn. rewrite (eqb_empty_false e He); cbn.
  unfold delete_history_by_email, History_findOne, Message_destroy, History_destroy.
  open_monad.
  destruct (env_db_fault env 0%nat) eqn:F0; cbn.
  { split; [intros Hup; rewrite Hup in F0 by lia; discriminate|].
    split; [|reflexivity]. right. auto. }
  rewrite Hh; cbn.
  destruct (env_db_fault env 1%nat) eqn:F1; cbn.
  { split; [intros Hup; rewrite Hup in F1 by lia; discriminate|].
    split; [|reflexivity]. right. auto. }
  destruct (env_db_fault env 2%nat) eqn:F2; cbn.
  { split; [intros Hup; rewrite Hup in F2 by lia; discriminate|].
    split; [|reflexivity].
    right. repeat split; auto. right. split; [congruence|].
    split; [apply filter_other_emails_none|].
    split; [reflexivity|]. intros k m Hne. apply filter_other_emails_kept, Hne. }
  split; [reflexivity|]. split.
  - left.
    split; [reflexivity|]. split; [apply lookup_delete_eq|].
    split; [apply filter_other_emails_none|].
    split.
    + intros e' Hne. apply lookup_delete_ne. congruence.
    + intros k m Hne. apply filter_other_emails_kept, Hne.
  - intros (n & Hn & Hfault). exfalso. apply Hfault.
    destruct n as [|[|[|n]]]; [assumption | assumption | assumption | lia].
Qed.

Lemma delete_history_cascades_without_transaction_witness :
  status (response_of (serve app calm one_history_one_message
                         (request DELETE ["api"; "history"; "ani@example.com"]))) = 200.
Proof.
  refine (proj1 (delete_history_cascades_without_transaction calm one_history_one_message
                   (request DELETE ["api"; "history"; "ani@example.com"])
                   "ani@example.com" {| h_id := "h-1"; h_title := "Ani" |}
                   _ _ _ _) _).
  - reflexivity.
  - reflexivity.
  - discriminate.
  - vm_compute. reflexivity.
  - intros n _. reflexivity.
Defined.

(** C1, as stated, fails: when the deletion of the history row throws after
    the messages were deleted, the call answers 500, the history row is
    still there and its message is gone. *)
Lemma delete_history_not_atomic :
  ~ delete_is_atomic (db_down_at 2) one_history_one_message "ani@example.com".
Proof.
  unfold delete_is_atomic. intros H.
  destruct H as [_ H]; [eexists; vm_compute; reflexivity|].
  destruct H as [_ Hmsg]; [vm_compute; discriminate|].
  apply (f_equal (fun m => m !! "m-1")) in Hmsg.
  vm_compute in Hmsg. discriminate.
Qed.

(** What the call leaves behind in that environment. *)
Example delete_history_half_done :
  let r := serve app (db_down_at 2) one_history_one_message
             (request DELETE ["api"; "history"; "ani@example.com"]) in
  response_of r = res_status_json 500 (JObj [("message", JStr "connect ETIMEDOUT")]) /\
  HISTORY (db_of r) !! "ani@example.com" = Some {| h_id := "h-1"; h_title := "Ani" |} /\
  MESSAGE (db_of r) !! "m-1" = None.
Proof. repeat split; vm_compute; reflexivity. Qed.

End Riwayat_delete.

Section Create_identity.

Import HistoryJsProps.

Lemma with_email_nil (email : string) (db : HistoryJs.DB) :
  HistoryJs.with_email email db = [] <-> no_identity email db.
Proof.
  unfold HistoryJs.with_email, no_identity.
  rewrite map_to_list_empty_iff, map_empty. split.
  - intros H id r Hid Heq.
    specialize (H id). apply map_lookup_filter_None in H as [H|H].
    + congruence.
    + exact (H r Hid Heq).
  - intros H id. apply map_lookup_filter_None. right. intros r Hid. simpl.
    exact (H id r Hid).
Qed.

Lemma with_email_elem (email : string) (db : HistoryJs.DB) id r :
  (id, r) ∈ HistoryJs.with_email email db <->
  HistoryJs.history db !! id = Some r /\ HistoryJs.h_email r = email.
Proof.
  unfold HistoryJs.with_email.
  rewrite elem_of_map_to_list, map_lookup_filter_Some. reflexivity.
Qed.

Lemma with_email_head (email : string) (db : HistoryJs.DB) id r :
  head (HistoryJs.with_email email db) = Some (id, r) ->
  HistoryJs.history db !! id = Some r /\ HistoryJs.h_email r = email.
Proof.
  intros H. apply with_email_elem. apply head_Some_elem_of. exact H.
Qed.

Lemma with_email_cons (email : string) (db : HistoryJs.DB) id r :
  HistoryJs.history db !! id = Some r -> HistoryJs.h_email r = email ->
  exists x rest, HistoryJs.with_email email db = x :: rest.
Proof.
  intros Hid He.
  assert (Hin : (id, r) ∈ HistoryJs.with_email email db) by (apply with_email_elem; auto).
  destruct (HistoryJs.with_email email db) as [|x rest]; [inversion Hin | eauto].
Qed.

(** C3.  In [src/history.js] POST /api/history/email never creates an
    identity.  Its INSERT binds NULL to [message] and to [is_speech_to_text],
    which the table declares NOT NULL, so the statement is refused.  For a
    title and an email that are not empty, in every environment and every
    database: the database is left as it was and the answer is never 201.
    When the email has no identity row and the SELECT does not throw, the
    answer is 500, sent by the error middleware; when the INSERT is not
    refused for another reason first, its body carries the refusal of the
    table in development and "Something went wrong" otherwise. *)
Theorem historyjs_create_identity_is_refused
    (env : Env) (req : Request) (title email : string) (dbH : HistoryJs.DB) :
  is_identity_request req title email ->
  title ≠ "" -> email ≠ "" ->
  let r := serve HistoryJs.app env dbH req in
  db_of r = dbH /\
  status (response_of r) ≠ 201 /\
  (no_identity email dbH -> env_db_fault env 0%nat = None ->
   status (response_of r) = 500 /\
   (env_db_fault env 1%nat = None ->
    response_of r =
      res_status_json 500
        (JObj [("status", JStr "error"); ("message", JStr "Internal server error");
               ("error", JStr (if env_development env
                               then "Column 'message' cannot be null"
                               else "Something went wrong"))]))).
Proof.
  intros (Hm & Hp & Ht & He) Htitle Hemail.
  destruct req; simpl in *; subst.
  unfold serve, HistoryJs.app; cbn.
  unfold HistoryJs.post_history_email, HistoryJs.select_where_email,
    HistoryJs.insert_history.
  open_monad. rewrite !(eqb_empty_false _ Hemail), !(eqb_empty_false _ Htitle); cbn.
  destruct (env_db_fault env 0%nat) eqn:F0; cbn.
  { split; [reflexivity|]. split; [discriminate|]. intros _ Hup. discriminate. }
  destruct (HistoryJs.with_email email dbH) as [|x rest] eqn:Hrows; cbn.
  - destruct (env_db_fault env 1%nat) eqn:F1; cbn.
    + split; [reflexivity|]. split; [discriminate|]. intros _ _.
      split; [reflexivity|]. intros Hup. discriminate.
    + split; [reflexivity|]. split; [discriminate|]. intros _ _.
      split; reflexivity.
  - split; [reflexivity|]. split; [discriminate|]. intros Hnone _.
    apply with_email_nil in Hnone. congruence.
Qed.

Lemma historyjs_create_identity_is_refused_witness :
  let r := serve HistoryJs.app calm empty_db (identity_request "Ani" "ani@example.com") in
  db_of r = empty_db /\ status (response_of r) = 500.
Proof.
  pose proof (historyjs_create_identity_is_refused calm
                (identity_request "Ani" "ani@example.com")
                "Ani" "ani@example.com" empty_db) as H.
  destruct H as (Hdb & _ & H500).
  - repeat split.
  - discriminate.
  - discriminate.
  - cbv zeta. split; [exact Hdb|].
    apply H500; [|reflexivity].
    intros id r Hid. vm_compute in Hid. discriminate.
Defined.

End Create_identity.

Section Attach_message.

Import HistoryJsProps.

(** [lower_ascii] moves the codes 65 to 90 up by 32 and leaves every other
    code alone. *)
Lemma lower_ascii_codes (c : ascii) :
  lower_ascii c =
    let n := nat_of_ascii c in
    if ((65 <=? n) && (n <=? 90))%nat then ascii_of_nat (n + 32) else c.
Proof. destruct c as [[] [] [] [] [] [] [] []]; vm_compute; reflexivity. Qed.

Lemma eqb_literal_false (lit x : string) : x ≠ lit -> String.eqb lit x = false.
Proof. intros H. apply String.eqb_neq. congruence. Qed.

(** C6.  POST /api/history/:email with a message that is not empty and a
    defined is_speech_to_text, for an email without identity row: neither
    application changes its database, whatever the environment does, and
    when the lookup does not throw the answer is 404.  The first part is
    about the handlers, for every value of the path parameter; the second is
    about the applications, where a path whose last segment is the word
    email, in any letter case, belongs to the route that creates an
    identity. *)
Theorem attach_message_unknown_email_writes_nothing
    (env : Env) (req : Request) (email message : string) (stt : bool)
    (dbR : Riwayat.DB) (dbH : HistoryJs.DB) :
  body_message req = Some message ->
  body_is_speech_to_text req = Some stt ->
  message ≠ "" ->
  Riwayat.HISTORY dbR !! email = None ->
  no_identity email dbH ->
  let not_found_R :=
    res_status_json 404
      (JObj [("message", JStr ("History dengan email " +:+ email +:+ " tidak ditemukan"))]) in
  let not_found_H :=
    res_status_json 404
      (HistoryJs.error_json ("Tidak ditemukan history dengan email " +:+ email)) in
  (let ran := Riwayat.post_history_by_email [("email", email)] req env dbR ctr0 in
   ran.1.2 = dbR /\
   (env_db_fault env 0%nat = None -> ran.1.1 = Responded not_found_R)) /\
  (let ran := HistoryJs.post_history_by_email [("email", email)] req env dbH ctr0 in
   ran.1.2 = dbH /\
   (env_db_fault env 0%nat = None -> ran.1.1 = Responded not_found_H)) /\
  (req_method req = POST -> req_path req = ["api"; "history"; email] ->
   email ≠ "" -> lower email ≠ "email" ->
   (let r := serve Riwayat.app env dbR req in
    db_of r = dbR /\
    (env_db_fault env 0%nat = None -> response_of r = not_found_R)) /\
   (let r := serve HistoryJs.app env dbH req in
    db_of r = dbH /\
    (env_db_fault env 0%nat = None -> response_of r = not_found_H))).
Proof.
  intros Hmsg Hstt Hne HnoneR HnoneH.
  assert (HR : forall c,
    Riwayat.post_history_by_email [("email", email)] req env dbR c =
    match env_db_fault env (db_calls c) with
    | Some s =>
        (Riwayat.catch_500 {| exn_class := SequelizeDatabaseError; exn_message := s;
                              exn_errors := [] |}, dbR,
         {| db_calls := S (db_calls c); uuid_draws := uuid_draws c |})
    | None =>
        (Responded (res_status_json 404
           (JObj [("message",
                   JStr ("History dengan email " +:+ email +:+ " tidak ditemukan"))])),
         dbR, {| db_calls := S (db_calls c); uuid_draws := uuid_draws c |})
    end).
  { intros c. unfold Riwayat.post_history_by_email, Riwayat.History_findOne.
    open_monad. rewrite Hmsg, Hstt; cbn. rewrite (eqb_empty_false _ Hne); cbn.
    destruct (env_db_fault env (db_calls c)); cbn; [reflexivity|].
    rewrite HnoneR. reflexivity. }
  assert (HH : forall c,
    HistoryJs.post_history_by_email [("email", email)] req env dbH c =
    match env_db_fault env (db_calls c) with
    | Some s =>
        (CallNextErr {| exn_class := SequelizeDatabaseError; exn_message := s;
                        exn_errors := [] |}, dbH,
         {| db_calls := S (db_calls c); uuid_draws := uuid_draws c |})
    | None =>
        (Responded (res_status_json 404
           (HistoryJs.error_json ("Tidak ditemukan history dengan email " +:+ email))),
         dbH, {| db_calls := S (db_calls c); uuid_draws := uuid_draws c |})
    end).
  { intros c. unfold HistoryJs.post_history_by_email, HistoryJs.History_findOne.
    open_monad. rewrite Hmsg, Hstt; cbn. rewrite (eqb_empty_false _ Hne); cbn.
    destruct (env_db_fault env (db_calls c)); cbn; [reflexivity|].
    rewrite (proj2 (with_email_nil email dbH) HnoneH). reflexivity. }
  cbv zeta. split; [|split].
  - rewrite HR. cbn. destruct (env_db_fault env 0%nat); cbn; [split; [reflexivity|discriminate]|auto].
  - rewrite HH. cbn. destruct (env_db_fault env 0%nat); cbn; [split; [reflexivity|discriminate]|auto].
  - intros Hmeth Hpath Hemail Hlit.
    destruct req; simpl in Hmeth, Hpath; subst. split.
    + unfold serve, Riwayat.app.
      cbn -[String.eqb Riwayat.post_history_by_email Riwayat.post_history_email].
      rewrite !String.eqb_refl, (eqb_literal_false "email" (lower email) Hlit),
        (eqb_empty_false _ Hemail).
      cbn -[Riwayat.post_history_by_email Riwayat.post_history_email].
      rewrite HR. cbn.
      destruct (env_db_fault env 0%nat); cbn; [split; [reflexivity|discriminate]|auto].
    + unfold serve, HistoryJs.app.
      cbn -[String.eqb HistoryJs.post_history_by_email HistoryJs.post_history_email].
      rewrite !String.eqb_refl, (eqb_literal_false "email" (lower email) Hlit),
        (eqb_empty_false _ Hemail).
      cbn -[HistoryJs.post_history_by_email HistoryJs.post_history_email].
      rewrite HH. cbn.
      destruct (env_db_fault env 0%nat); cbn; [split; [reflexivity|discriminate]|auto].
Qed.

Lemma attach_message_unknown_email_writes_nothing_witness :
  let req := attach_request "budi@example.com" "halo" true in
  let r := serve Riwayat.app calm riwayat_empty req in
  db_of r = riwayat_empty /\ status (response_of r) = 404.
Proof.
  pose proof (attach_message_unknown_email_writes_nothing calm
                (attach_request "budi@example.com" "halo" true)
                "budi@example.com" "halo" true riwayat_empty empty_db) as H.
  destruct H as (_ & _ & H).
  - reflexivity.
  - reflexivity.
  - discriminate.
  - reflexivity.
  - intros id r Hid. vm_compute in Hid. discriminate.
  - destruct H as [[Hdb Hresp] _].
    + reflexivity.
    + reflexivity.
    + discriminate.
    + discriminate.
    + cbv zeta. split; [exact Hdb|]. rewrite (Hresp eq_refl). reflexivity.
Defined.

End Attach_message.

Section Overwrite_message.

Import HistoryJs HistoryJsProps.

(** C8.  POST /api/history/:email in [src/history.js], for an email that has
    a row, with a message that is not empty and a defined is_speech_to_text,
    when neither statement throws: one row that carries the email gets the
    new message, the new flag and the current time as created_at and keeps
    its id, title and email; every other row is as before; the answer is 200
    with the updated row.  The last part is the same call as the application
    routes it, for an email that is not the word email in any letter case
    (that path belongs to the route that creates an identity). *)
Theorem attach_message_overwrites_message_fields_only
    (env : Env) (req : Request) (email message : string) (stt : bool)
    (db : DB) (id0 : string) (r0 : HistoryRow) :
  body_message req = Some message ->
  body_is_speech_to_text req = Some stt ->
  message ≠ "" ->
  history db !! id0 = Some r0 ->
  h_email r0 = email ->
  env_db_fault env 0%nat = None ->
  env_db_fault env 1%nat = None ->
  exists id r,
    history db !! id = Some r /\ h_email r = email /\
    let r' := {| h_title := h_title r;
                 h_message := Some message;
                 h_is_speech_to_text := Some stt;
                 h_email := h_email r;
                 h_created_at := env_now env |} in
    let answer :=
      res_status_json 200
        (JObj [("status", JStr "success update data"); ("data", instance_json (id, r'))]) in
    let ran := post_history_by_email [("email", email)] req env db ctr0 in
    ran.1.1 = Responded answer /\
    history ran.1.2 !! id = Some r' /\
    (forall id', id' ≠ id -> history ran.1.2 !! id' = history db !! id') /\
    (req_method req = POST -> req_path req = ["api"; "history"; email] ->
     email ≠ "" -> lower email ≠ "email" ->
     let served := serve app env db req in
     response_of served = answer /\ db_of served = ran.1.2).
Proof.
  intros Hmsg Hstt Hne Hid0 He0 F0 F1.
  destruct (with_email_cons email db id0 r0 Hid0 He0) as ([id r] & rest & Hwith).
  assert (Hhead : head (with_email email db) = Some (id, r)) by (rewrite Hwith; reflexivity).
  destruct (with_email_head email db id r Hhead) as [Hid He].
  exists id, r. split; [exact Hid|]. split; [exact He|].
  assert (Hran : post_history_by_email [("email", email)] req env db ctr0 =
    (Responded (res_status_json 200
       (JObj [("status", JStr "success update data");
              ("data", instance_json (id, set_message message stt (env_now env) r))])),
     {| history := alter (set_message message stt (env_now env)) id (history db) |},
     {| db_calls := 2; uuid_draws := 0 |})).
  { unfold post_history_by_email, History_findOne, save_message.
    open_monad. rewrite Hmsg, Hstt; cbn. rewrite (eqb_empty_false _ Hne); cbn.
    rewrite F0; cbn. rewrite Hhead; cbn. rewrite F1; cbn. reflexivity. }
  cbv zeta. rewrite Hran; cbn [fst snd history].
  split; [reflexivity|].
  split; [rewrite lookup_alter_eq, Hid; reflexivity|].
  split; [intros id' Hne'; apply lookup_alter_ne; congruence|].
  intros Hmeth Hpath Hemail Hlit.
  destruct req as [meth path ? ? ? ? ? ? ? ? ?]; simpl in Hmeth, Hpath; subst meth path.
  unfold serve, app.
  cbn -[String.eqb post_history_by_email post_history_email].
  rewrite !String.eqb_refl, (eqb_literal_false "email" (lower email) Hlit),
    (eqb_empty_false _ Hemail).
  cbn -[post_history_by_email post_history_email].
  rewrite Hran. cbn. auto.
Qed.

Lemma attach_message_overwrites_message_fields_only_witness :
  status (response_of (serve app calm one_identity
                         (attach_request "ani@example.com" "selamat pagi" false))) = 200.
Proof.
  destruct (attach_message_overwrites_message_fields_only calm
              (attach_request "ani@example.com" "selamat pagi" false)
              "ani@example.com" "selamat pagi" false one_identity "h-1"
              {| h_title := "Ani"; h_message := Some "halo";
                 h_is_speech_to_text := Some true;
                 h_email := "ani@example.com"; h_created_at := 1699999999000 |})
    as (id & r & _ & _ & H).
  - reflexivity.
  - reflexivity.
  - discriminate.
  - vm_compute. reflexivity.
  - reflexivity.
  - reflexivity.
  - reflexivity.
  - cbv zeta in H. destruct H as (_ & _ & _ & H).
    destruct H as [Hresp _].
    + reflexivity.
    + reflexivity.
    + discriminate.
    + discriminate.
    + rewrite Hresp. reflexivity.
Defined.

(** The row of the sample database after the call. *)
Example attach_message_sample :
  history (db_of (serve app calm one_identity
                    (attach_request "ani@example.com" "selamat pagi" false))) !! "h-1" =
    Some {| h_title := "Ani"; h_message := Some "selamat pagi";
            h_is_speech_to_text := Some false; h_email := "ani@example.com";
            h_created_at := env_now calm |}.
Proof. vm_compute. reflexivity. Qed.

End Overwrite_message.

Section Shadowed_delete.

Import HistoryJs HistoryJsProps.

(** The first handler of DELETE /api/history/:email never calls [next()]. *)
Lemma delete_history_by_email_never_next ps req env db c :
  (delete_history_by_email ps req env db c).1.1 ≠ CallNext.
Proof.
  unfold delete_history_by_email, select_where_email, History_destroy_where.
  open_monad.
  destruct (env_db_fault env (db_calls c)); cbn; [discriminate|].
  destruct (length (with_email (param "email" ps) db) =? 0)%nat; cbn; [discriminate|].
  destruct (env_db_fault env (S (db_calls c))); cbn; discriminate.
Qed.

Ltac walk_layers :=
  cbn -[String.eqb welcome health post_history_email post_history_by_email get_history
        get_history_by_email delete_history_by_email delete_history_by_pk
        error_middleware not_found].

Ltac split_outcome h ps r e s c :=
  destruct (h ps r e s c) as [[[?| |?] ?] ?]; walk_layers.

Ltac run_handlers :=
  repeat match goal with
  | |- context [delete_history_by_email ?ps ?r ?e ?s ?c] =>
      let Hn := fresh "Hn" in
      pose proof (delete_history_by_email_never_next ps r e s c) as Hn;
      destruct (delete_history_by_email ps r e s c) as [[[?| |?] ?] ?];
      cbn in Hn; [ | congruence | ]; walk_layers
  | |- context [welcome ?ps ?r ?e ?s ?c] => split_outcome welcome ps r e s c
  | |- context [health ?ps ?r ?e ?s ?c] => split_outcome health ps r e s c
  | |- context [post_history_email ?ps ?r ?e ?s ?c] =>
      split_outcome post_history_email ps r e s c
  | |- context [post_history_by_email ?ps ?r ?e ?s ?c] =>
      split_outcome post_history_by_email ps r e s c
  | |- context [get_history ?ps ?r ?e ?s ?c] => split_outcome get_history ps r e s c
  | |- context [get_history_by_email ?ps ?r ?e ?s ?c] =>
      split_outcome get_history_by_email ps r e s c
  | |- context [not_found ?r ?e ?s ?c] =>
      destruct (not_found r e s c) as [[[?| |?] ?] ?]; walk_layers
  | |- context [error_middleware ?x ?r ?e ?s ?c] =>
      destruct (error_middleware x r e s c) as [[[?| |?] ?] ?]; walk_layers
  end.

Lemma second_delete_handler_not_in_trace (env : Env) (db : DB) (req : Request) :
  ~ In "delete_history_by_pk" (trace_of (serve app env db req)).
Proof.
  destruct req as [meth path ? ? ? ? ? ? ? ? ?].
  unfold serve, app.
  destruct meth; walk_layers.
  all: destruct path as [|a [|b [|c [|d [|e rest]]]]]; walk_layers.
  all: repeat match goal with
       | |- context [String.eqb ?x ?y] => destruct (String.eqb x y); walk_layers
       end.
  all: run_handlers.
  all: cbn; intros H; repeat (destruct H as [H|H]; [discriminate H|]); exact H.
Qed.

Lemma filter_other_emails_no_identity (email : string) (db : DB) :
  no_identity email {| history := filter (fun kv => h_email kv.2 ≠ email) (history db) |}.
Proof.
  intros id r Hid. simpl in Hid. apply map_lookup_filter_Some in Hid as [_ Hne]. exact Hne.
Qed.

(** C9.  [src/history.js] registers two handlers for DELETE
    /api/history/:email.  Whatever the request, the second one (lookup by
    primary key) never runs.  A DELETE request for an email is handled by
    the first one: it runs, the database is the one it leaves, and the
    response is the one it sends or, when a statement threw and it called
    [next(error)], the one the error middleware sends for that error.  When
    no statement throws, it answers 404 if no row carries the email and
    otherwise answers 200 after destroying every row that carries it. *)
Theorem first_delete_handler_answers_second_never_runs
    (env : Env) (db : DB) (req : Request) :
  ~ In "delete_history_by_pk" (trace_of (serve app env db req)) /\
  forall email,
    req_method req = DELETE -> req_path req = ["api"; "history"; email] -> email ≠ "" ->
    let served := serve app env db req in
    let ran := delete_history_by_email [("email", email)] req env db ctr0 in
    In "delete_history_by_email" (trace_of served) /\
    db_of served = ran.1.2 /\
    match ran.1.1 with
    | Responded answer => response_of served = answer
    | CallNextErr err =>
        Responded (response_of served) = (error_middleware err req env ran.1.2 ran.2).1.1
    | CallNext => False
    end /\
    (env_db_fault env 0%nat = None -> env_db_fault env 1%nat = None ->
     (no_identity email db ->
        response_of served =
          res_status_json 404
            (error_json ("History untuk email " +:+ email +:+ " tidak ditemukan")) /\
        db_of served = db) /\
     (~ no_identity email db ->
        response_of served =
          res_json (JObj [("status", JStr "success");
                          ("message", JStr ("History dengan Email " +:+ email
                                            +:+ " telah dihapus"))]) /\
        no_identity email (db_of served) /\
        forall id r, h_email r ≠ email ->
          history (db_of served) !! id = Some r <-> history db !! id = Some r)).
Proof.
  split; [apply second_delete_handler_not_in_trace|].
  intros email Hmeth Hpath Hemail.
  destruct req as [meth path ? ? ? ? ? ? ? ? ?]; simpl in Hmeth, Hpath; subst meth path.
  cbv zeta. unfold serve, app.
  cbn -[String.eqb delete_history_by_email delete_history_by_pk error_middleware].
  rewrite !String.eqb_refl, (eqb_empty_false _ Hemail).
  cbn -[delete_history_by_email delete_history_by_pk error_middleware].
  match goal with
  | |- context [delete_history_by_email ?ps ?r ?e ?s ?c] =>
      assert (Hran : delete_history_by_email ps r e s c =
        match env_db_fault env 0%nat with
        | Some msg =>
            (CallNextErr {| exn_class := SequelizeDatabaseError; exn_message := msg;
                            exn_errors := [] |}, db, {| db_calls := 1; uuid_draws := 0 |})
        | None =>
            if (length (with_email email db) =? 0)%nat then
              (Responded (res_status_json 404
                 (error_json ("History untuk email " +:+ email +:+ " tidak ditemukan"))),
               db, {| db_calls := 1; uuid_draws := 0 |})
            else
              match env_db_fault env 1%nat with
              | Some msg =>
                  (CallNextErr {| exn_class := SequelizeDatabaseError; exn_message := msg;
                                  exn_errors := [] |}, db,
                   {| db_calls := 2; uuid_draws := 0 |})
              | None =>
                  (Responded (res_json
                     (JObj [("status", JStr "success");
                            ("message", JStr ("History dengan Email " +:+ email
                                              +:+ " telah dihapus"))])),
                   {| history := filter (fun kv => h_email kv.2 ≠ email) (history db) |},
                   {| db_calls := 2; uuid_draws := 0 |})
              end
        end)
  end.
  { unfold delete_history_by_email, select_where_email, History_destroy_where.
    open_monad.
    destruct (env_db_fault env 0%nat); cbn; [reflexivity|].
    destruct (length (with_email email db) =? 0)%nat; cbn; [reflexivity|].
    destruct (env_db_fault env 1%nat); cbn; reflexivity. }
  rewrite Hran. clear Hran.
  destruct (env_db_fault env 0%nat) as [msg0|] eqn:F0.
  { cbn. split; [auto 10|]. split; [reflexivity|]. split; [reflexivity|].
    intros; discriminate. }
  destruct (with_email email db) as [|x rest] eqn:Hwith.
  { cbn. split; [auto 10|]. split; [reflexivity|]. split; [reflexivity|].
    intros _ _. split; [intros _; split; reflexivity|].
    intros Hsome. exfalso. apply Hsome. apply with_email_nil. exact Hwith. }
  assert (Hsome : ~ no_identity email db).
  { intros Hnone. apply with_email_nil in Hnone. congruence. }
  cbn. destruct (env_db_fault env 1%nat) as [msg1|] eqn:F1.
  { cbn. split; [auto 10|]. split; [reflexivity|]. split; [reflexivity|].
    intros; discriminate. }
  cbn. split; [auto 10|]. split; [reflexivity|]. split; [reflexivity|].
  intros _ _. split; [intros Hnone; contradiction|].
  intros _. split; [reflexivity|]. split; [apply filter_other_emails_no_identity|].
  intros id r Hne. split.
  - intros Hid. apply map_lookup_filter_Some in Hid as [Hid _]. exact Hid.
  - intros Hid. apply map_lookup_filter_Some. auto.
Qed.

Lemma first_delete_handler_answers_second_never_runs_witness :
  status (response_of (serve app calm one_identity one_identity_delete)) = 200 /\
  no_identity "ani@example.com" (db_of (serve app calm one_identity one_identity_delete)).
Proof.
  destruct (first_delete_handler_answers_second_never_runs calm one_identity
              one_identity_delete) as [_ H].
  destruct (H "ani@example.com") as (_ & _ & _ & H').
  - reflexivity.
  - reflexivity.
  - discriminate.
  - destruct H' as [_ H'']; [reflexivity | reflexivity |].
    destruct H'' as (Hresp & Hgone & _).
    + intros Hnone. apply (Hnone "h-1" _ eq_refl). reflexivity.
    + split; [rewrite Hresp; reflexivity | exact Hgone].
Defined.

(** The two handlers differ: on the sample database, whose row has the key
    h-1, the first handler deletes the row of the email, while the second,
    run by itself, finds no row with the email as its key. *)
Example delete_handlers_differ :
  history (delete_history_by_email [("email", "ani@example.com")] one_identity_delete
             calm one_identity ctr0).1.2 !! "h-1" = None /\
  (delete_history_by_pk [("email", "ani@example.com")] one_identity_delete
     calm one_identity ctr0).1 =
    (Responded (res_status_json 404 (error_json "History tidak ditemukan")), one_identity).
Proof. split; vm_compute; reflexivity. Qed.

End Shadowed_delete.

Section Soundboards.

Import Capstone CapstoneProps.

(** C2.  POST /api/soundboards, second copy.  The call either leaves the
    database as it was or answers 201 after the synthesis and the upload
    both succeeded, the new row carrying the text, the URL of the uploaded
    object and its name.  With a text that is not empty, a failure of the
    synthesis or of the upload gives 500 with the database unchanged and no
    statement sent to it.  When both succeed, the id is fresh and the INSERT
    does not throw, the call answers 201 and the row exists. *)
Theorem soundboard_row_only_after_synthesis_and_upload
    (env : Env) (db : DB) (req : Request) :
  req_method req = POST ->
  req_path req = ["api"; "soundboards"] ->
  let served := serve app env db req in
  let text := str_of (body_text req) in
  let fileName := env_uuid env 0%nat +:+ ".mp3" in
  let id := env_uuid env 1%nat in
  let row := {| s_text := text; s_audioUrl := publicUrl env fileName;
                s_fileName := fileName; s_createdAt := env_now env;
                s_updatedAt := env_now env |} in
  (db_of served = db \/
   (truthy_str (body_text req) = true /\
    ~ synthesis_fails env text /\ ~ upload_fails env fileName /\
    status (response_of served) = 201 /\
    soundboards db !! id = None /\
    db_of served = with_soundboards db (<[id := row]> (soundboards db)))) /\
  (truthy_str (body_text req) = true ->
   synthesis_fails env text \/ upload_fails env fileName ->
   status (response_of served) = 500 /\ db_of served = db /\
   db_calls (ctr_of served) = 0%nat) /\
  (truthy_str (body_text req) = true ->
   ~ synthesis_fails env text -> ~ upload_fails env fileName ->
   soundboards db !! id = None -> env_db_fault env 0%nat = None ->
   status (response_of served) = 201 /\
   soundboards (db_of served) !! id = Some row).
Proof.
  intros Hmeth Hpath.
  destruct req as [meth path ? ? ? ? text0 ? ? ? ?]; simpl in Hmeth, Hpath; subst meth path.
  unfold synthesis_fails, upload_fails, serve, app; cbn.
  unfold post_soundboards, generateSpeech, uploadToGCS, Soundboard_create.
  open_monad.
  destruct text0 as [text|]; cbn.
  2: { split; [left; reflexivity|]. split; intros; discriminate. }
  destruct (String.eqb text "") eqn:Htext; cbn.
  { split; [left; reflexivity|]. split; intros; discriminate. }
  destruct (env_tts_client env) eqn:Htts; cbn.
  2: { destruct (env_development env); cbn.
       all: split; [left; reflexivity|]; split; [auto|]; intros _ Hs; exfalso; apply Hs; auto. }
  destruct (env_synthesize env text) as [audio|msg] eqn:Hsyn; cbn.
  2: { destruct (env_development env); cbn.
       all: split; [left; reflexivity|]; split; [auto|]; intros _ Hs; exfalso; apply Hs;
         right; eauto. }
  destruct (env_bucket env) eqn:Hbucket; cbn.
  2: { destruct (env_development env); cbn.
       all: split; [left; reflexivity|]; split; [auto|]; intros _ _ Hu; exfalso; apply Hu; auto. }
  destruct (env_gcs_save env (env_uuid env 0%nat +:+ ".mp3")) as [msg|] eqn:Hsave; cbn.
  { destruct (env_development env); cbn.
    all: split; [left; reflexivity|]; split; [auto|]; intros _ _ Hu; exfalso; apply Hu;
      right; eauto. }
  assert (Hsynth_ok : ~ (true = false \/ exists message : string, inl audio = inr message)).
  { intros [H|[m H]]; discriminate. }
  assert (Hupload_ok : ~ (true = false \/ exists message : string, None = Some message)).
  { intros [H|[m H]]; discriminate. }
  destruct (env_db_fault env 0%nat) as [msg|] eqn:F0; cbn.
  { destruct (env_development env); cbn.
    all: split; [left; reflexivity|]; split; [|intros; discriminate].
    all: intros _ [Hs|Hu]; [destruct (Hsynth_ok Hs) | destruct (Hupload_ok Hu)]. }
  destruct (soundboards db !! env_uuid env 1%nat) eqn:Hfresh; cbn.
  { destruct (env_development env); cbn.
    all: split; [left; reflexivity|]; split; [|intros; discriminate].
    all: intros _ [Hs|Hu]; [destruct (Hsynth_ok Hs) | destruct (Hupload_ok Hu)]. }
  split; [right; repeat split; auto|].
  split.
  - intros _ [Hs|Hu]; [destruct (Hsynth_ok Hs) | destruct (Hupload_ok Hu)].
  - intros _ _ _ _ _. split; [reflexivity|]. apply lookup_insert_eq.
Qed.

Lemma soundboard_row_only_after_synthesis_and_upload_witness :
  let served := serve app bucket_down empty_db (soundboard_request "selamat pagi") in
  status (response_of served) = 500 /\ db_of served = empty_db.
Proof.
  destruct (soundboard_row_only_after_synthesis_and_upload bucket_down empty_db
              (soundboard_request "selamat pagi") eq_refl eq_refl) as (_ & H & _).
  destruct H as (H500 & Hdb & _).
  - reflexivity.
  - right. right. exists "503 Service Unavailable". reflexivity.
  - split; assumption.
Defined.

End Soundboards.

Section Feedback.

Import Capstone CapstoneProps.

(** C4.  POST /api/feedback, second copy.  A request that lacks a comment or
    whose rating is not from 1 to 4 is answered 400, with the database
    unchanged and no statement sent to it.  A request with a comment and a
    rating from 1 to 4 is answered 201 and its row is stored, provided the
    INSERT does not throw and the next id is free.  Every 201 comes from such
    a request.  In particular ratings 1 and 4 are accepted and ratings 0 and
    5 are refused. *)
Theorem create_feedback_iff_rating_from_1_to_4
    (env : Env) (db : DB) (req : Request) :
  req_method req = POST ->
  req_path req = ["api"; "feedback"] ->
  let served := serve app env db req in
  (~ valid_feedback req ->
     status (response_of served) = 400 /\ db_of served = db /\
     db_calls (ctr_of served) = 0%nat) /\
  (status (response_of served) = 201 -> valid_feedback req) /\
  (env_db_fault env 0%nat = None ->
   feedback db !! feedback_auto_increment db = None ->
   (valid_feedback req <-> status (response_of served) = 201) /\
   (forall comment rating,
      body_comment req = Some comment -> body_rating req = Some rating ->
      status (response_of served) = 201 ->
      feedback (db_of served) !! feedback_auto_increment db =
        Some {| f_comment := comment; f_rating := rating;
                f_created_at := env_db_now env; f_updated_at := env_db_now env |}) /\
   (truthy_str (body_comment req) = true ->
    (body_rating req = Some 1 \/ body_rating req = Some 4 ->
       status (response_of served) = 201) /\
    (body_rating req = Some 0 \/ body_rating req = Some 5 ->
       status (response_of served) = 400))).
Proof.
  intros Hmeth Hpath.
  destruct req as [meth path ? ? ? ? ? ? comment0 rating0 ?];
    simpl in Hmeth, Hpath; subst meth path.
  unfold valid_feedback, serve, app; cbn.
  unfold post_feedback, insert_feedback. open_monad.
  destruct comment0 as [comment|]; cbn.
  2: { split; [auto|]. split; [discriminate|]. intros _ _.
       split; [split; [intros [H _]; discriminate | discriminate]|].
       split; [discriminate|]. discriminate. }
  destruct (String.eqb comment ""); cbn.
  { split; [auto|]. split; [discriminate|]. intros _ _.
    split; [split; [intros [H _]; discriminate | discriminate]|].
    split; [discriminate|]. discriminate. }
  destruct rating0 as [rating|]; cbn.
  2: { split; [auto|]. split; [discriminate|]. intros _ _.
       split; [split; [intros [_ (z & H & _)]; discriminate | discriminate]|].
       split; [discriminate|]. intros _. split; intros [H|H]; discriminate. }
  destruct (Z.eqb_spec rating 0) as [->|Hnz]; cbn.
  { split; [auto|]. split; [discriminate|]. intros _ _.
    split; [split; [intros [_ (z & H & Hz)]; inversion H; lia | discriminate]|].
    split; [discriminate|]. intros _. split; [intros [H|H]; discriminate | auto]. }
  destruct (Z.ltb_spec rating 1) as [Hlt|Hge]; cbn.
  { split; [auto|]. split; [discriminate|]. intros _ _.
    split; [split; [intros [_ (z & H & Hz)]; inversion H; lia | discriminate]|].
    split; [discriminate|]. intros _.
    split; intros [H|H]; inversion H; subst; lia. }
  destruct (Z.ltb_spec 4 rating) as [Hgt|Hle]; cbn.
  { split; [auto|]. split; [discriminate|]. intros _ _.
    split; [split; [intros [_ (z & H & Hz)]; inversion H; lia | discriminate]|].
    split; [discriminate|]. intros _.
    split; intros [H|H]; inversion H; subst; try lia; reflexivity. }
  assert (Hvalid : true = true /\ exists z, Some rating = Some z /\ 1 <= z <= 4).
  { split; [reflexivity|]. exists rating. split; [reflexivity|lia]. }
  destruct (env_db_fault env 0%nat) as [msg|] eqn:F0; cbn.
  { destruct (env_development env); cbn.
    all: split; [intros Hn; destruct (Hn Hvalid)|].
    all: split; [discriminate|]. all: intros; discriminate. }
  destruct (feedback db !! feedback_auto_increment db) eqn:Hfree; cbn.
  { destruct (env_development env); cbn.
    all: split; [intros Hn; destruct (Hn Hvalid)|].
    all: split; [discriminate|]. all: intros; discriminate. }
  split; [intros Hn; destruct (Hn Hvalid)|].
  split; [intros _; exact Hvalid|].
  intros _ _. split; [split; [reflexivity | intros _; exact Hvalid]|].
  split.
  - intros c r Hc Hr _. inversion Hc; inversion Hr; subst. apply lookup_insert_eq.
  - intros _. split; [reflexivity|]. intros [H|H]; inversion H; subst; lia.
Qed.

Lemma create_feedback_iff_rating_from_1_to_4_witness :
  status (response_of (serve app calm empty_db
                         (feedback_request "Aplikasi sangat membantu" 4))) = 201 /\
  status (response_of (serve app calm empty_db
                         (feedback_request "Aplikasi sangat membantu" 5))) = 400.
Proof.
  split.
  - destruct (create_feedback_iff_rating_from_1_to_4 calm empty_db
                (feedback_request "Aplikasi sangat membantu" 4) eq_refl eq_refl)
      as (_ & _ & H).
    destruct H as (_ & _ & H); [reflexivity | reflexivity |].
    destruct H as [H _]; [reflexivity|]. apply H. right. reflexivity.
  - destruct (create_feedback_iff_rating_from_1_to_4 calm empty_db
                (feedback_request "Aplikasi sangat membantu" 5) eq_refl eq_refl)
      as (H & _).
    destruct H as (H & _); [|exact H].
    intros [_ (z & Hz & Hrange)]. inversion Hz. subst z. lia.
Defined.

End Feedback.

Section List_history.

Import HistoryJsProps.

#[local] Instance newer_first_total : Total HistoryJs.newer_first.
Proof. intros a b. unfold HistoryJs.newer_first. lia. Qed.

#[local] Instance newer_first_trans : Transitive HistoryJs.newer_first.
Proof. intros a b c. unfold HistoryJs.newer_first. lia. Qed.

(** GET /api/history in [src/history.js], when the SELECT does not throw:
    404 on an empty table, and otherwise 200 with every row of the table,
    the newest first. *)
Lemma historyjs_get_history_lists_newest_first (env : Env) (db : HistoryJs.DB) :
  env_db_fault env 0%nat = None ->
  let served := serve HistoryJs.app env db (request GET ["api"; "history"]) in
  db_of served = db /\
  (HistoryJs.history db = ∅ ->
   response_of served =
     res_status_json 404 (HistoryJs.error_json "History tidak ditemukan")) /\
  (HistoryJs.history db ≠ ∅ ->
   exists rows,
     rows ≡ₚ map_to_list (HistoryJs.history db) /\
     StronglySorted HistoryJs.newer_first rows /\
     response_of served =
       res_json (JObj [("status", JStr "success get data");
                       ("data", JArr (map HistoryJs.format_listed rows))])).
Proof.
  intros F0. unfold serve, HistoryJs.app; cbn.
  unfold HistoryJs.get_history, HistoryJs.select_order_by_created_at_desc.
  open_monad. rewrite F0; cbn.
  pose proof (merge_sort_Permutation HistoryJs.newer_first
                (map_to_list (HistoryJs.history db))) as Hperm.
  pose proof (StronglySorted_merge_sort HistoryJs.newer_first
                (map_to_list (HistoryJs.history db))) as Hsorted.
  destruct (merge_sort HistoryJs.newer_first (map_to_list (HistoryJs.history db)))
    as [|x rows] eqn:Hrows; cbn.
  - split; [reflexivity|]. split; [reflexivity|].
    intros Hne. exfalso. apply Hne. apply map_to_list_empty_iff.
    apply Permutation_nil_r. symmetry. exact Hperm.
  - split; [reflexivity|]. split.
    + intros Hempty. rewrite Hempty, map_to_list_empty in Hperm.
      apply Permutation_nil_r in Hperm. discriminate.
    + intros _. exists (x :: rows). auto.
Qed.

Import Capstone CapstoneProps.

(** C5, on the second copy of the Capstone server: GET /api/history binds
    [histories] to the first element of the array of rows.  With two rows in
    the table the answer carries the newest row alone, as an object; with
    none it carries no [data] at all. *)
Theorem capstone_get_history_answers_one_row :
  response_of (serve app calm two_histories (request GET ["api"; "history"])) =
    res_json (JObj [("success", JBool true); ("data", history_json (2, newer))]) /\
  response_of (serve app calm empty_db (request GET ["api"; "history"])) =
    res_json (JObj [("success", JBool true)]).
Proof. split; vm_compute; reflexivity. Qed.

(** In no state and no environment is [data] a list. *)
Lemma capstone_get_history_never_a_list (env : Env) (db : DB) (items : list Json) :
  field "data" (body (response_of (serve app env db (request GET ["api"; "history"]))))
  ≠ Some (JArr items).
Proof.
  unfold serve, app; cbn. unfold get_history, select_history_desc. open_monad.
  destruct (env_db_fault env 0%nat); cbn.
  - destruct (env_development env); cbn; discriminate.
  - destruct (merge_sort newer_history_first (map_to_list (history db))); cbn; discriminate.
Qed.

End List_history.

Section Profile.

Import Capstone CapstoneProps.

(** A public URL is never the empty string, so a stored picture always takes
    the UPDATE that sets the picture. *)
Lemma publicUrl_not_empty (env : Env) (filename : string) :
  String.eqb (publicUrl env filename) "" = false.
Proof. reflexivity. Qed.

(** One PUT /api/profile on a table that holds the row of id 1 and nothing
    else. *)
Lemma put_profile_step (env : Env) (db : DB) (req : Request) (row : ProfileRow) :
  is_profile_update req ->
  profile db = {[ 1 := row ]} ->
  let served := serve app env db req in
  (exists row',
     profile (db_of served) = {[ 1 := row' ]} /\
     (status (response_of served) = 200 ->
        truthy_str (body_name req) = true /\
        p_name row' = str_of (body_name req) /\
        p_profile_picture_url row' = picture_after env req (p_profile_picture_url row)) /\
     (status (response_of served) ≠ 200 -> row' = row)) /\
  (truthy_str (body_name req) = true ->
   (forall file, req_upload req = Some file -> upload_accepted env file) ->
   env_db_fault env 0%nat = None ->
   status (response_of served) = 200).
Proof.
  intros [Hmeth Hpath] Hprofile.
  destruct req as [meth path ? ? ? ? ? name0 ? ? file0];
    simpl in Hmeth, Hpath; subst meth path.
  unfold picture_after, picture_url, upload_accepted, serve, app;
    cbn -[includes N.leb fileSize_limit].
  unfold upload_single, put_profile, put_profile_body, uploadToGCS,
    update_profile_name, update_profile_name_and_picture.
  unfold try_catch, bind, ret, throw, ask, uuidv4, new_Date, db_stmt.
  destruct file0 as [file|]; cbn -[includes N.leb fileSize_limit].
  - destruct (includes allowedMimes (mimetype file)) eqn:Hmime;
      cbn -[includes N.leb fileSize_limit].
    2: { destruct (env_development env); cbn -[includes].
         all: split; [exists row; split; [exact Hprofile|]; split; [discriminate|reflexivity]|].
         all: intros _ Hacc _; destruct (Hacc file eq_refl) as [? _]; congruence. }
    destruct (N.leb_spec fileSize_limit (size file)) as [Hbig|Hsmall]; cbn -[includes].
    { split; [exists row; split; [exact Hprofile|]; split; [discriminate|reflexivity]|].
      intros _ Hacc _. destruct (Hacc file eq_refl) as (_ & Hsz & _). lia. }
    destruct name0 as [name|]; cbn -[includes].
    2: { split; [exists row; split; [exact Hprofile|]; split; [discriminate|reflexivity]|].
         discriminate. }
    destruct (String.eqb name ""); cbn -[includes].
    { split; [exists row; split; [exact Hprofile|]; split; [discriminate|reflexivity]|].
      discriminate. }
    destruct (env_bucket env) eqn:Hbucket; cbn -[includes].
    2: { destruct (env_development env); cbn -[includes].
         all: split; [exists row; split; [exact Hprofile|]; split; [discriminate|reflexivity]|].
         all: intros _ Hacc _; destruct (Hacc file eq_refl) as (_ & _ & ? & _); congruence. }
    destruct (env_gcs_save env _) eqn:Hsave; cbn -[includes].
    { destruct (env_development env); cbn -[includes].
      all: split; [exists row; split; [exact Hprofile|]; split; [discriminate|reflexivity]|].
      all: intros _ Hacc _; destruct (Hacc file eq_refl) as (_ & _ & _ & ?); congruence. }
    rewrite publicUrl_not_empty; cbn -[includes].
    destruct (env_db_fault env 0%nat) eqn:F0; cbn -[includes].
    { destruct (env_development env); cbn -[includes].
      all: split; [exists row; split; [exact Hprofile|]; split; [discriminate|reflexivity]|].
      all: discriminate. }
    rewrite Hprofile, alter_singleton_eq.
    split; [|reflexivity].
    eexists. split; [reflexivity|]. split; [|intros H; destruct (H eq_refl)].
    intros _. cbn. auto.
  - destruct name0 as [name|]; cbn -[includes].
    2: { split; [exists row; split; [exact Hprofile|]; split; [discriminate|reflexivity]|].
         discriminate. }
    destruct (String.eqb name ""); cbn -[includes].
    { split; [exists row; split; [exact Hprofile|]; split; [discriminate|reflexivity]|].
      discriminate. }
    destruct (env_db_fault env 0%nat) eqn:F0; cbn -[includes].
    { destruct (env_development env); cbn -[includes].
      all: split; [exists row; split; [exact Hprofile|]; split; [discriminate|reflexivity]|].
      all: discriminate. }
    rewrite Hprofile, alter_singleton_eq.
    split; [|reflexivity].
    eexists. split; [reflexivity|]. split; [|intros H; destruct (H eq_refl)].
    intros _. cbn. auto.
Qed.

Lemma after_calls_single_row (calls : list (Env * Request)) (db : DB) (row : ProfileRow) :
  profile db = {[ 1 := row ]} ->
  Forall (fun call => is_profile_update call.2) calls ->
  exists row', profile (after_calls calls db) = {[ 1 := row' ]}.
Proof.
  revert db row. induction calls as [|[env req] calls IH]; intros db row Hprofile Hcalls.
  - exists row. exact Hprofile.
  - inversion Hcalls as [|? ? Hreq Hrest]; subst. simpl in Hreq.
    destruct (put_profile_step env db req row Hreq Hprofile) as [(row' & Hrow' & _) _].
    simpl. exact (IH _ row' Hrow' Hrest).
Qed.

(** C7.  Starting from a profile table that holds the row of id 1 and nothing
    else, after any sequence of PUT /api/profile calls and one more, the
    table still holds exactly that one row.  If the last call answered 200,
    the row carries its name and, when it brought a picture, the URL of that
    picture, otherwise the picture it carried before; if the last call
    answered anything else, the row is as it was before the call.  The call
    answers 200 when it has a name, its picture (if any) is accepted (an
    allowed type, a size under the limit, stored by the bucket) and the
    UPDATE does not throw. *)
Theorem update_profile_keeps_the_single_row
    (calls : list (Env * Request)) (db : DB) (row : ProfileRow)
    (env : Env) (req : Request) :
  profile db = {[ 1 := row ]} ->
  Forall (fun call => is_profile_update call.2) calls ->
  is_profile_update req ->
  let before := after_calls calls db in
  let served := serve app env before req in
  (exists row1 row2,
     profile before = {[ 1 := row1 ]} /\
     profile (db_of served) = {[ 1 := row2 ]} /\
     base.size (profile (db_of served)) = 1%nat /\
     (status (response_of served) = 200 ->
        p_name row2 = str_of (body_name req) /\
        p_profile_picture_url row2 =
          picture_after env req (p_profile_picture_url row1)) /\
     (status (response_of served) ≠ 200 -> row2 = row1)) /\
  (truthy_str (body_name req) = true ->
   (forall file, req_upload req = Some file -> upload_accepted env file) ->
   env_db_fault env 0%nat = None ->
   status (response_of served) = 200).
Proof.
  intros Hprofile Hcalls Hreq.
  destruct (after_calls_single_row calls db row Hprofile Hcalls) as [row1 Hrow1].
  destruct (put_profile_step env (after_calls calls db) req row1 Hreq Hrow1)
    as [(row2 & Hrow2 & H200 & Hother) Hok].
  cbv zeta. split; [|exact Hok].
  exists row1, row2. split; [exact Hrow1|]. split; [exact Hrow2|].
  split; [rewrite Hrow2; apply map_size_singleton|].
  split; [|exact Hother].
  intros Hs. destruct (H200 Hs) as (_ & Hname & Hpic). auto.
Qed.

Lemma update_profile_keeps_the_single_row_witness :
  let before := after_calls [(calm, profile_request "Budi" None)] one_profile in
  let served := serve app calm before (profile_request "Citra" (Some photo)) in
  base.size (profile (db_of served)) = 1%nat /\ status (response_of served) = 200.
Proof.
  destruct (update_profile_keeps_the_single_row
              [(calm, profile_request "Budi" None)] one_profile first_profile
              calm (profile_request "Citra" (Some photo)))
    as [(row1 & row2 & _ & _ & Hsize & _) Hok].
  - reflexivity.
  - repeat constructor.
  - split; reflexivity.
  - cbv zeta. split; [exact Hsize|]. apply Hok.
    + reflexivity.
    + intros file Hfile. inversion Hfile; subst file.
      unfold upload_accepted. repeat split; vm_compute; congruence.
    + reflexivity.
Defined.

(** The row of the sample database after the two calls. *)
Example update_profile_sample :
  let before := after_calls [(calm, profile_request "Budi" None)] one_profile in
  let served := serve app calm before (profile_request "Citra" (Some photo)) in
  profile (db_of served) !! 1 =
    Some {| p_name := "Citra";
            p_profile_picture_url :=
              Some "https://storage.googleapis.com/handlips/profiles/1700000000000-ani.png";
            p_created_at := 1698000000000;
            p_updated_at := env_db_now calm |}.
Proof. vm_compute. reflexivity. Qed.

End Profile.

Section Profile_without_picture.

Import Capstone CapstoneProps.

Lemma picture_kept_by_alter (f : ProfileRow -> ProfileRow) (m : gmap Z ProfileRow) (id : Z) :
  (forall r, p_profile_picture_url (f r) = p_profile_picture_url r) ->
  p_profile_picture_url <$> alter f 1 m !! id = p_profile_picture_url <$> m !! id.
Proof.
  intros Hf. destruct (decide (1 = id)) as [<-|Hne].
  - rewrite lookup_alter_eq. destruct (m !! 1); simpl; [rewrite Hf|]; reflexivity.
  - rewrite lookup_alter_ne by exact Hne. reflexivity.
Qed.

(** C10.  PUT /api/profile with a name and no file, in both copies of the
    Capstone server: no row changes its profile_picture_url, whatever the
    environment does; every 200 answer reports the name and
    profile_picture_url null; and the answer is 200 when the UPDATE does not
    throw. *)
Theorem profile_update_without_picture_reports_null
    (env : Env) (db : DB) (req : Request) :
  is_profile_update req ->
  truthy_str (body_name req) = true ->
  req_upload req = None ->
  let reported :=
    JObj [("success", JBool true);
          ("data", JObj [("name", JStr (str_of (body_name req)));
                         ("profile_picture_url", JNull)])] in
  (let served := serve Capstone.app env db req in
   (forall id, p_profile_picture_url <$> profile (db_of served) !! id =
               p_profile_picture_url <$> profile db !! id) /\
   (status (response_of served) = 200 -> body (response_of served) = reported) /\
   (env_db_fault env 0%nat = None -> status (response_of served) = 200)) /\
  (let served := serve CapstoneFirst.app env db req in
   (forall id, p_profile_picture_url <$> profile (db_of served) !! id =
               p_profile_picture_url <$> profile db !! id) /\
   (status (response_of served) = 200 -> body (response_of served) = reported) /\
   (env_db_fault env 0%nat = None -> status (response_of served) = 200)).
Proof.
  intros [Hmeth Hpath] Hname Hfile.
  destruct req as [meth path ? ? ? ? ? name0 ? ? file0];
    simpl in Hmeth, Hpath, Hname, Hfile; subst meth path file0.
  destruct name0 as [name|]; [|discriminate]. simpl in Hname.
  apply negb_true_iff in Hname.
  split.
  - unfold serve, Capstone.app; cbn.
    unfold upload_single, put_profile, put_profile_body, update_profile_name.
    open_monad. rewrite Hname; cbn.
    destruct (env_db_fault env 0%nat); cbn.
    + destruct (env_development env); cbn.
      all: split; [reflexivity|]; split; [discriminate|discriminate].
    + split; [|split; reflexivity].
      intros id. apply picture_kept_by_alter. reflexivity.
  - unfold serve, CapstoneFirst.app; cbn.
    unfold upload_single, CapstoneFirst.put_profile, put_profile_body,
      CapstoneFirst.update_profile_name.
    open_monad. rewrite Hname; cbn.
    destruct (env_db_fault env 0%nat); cbn.
    + split; [reflexivity|]; split; [discriminate|discriminate].
    + split; [|split; reflexivity].
      intros id. apply picture_kept_by_alter. reflexivity.
Qed.

Lemma profile_update_without_picture_reports_null_witness :
  let served := serve Capstone.app calm one_profile (profile_request "Budi" None) in
  p_profile_picture_url <$> profile (db_of served) !! 1 =
    Some (Some "https://storage.googleapis.com/handlips/profiles/1-ani.png") /\
  field "data" (body (response_of served)) =
    Some (JObj [("name", JStr "Budi"); ("profile_picture_url", JNull)]).
Proof.
  destruct (profile_update_without_picture_reports_null calm one_profile
              (profile_request "Budi" None)) as [(Hkept & Hbody & Hok) _].
  - split; reflexivity.
  - reflexivity.
  - reflexivity.
  - cbv zeta. split.
    + rewrite Hkept. reflexivity.
    + rewrite (Hbody (Hok eq_refl)). reflexivity.
Defined.

End Profile_without_picture.

(** ** Further properties of the routes *)

Section Whole_application.

Context {St : Type} (P : St -> Prop) (req : Request).

Lemma run_stack_keeps (stack : list (string * Handler St)) ps env s c tr :
  Forall (fun named => handler_keeps P (named.2 ps req)) stack ->
  P s -> P (run_stack stack ps req env s c tr).1.1.2.
Proof.
  revert s c tr. induction stack as [|[name h] rest IH]; intros s c tr Hstack Hs.
  - exact Hs.
  - inversion Hstack as [|? ? Hh Hrest]; subst. simpl in Hh.
    specialize (Hh env s c Hs). simpl.
    destruct (h ps req env s c) as [[o s'] c']. simpl in Hh.
    destruct o; simpl; auto.
Qed.

(** What every reachable handler keeps, the application keeps. *)
Lemma dispatch_keeps (layers : list (Layer St)) :
  Forall (layer_keeps P req) layers ->
  forall pending env s c tr,
    P s -> P (db_of (dispatch layers pending req env s c tr)).
Proof.
  induction layers as [|layer rest IH]; intros Hlayers pending env s c tr Hs.
  - exact Hs.
  - inversion Hlayers as [|? ? Hlayer Hrest]; subst.
    specialize (IH Hrest).
    destruct layer as [m pat stack|name h|name h]; simpl in Hlayer; simpl.
    + destruct pending as [e|]; [apply IH, Hs|].
      destruct (Method_eqb m (req_method req)) eqn:Hm; [|apply IH, Hs].
      destruct (match_path pat (req_path req)) as [ps|] eqn:Hp; [|apply IH, Hs].
      pose proof (run_stack_keeps stack ps env s c tr (Hlayer eq_refl ps eq_refl) Hs) as Hrun.
      destruct (run_stack stack ps req env s c tr) as [[[o s'] c'] tr']. simpl in Hrun.
      destruct o; [exact Hrun | apply IH, Hrun | apply IH, Hrun].
    + destruct pending as [e|]; [apply IH, Hs|].
      specialize (Hlayer env s c Hs).
      destruct (h req env s c) as [[o s'] c']. simpl in Hlayer.
      destruct o; [exact Hlayer | apply IH, Hlayer | apply IH, Hlayer].
    + destruct pending as [e|]; [|apply IH, Hs].
      specialize (Hlayer e env s c Hs).
      destruct (h e req env s c) as [[o s'] c']. simpl in Hlayer.
      destruct o; [exact Hlayer | apply IH, Hlayer | apply IH, Hlayer].
Qed.

End Whole_application.

(** Case analysis on every test a handler makes, innermost first. *)
Ltac split_matches :=
  repeat match goal with
  | |- context [match ?x with _ => _ end] =>
      lazymatch x with
      | context [match _ with _ => _ end] => fail
      | _ => destruct x eqn:?; cbn
      end
  end.

Lemma passthrough_keeps {St} (P : St -> Prop) (req : Request) :
  handler_keeps P (passthrough req).
Proof. intros env s c Hs. exact Hs. Qed.

Lemma answer_keeps {St} (P : St -> Prop) (r : Response) : handler_keeps P (@answer St r).
Proof. intros env s c Hs. exact Hs. Qed.

Section Riwayat_integrity.

Import Riwayat RiwayatProps RiwayatMore.

Lemma riwayat_post_history_email_keeps ps req :
  handler_keeps referential_integrity (post_history_email ps req).
Proof.
  intros env db c Hdb. unfold post_history_email, History_findOne, History_create.
  open_monad. split_matches; try exact Hdb.
  intros k m Hk. simpl in Hk. simpl.
  apply lookup_insert_is_Some'. right. exact (Hdb k m Hk).
Qed.

Lemma riwayat_post_history_by_email_keeps ps req :
  handler_keeps referential_integrity (post_history_by_email ps req).
Proof.
  intros env db c Hdb. unfold post_history_by_email, History_findOne, Message_create.
  open_monad. split_matches; try exact Hdb.
  intros k m Hk. simpl in Hk. simpl.
  apply lookup_insert_Some in Hk as [[_ <-]|[_ Hk]]; [simpl; eauto | exact (Hdb k m Hk)].
Qed.

Lemma riwayat_get_history_by_email_keeps (P : DB -> Prop) ps req :
  handler_keeps P (get_history_by_email ps req).
Proof.
  intros env db c Hdb. unfold get_history_by_email, History_findOne, Message_findAll.
  open_monad. split_matches; exact Hdb.
Qed.

Lemma riwayat_delete_history_by_email_keeps ps req :
  handler_keeps referential_integrity (delete_history_by_email ps req).
Proof.
  intros env db c Hdb.
  unfold delete_history_by_email, History_findOne, Message_destroy, History_destroy.
  open_monad. split_matches; try exact Hdb.
  - intros k m Hk. simpl in Hk. simpl.
    apply map_lookup_filter_Some in Hk as [Hk _]. exact (Hdb k m Hk).
  - intros k m Hk. simpl in Hk. simpl.
    apply map_lookup_filter_Some in Hk as [Hk Hne]. simpl in Hne.
    rewrite lookup_delete_ne by congruence. exact (Hdb k m Hk).
Qed.

(** X1.  In [src/riwayat.js] every request, in every environment, leaves each
    message with a history row for its email: a message is created only
    after the lookup found the row, and a deletion removes the messages
    before the row, so a failure between the two statements breaks
    nothing. *)
Theorem riwayat_keeps_referential_integrity (env : Env) (db : DB) (req : Request) :
  referential_integrity db ->
  referential_integrity (db_of (serve app env db req)).
Proof.
  intros Hdb. unfold serve. apply dispatch_keeps; [|exact Hdb].
  unfold app. repeat apply Forall_cons_2; try apply Forall_nil_2; simpl.
  - apply passthrough_keeps.
  - apply passthrough_keeps.
  - intros _ ps _. repeat constructor. apply answer_keeps.
  - intros _ ps _. repeat constructor. apply riwayat_post_history_email_keeps.
  - intros _ ps _. repeat constructor. apply riwayat_post_history_by_email_keeps.
  - intros _ ps _. repeat constructor. apply riwayat_get_history_by_email_keeps.
  - intros _ ps _. repeat constructor. apply riwayat_delete_history_by_email_keeps.
  - intros e. apply answer_keeps.
Qed.

Lemma riwayat_keeps_referential_integrity_witness :
  referential_integrity
    (db_of (serve app (db_down_at 2) one_history_one_message
              (delete_request "ani@example.com"))).
Proof.
  apply riwayat_keeps_referential_integrity.
  intros k m Hk. unfold one_history_one_message in *. simpl in *.
  apply lookup_singleton_Some in Hk as [_ <-]. simpl.
  rewrite lookup_singleton_eq. eauto.
Defined.

End Riwayat_integrity.

Section Riwayat_messages.

Import Riwayat RiwayatProps RiwayatMore.

Lemma riwayat_identity_db (env : Env) (db : DB) (title email : string) :
  title ≠ "" -> email ≠ "" -> HISTORY db !! email = None ->
  env_db_fault env 0%nat = None -> env_db_fault env 1%nat = None ->
  db_of (serve app env db (identity_request title email)) =
    {| HISTORY := <[email := {| h_id := env_uuid env 0%nat; h_title := title |}]> (HISTORY db);
       MESSAGE := MESSAGE db |}.
Proof.
  intros Htitle Hemail Hnone F0 F1. unfold serve, app; cbn.
  unfold post_history_email, History_findOne, History_create. open_monad.
  rewrite (eqb_empty_false _ Hemail), (eqb_empty_false _ Htitle); cbn.
  rewrite F0; cbn. rewrite Hnone; cbn. rewrite F1; cbn. rewrite Hnone; cbn. reflexivity.
Qed.

(** X26.  POST /api/history/email in [src/riwayat.js] with a title and an email
    that are not empty, for an email that has no history row, when no
    statement throws: the first call answers 201 with the new identity and
    inserts it under the email; a second call for the same email answers
    400 "Email sudah terdaftar" and leaves the database as the first call
    left it. *)
Theorem riwayat_create_identity_once_then_conflict
    (env1 env2 : Env) (req1 req2 : Request) (title title2 email : string) (db : DB) :
  is_identity_request req1 title email ->
  is_identity_request req2 title2 email ->
  title ≠ "" -> title2 ≠ "" -> email ≠ "" ->
  HISTORY db !! email = None ->
  env_db_fault env1 0%nat = None -> env_db_fault env1 1%nat = None ->
  env_db_fault env2 0%nat = None ->
  let r1 := serve app env1 db req1 in
  let r2 := serve app env2 (db_of r1) req2 in
  response_of r1 =
    res_status_json 201
      (JObj [("message", JStr "Data History berhasil dibuat");
             ("data", JObj [("email", JStr email); ("id", JStr (env_uuid env1 0%nat));
                            ("title", JStr title)])]) /\
  db_of r1 =
    {| HISTORY := <[email := {| h_id := env_uuid env1 0%nat; h_title := title |}]>
                    (HISTORY db);
       MESSAGE := MESSAGE db |} /\
  response_of r2 = res_status_json 400 (JObj [("message", JStr "Email sudah terdaftar")]) /\
  db_of r2 = db_of r1.
Proof.
  intros (Hm1 & Hp1 & Ht1 & He1) (Hm2 & Hp2 & Ht2 & He2) Htitle Htitle2 Hemail
         Hnone F10 F11 F20.
  destruct req1, req2; simpl in *; subst.
  unfold serve, app; cbn.
  unfold post_history_email, History_findOne, History_create.
  open_monad. rewrite !(eqb_empty_false _ Hemail), !(eqb_empty_false _ Htitle); cbn.
  rewrite F10; cbn. rewrite Hnone; cbn. rewrite F11; cbn. rewrite Hnone; cbn.
  rewrite !(eqb_empty_false _ Htitle2); cbn. rewrite F20; cbn.
  rewrite lookup_insert_eq; cbn. auto.
Qed.

Lemma riwayat_create_identity_once_then_conflict_witness :
  let r1 := serve app calm riwayat_empty (identity_request "Ani" "ani@example.com") in
  status (response_of r1) = 201 /\
  status (response_of (serve app calm (db_of r1)
                         (identity_request "Ani lagi" "ani@example.com"))) = 400.
Proof.
  pose proof (riwayat_create_identity_once_then_conflict calm calm
                (identity_request "Ani" "ani@example.com")
                (identity_request "Ani lagi" "ani@example.com")
                "Ani" "Ani lagi" "ani@example.com" riwayat_empty) as H.
  destruct H as (H1 & _ & H2 & _).
  - repeat split.
  - repeat split.
  - discriminate.
  - discriminate.
  - discriminate.
  - reflexivity.
  - reflexivity.
  - reflexivity.
  - reflexivity.
  - cbv zeta. rewrite H1, H2. split; reflexivity.
Defined.

Lemma riwayat_attach_served (env : Env) (db : DB) (req : Request)
    (email message : string) (stt : bool) (h : HistoryRow) :
  is_attach_request req email message stt ->
  message ≠ "" -> email ≠ "" -> lower email ≠ "email" ->
  HISTORY db !! email = Some h ->
  env_db_fault env 0%nat = None -> env_db_fault env 1%nat = None ->
  let message_id := env_uuid env 0%nat in
  let row := {| m_email := email; m_message := message;
                m_created_at := env_now env; m_is_speech_to_text := stt |} in
  (serve app env db req).1.1 =
    match MESSAGE db !! message_id with
    | None =>
        (res_status_json 201
           (JObj [("message", JStr "Data Message berhasil dibuat");
                  ("data", message_json (message_id, row))]),
         {| HISTORY := HISTORY db; MESSAGE := <[message_id := row]> (MESSAGE db) |})
    | Some _ =>
        (res_status_json 500 (JObj [("message", JStr (exn_message unique_violation))]), db)
    end.
Proof.
  intros (Hmeth & Hpath & Hmsg & Hstt) Hne Hemail Hlit Hh F0 F1.
  destruct req as [meth path ? ? msg0 stt0 ? ? ? ? ?];
    simpl in Hmeth, Hpath, Hmsg, Hstt; subst meth path msg0 stt0.
  unfold serve, app.
  cbn -[String.eqb post_history_by_email post_history_email].
  rewrite !String.eqb_refl, (eqb_literal_false "email" (lower email) Hlit),
    (eqb_empty_false _ Hemail).
  cbn -[post_history_by_email post_history_email].
  unfold post_history_by_email, History_findOne, Message_create. open_monad.
  rewrite (eqb_empty_false _ Hne); cbn. rewrite F0; cbn. rewrite Hh; cbn.
  rewrite F1; cbn.
  destruct (MESSAGE db !! env_uuid env 0%nat) eqn:Hfree; cbn; reflexivity.
Qed.

(** A path whose last segment is the word email in some letter case is
    taken by the route that creates an identity; the body of an attach
    request has no title, so the route answers 400 and changes nothing. *)
Lemma riwayat_attach_taken_as_identity (env : Env) (db : DB)
    (email message : string) (stt : bool) :
  lower email = "email" ->
  (serve app env db (attach_request email message stt)).1.1 =
    (res_status_json 400 (JObj [("message", JStr "Email dan title harus diisi")]), db).
Proof.
  intros Hlit. unfold serve, app.
  cbn -[String.eqb post_history_by_email post_history_email].
  rewrite !String.eqb_refl, Hlit. cbn. reflexivity.
Qed.

Lemma riwayat_delete_served (env : Env) (db : DB) (email : string) (h : HistoryRow) :
  email ≠ "" -> HISTORY db !! email = Some h ->
  env_db_fault env 0%nat = None -> env_db_fault env 1%nat = None ->
  env_db_fault env 2%nat = None ->
  (serve app env db (delete_request email)).1.1 =
    (res_json (JObj [("message",
                      JStr ("History dan message dengan email " +:+ email
                            +:+ " telah dihapus"))]),
     {| HISTORY := delete email (HISTORY db);
        MESSAGE := filter (fun kv => m_email kv.2 ≠ email) (MESSAGE db) |}).
Proof.
  intros Hemail Hh F0 F1 F2. unfold serve, app.
  cbn -[String.eqb delete_history_by_email].
  rewrite !String.eqb_refl, (eqb_empty_false _ Hemail).
  cbn -[delete_history_by_email].
  unfold delete_history_by_email, History_findOne, Message_destroy, History_destroy.
  open_monad. rewrite F0; cbn. rewrite Hh; cbn. rewrite F1; cbn. rewrite F2; cbn.
  reflexivity.
Qed.

(** X2.  POST /api/history/:email in [src/riwayat.js], for an email that has a
    history row, with a message that is not empty and a defined
    is_speech_to_text, when neither statement throws: if the uuid is not yet
    a message key, the call answers 201 with the new message and adds
    exactly that row, keyed by the uuid, leaving the history table alone; if
    the uuid is taken, the call answers 500 and changes nothing.  The email
    is not the word email in any letter case: that path belongs to the route
    that creates an identity. *)
Theorem riwayat_attach_message_adds_one_row
    (env : Env) (db : DB) (req : Request) (email message : string) (stt : bool)
    (h : HistoryRow) :
  is_attach_request req email message stt ->
  message ≠ "" -> email ≠ "" -> lower email ≠ "email" ->
  HISTORY db !! email = Some h ->
  env_db_fault env 0%nat = None -> env_db_fault env 1%nat = None ->
  let served := serve app env db req in
  let message_id := env_uuid env 0%nat in
  let row := {| m_email := email; m_message := message;
                m_created_at := env_now env; m_is_speech_to_text := stt |} in
  (MESSAGE db !! message_id = None ->
   response_of served =
     res_status_json 201
       (JObj [("message", JStr "Data Message berhasil dibuat");
              ("data", message_json (message_id, row))]) /\
   db_of served =
     {| HISTORY := HISTORY db; MESSAGE := <[message_id := row]> (MESSAGE db) |}) /\
  (MESSAGE db !! message_id ≠ None ->
   status (response_of served) = 500 /\ db_of served = db).
Proof.
  intros Hreq Hne Hemail Hlit Hh F0 F1.
  pose proof (riwayat_attach_served env db req email message stt h
                Hreq Hne Hemail Hlit Hh F0 F1) as Hserved.
  cbv zeta in *. unfold response_of, db_of.
  destruct (serve app env db req) as [[[resp db'] c'] tr']. simpl in *.
  destruct (MESSAGE db !! env_uuid env 0%nat) eqn:Hfree;
    inversion Hserved; subst resp db'.
  - split; [discriminate|]. intros _. auto.
  - split; [auto|]. intros Hn. destruct (Hn eq_refl).
Qed.

Lemma riwayat_attach_message_adds_one_row_witness :
  let served := serve app calm one_history_one_message
                  (attach_request "ani@example.com" "apa kabar" false) in
  status (response_of served) = 201 /\
  MESSAGE (db_of served) !! "uuid-0" =
    Some {| m_email := "ani@example.com"; m_message := "apa kabar";
            m_created_at := env_now calm; m_is_speech_to_text := false |}.
Proof.
  destruct (riwayat_attach_message_adds_one_row calm one_history_one_message
              (attach_request "ani@example.com" "apa kabar" false)
              "ani@example.com" "apa kabar" false {| h_id := "h-1"; h_title := "Ani" |})
    as [H _].
  - repeat split.
  - discriminate.
  - discriminate.
  - discriminate.
  - vm_compute. reflexivity.
  - reflexivity.
  - reflexivity.
  - destruct H as [Hresp Hdb]; [vm_compute; reflexivity|].
    cbv zeta. rewrite Hresp, Hdb. split; [reflexivity|]. simpl.
    apply lookup_insert_eq.
Defined.

(** X3.  GET /api/history/:email in [src/riwayat.js] never changes the database.
    When the lookup does not throw and finds no history row the answer is
    404; when neither statement throws and the row exists the answer is 200
    with the row and with the messages of that email: each of them once, and
    no message of another email. *)
Theorem riwayat_get_history_lists_the_messages_of_the_email
    (env : Env) (db : DB) (req : Request) (email : string) :
  req_method req = GET ->
  req_path req = ["api"; "history"; email] ->
  email ≠ "" ->
  let served := serve app env db req in
  db_of served = db /\
  (env_db_fault env 0%nat = None -> HISTORY db !! email = None ->
   response_of served =
     res_status_json 404
       (JObj [("message", JStr ("History dengan email " +:+ email +:+ " tidak ditemukan"))])) /\
  (forall h,
     env_db_fault env 0%nat = None -> env_db_fault env 1%nat = None ->
     HISTORY db !! email = Some h ->
     exists messages,
       response_of served =
         res_json (JObj [("message", JStr "Data ditemukan");
                         ("data", JObj [("history", history_json email h);
                                        ("messages", JArr (map message_json messages))])]) /\
       NoDup messages /\
       forall k m, (k, m) ∈ messages <-> MESSAGE db !! k = Some m /\ m_email m = email).
Proof.
  intros Hmeth Hpath Hemail.
  destruct req as [meth path ? ? ? ? ? ? ? ? ?]; simpl in Hmeth, Hpath; subst meth path.
  unfold serve, app.
  cbn -[String.eqb get_history_by_email].
  rewrite !String.eqb_refl, (eqb_empty_false _ Hemail).
  cbn -[get_history_by_email].
  unfold get_history_by_email, History_findOne, Message_findAll. open_monad.
  destruct (env_db_fault env 0%nat) eqn:F0; cbn.
  { split; [reflexivity|]. split; intros; discriminate. }
  destruct (HISTORY db !! email) as [h|] eqn:Hh; cbn.
  2: { split; [reflexivity|]. split; [reflexivity|]. intros; discriminate. }
  destruct (env_db_fault env 1%nat) eqn:F1; cbn.
  { split; [reflexivity|]. split; intros; discriminate. }
  split; [reflexivity|]. split; [intros; discriminate|].
  intros h' _ _ Hh'. inversion Hh'; subst h'.
  eexists. split; [reflexivity|]. split; [apply NoDup_map_to_list|].
  intros k m. rewrite elem_of_map_to_list, map_lookup_filter_Some. reflexivity.
Qed.

Lemma riwayat_get_history_lists_the_messages_of_the_email_witness :
  status (response_of (serve app calm one_history_one_message
                         (get_request "budi@example.com"))) = 404.
Proof.
  destruct (riwayat_get_history_lists_the_messages_of_the_email calm
              one_history_one_message (get_request "budi@example.com")
              "budi@example.com") as (_ & H & _).
  - reflexivity.
  - reflexivity.
  - discriminate.
  - rewrite H; reflexivity.
Defined.

(** X4.  In [src/riwayat.js], for an email that has neither a history row nor a
    message: creating the identity, attaching a message and deleting the
    history, each without a failure, ends with 200 and gives back the
    database the three calls started from. *)
Theorem riwayat_create_attach_delete_restores
    (env1 env2 env3 : Env) (db : DB) (title email message : string) (stt : bool) :
  title ≠ "" -> email ≠ "" -> email ≠ "email" -> message ≠ "" ->
  HISTORY db !! email = None ->
  no_messages_for email (MESSAGE db) ->
  MESSAGE db !! env_uuid env2 0%nat = None ->
  db_up env1 -> db_up env2 -> db_up env3 ->
  let db1 := db_of (serve app env1 db (identity_request title email)) in
  let db2 := db_of (serve app env2 db1 (attach_request email message stt)) in
  let served := serve app env3 db2 (delete_request email) in
  status (response_of served) = 200 /\ db_of served = db.
Proof.
  intros Htitle Hemail _ Hmsg Hnone Hnomsg Hfree Hup1 Hup2 Hup3.
  cbv zeta.
  rewrite (riwayat_identity_db env1 db title email Htitle Hemail Hnone (Hup1 _) (Hup1 _)).
  destruct (String.eqb_spec (lower email) "email") as [Hlit|Hlit].
  - (* the attach request is taken by the route that creates an identity *)
    unfold response_of, db_of.
    rewrite (riwayat_attach_taken_as_identity env2 _ email message stt Hlit).
    simpl snd.
    rewrite (riwayat_delete_served env3 _ email
               {| h_id := env_uuid env1 0%nat; h_title := title |}
               Hemail (lookup_insert_eq _ _ _) (Hup3 _) (Hup3 _) (Hup3 _)).
    simpl. split; [reflexivity|].
    destruct db as [hist msgs]; simpl in *. f_equal.
    + apply delete_insert_id. exact Hnone.
    + apply map_filter_id. intros k m Hk. simpl. exact (Hnomsg k m Hk).
  - pose proof (riwayat_attach_served env2
                  {| HISTORY := <[email := {| h_id := env_uuid env1 0%nat;
                                              h_title := title |}]> (HISTORY db);
                     MESSAGE := MESSAGE db |}
                  (attach_request email message stt) email message stt
                  {| h_id := env_uuid env1 0%nat; h_title := title |}) as Hattach.
    simpl in Hattach. rewrite Hfree in Hattach.
    unfold response_of, db_of.
    rewrite Hattach;
      [| repeat split | assumption | assumption | assumption
       | apply lookup_insert_eq | apply Hup2 | apply Hup2 ].
    simpl snd.
    rewrite (riwayat_delete_served env3 _ email
               {| h_id := env_uuid env1 0%nat; h_title := title |}
               Hemail (lookup_insert_eq _ _ _) (Hup3 _) (Hup3 _) (Hup3 _)).
    simpl. split; [reflexivity|].
    destruct db as [hist msgs]; simpl in *. f_equal.
    + apply delete_insert_id. exact Hnone.
    + rewrite map_filter_insert_not';
        [ | simpl; intros H; apply H; reflexivity | intros y Hy; congruence ].
      apply map_filter_id. intros k m Hk. simpl. exact (Hnomsg k m Hk).
Qed.

Lemma riwayat_create_attach_delete_restores_witness :
  let db1 := db_of (serve app calm riwayat_empty (identity_request "Ani" "ani@example.com")) in
  let db2 := db_of (serve app calm db1 (attach_request "ani@example.com" "halo" true)) in
  db_of (serve app calm db2 (delete_request "ani@example.com")) = riwayat_empty.
Proof.
  refine (proj2 (riwayat_create_attach_delete_restores calm calm calm riwayat_empty
                   "Ani" "ani@example.com" "halo" true _ _ _ _ _ _ _ _ _ _)).
  - discriminate.
  - discriminate.
  - discriminate.
  - discriminate.
  - reflexivity.
  - intros k m Hk. vm_compute in Hk. discriminate.
  - reflexivity.
  - intros n. reflexivity.
  - intros n. reflexivity.
  - intros n. reflexivity.
Defined.

(** X5.  Both POST routes of [src/riwayat.js] answer an incomplete body with 400
    before they send anything to the database.  The second route is the one
    of every path parameter that is not the word email in any letter case. *)
Theorem riwayat_rejects_incomplete_bodies (env : Env) (db : DB) (req : Request) :
  req_method req = POST ->
  let served := serve app env db req in
  (req_path req = ["api"; "history"; "email"] ->
   truthy_str (body_email req) = false \/ truthy_str (body_title req) = false ->
   response_of served =
     res_status_json 400 (JObj [("message", JStr "Email dan title harus diisi")]) /\
   db_of served = db /\ db_calls (ctr_of served) = 0%nat) /\
  (forall email,
     req_path req = ["api"; "history"; email] -> email ≠ "" -> lower email ≠ "email" ->
     truthy_str (body_message req) = false \/ body_is_speech_to_text req = None ->
     response_of served =
       res_status_json 400
         (JObj [("message", JStr "Message dan is_speech_to_text harus diisi")]) /\
     db_of served = db /\ db_calls (ctr_of served) = 0%nat).
Proof.
  intros Hmeth.
  destruct req as [meth path title0 email0 msg0 stt0 ? ? ? ? ?];
    simpl in Hmeth; subst meth. cbv zeta. simpl. split.
  - intros -> Hbad. unfold serve, app; cbn.
    unfold post_history_email. open_monad.
    destruct Hbad as [-> | Hbad]; cbn; [auto|].
    rewrite Hbad. destruct (truthy_str email0); cbn; auto.
  - intros email -> Hemail Hlit Hbad. unfold serve, app.
    cbn -[String.eqb post_history_by_email post_history_email].
    rewrite !String.eqb_refl, (eqb_literal_false "email" (lower email) Hlit),
      (eqb_empty_false _ Hemail).
    cbn -[post_history_by_email post_history_email].
    unfold post_history_by_email. open_monad.
    destruct stt0 as [stt|]; cbn; [|auto].
    destruct Hbad as [-> | Hbad]; [cbn; auto | discriminate].
Qed.

Lemma riwayat_rejects_incomplete_bodies_witness :
  let served := serve app calm riwayat_empty (identity_request "" "ani@example.com") in
  status (response_of served) = 400 /\ db_of served = riwayat_empty.
Proof.
  destruct (riwayat_rejects_incomplete_bodies calm riwayat_empty
              (identity_request "" "ani@example.com") eq_refl) as [H _].
  destruct H as (Hresp & Hdb & _).
  - reflexivity.
  - right. reflexivity.
  - cbv zeta. rewrite Hresp. split; [reflexivity | exact Hdb].
Defined.

End Riwayat_messages.

Section HistoryJs_invariant.

Import HistoryJs HistoryJsProps HistoryJsMore.

Lemma one_row_per_email_sub (db db' : DB) :
  (forall id r, history db' !! id = Some r -> history db !! id = Some r) ->
  one_row_per_email db -> one_row_per_email db'.
Proof.
  intros Hsub Hdb id1 id2 r1 r2 H1 H2. eauto.
Qed.

Lemma historyjs_get_history_keeps (P : DB -> Prop) ps req :
  handler_keeps P (get_history ps req).
Proof.
  intros env db c Hdb. unfold get_history, select_order_by_created_at_desc.
  open_monad. split_matches; exact Hdb.
Qed.

Lemma historyjs_get_history_by_email_keeps (P : DB -> Prop) ps req :
  handler_keeps P (get_history_by_email ps req).
Proof.
  intros env db c Hdb. unfold get_history_by_email, select_where_email.
  open_monad. split_matches; exact Hdb.
Qed.

(** The INSERT of POST /api/history/email is refused by the table, so the
    route leaves the database as it was. *)
Lemma historyjs_post_history_email_keeps (P : DB -> Prop) ps req :
  handler_keeps P (post_history_email ps req).
Proof.
  intros env db c Hdb. unfold post_history_email, select_where_email, insert_history.
  open_monad. split_matches; exact Hdb.
Qed.

Lemma historyjs_post_history_by_email_keeps ps req :
  handler_keeps one_row_per_email (post_history_by_email ps req).
Proof.
  intros env db c Hdb. unfold post_history_by_email, History_findOne, save_message.
  open_monad. split_matches; try exact Hdb.
  intros id1 id2 r1 r2 H1 H2 He. simpl in H1, H2.
  apply lookup_alter_Some in H1 as [(-> & x1 & H1 & ->)|[_ H1]];
    apply lookup_alter_Some in H2 as [(-> & x2 & H2 & ->)|[_ H2]];
    simpl in He; try reflexivity; eapply Hdb; eauto.
Qed.

Lemma historyjs_delete_history_by_email_keeps ps req :
  handler_keeps one_row_per_email (delete_history_by_email ps req).
Proof.
  intros env db c Hdb. unfold delete_history_by_email, select_where_email,
    History_destroy_where.
  open_monad. split_matches; try exact Hdb.
  eapply one_row_per_email_sub; [|exact Hdb].
  intros id r Hid. simpl in Hid. apply map_lookup_filter_Some in Hid as [Hid _]. exact Hid.
Qed.

Lemma historyjs_delete_history_by_pk_keeps ps req :
  handler_keeps one_row_per_email (delete_history_by_pk ps req).
Proof.
  intros env db c Hdb. unfold delete_history_by_pk, History_findByPk,
    History_destroy_instance.
  open_monad. split_matches; try exact Hdb.
  eapply one_row_per_email_sub; [|exact Hdb].
  intros id r Hid. simpl in Hid. apply lookup_delete_Some in Hid as [_ Hid]. exact Hid.
Qed.

(** X6.  In [src/history.js] every request, in every environment, keeps the
    emails of the table distinct: no route writes the email of a row, and
    no route adds a row. *)
Theorem historyjs_keeps_one_row_per_email (env : Env) (db : DB) (req : Request) :
  one_row_per_email db ->
  one_row_per_email (db_of (serve app env db req)).
Proof.
  intros Hdb. unfold serve. apply dispatch_keeps; [|exact Hdb].
  unfold app. repeat apply Forall_cons_2; try apply Forall_nil_2; simpl.
  - apply passthrough_keeps.
  - apply passthrough_keeps.
  - apply passthrough_keeps.
  - intros _ ps _. repeat constructor. apply answer_keeps.
  - intros _ ps _. repeat constructor. intros e s c Hs. exact Hs.
  - intros _ ps _. repeat constructor. apply historyjs_post_history_email_keeps.
  - intros _ ps _. repeat constructor. apply historyjs_post_history_by_email_keeps.
  - intros _ ps _. repeat constructor. apply historyjs_get_history_keeps.
  - intros _ ps _. repeat constructor. apply historyjs_get_history_by_email_keeps.
  - intros _ ps _. repeat constructor. apply historyjs_delete_history_by_email_keeps.
  - intros _ ps _. repeat constructor. apply historyjs_delete_history_by_pk_keeps.
  - apply answer_keeps.
  - intros e e' s c Hs. exact Hs.
Qed.

Lemma historyjs_keeps_one_row_per_email_witness :
  one_row_per_email
    (db_of (serve app calm one_identity (identity_request "Ani lagi" "ani@example.com"))).
Proof.
  apply historyjs_keeps_one_row_per_email.
  intros id1 id2 r1 r2 H1 H2 _. unfold one_identity in *. simpl in *.
  apply lookup_singleton_Some in H1 as [<- _].
  apply lookup_singleton_Some in H2 as [<- _]. reflexivity.
Defined.

(** X7.  A GET request never changes the database, in [src/history.js] and in
    [src/riwayat.js] alike, whatever its path and whatever the environment
    decides. *)
Theorem get_requests_read_only (env : Env) (req : Request)
    (dbH : DB) (dbR : Riwayat.DB) :
  req_method req = GET ->
  db_of (serve app env dbH req) = dbH /\
  db_of (serve Riwayat.app env dbR req) = dbR.
Proof.
  intros Hmeth. split.
  - unfold serve. apply (dispatch_keeps (fun s => s = dbH)); [|reflexivity].
    unfold app. repeat apply Forall_cons_2; try apply Forall_nil_2; simpl; rewrite ?Hmeth.
    all: try (intros; discriminate).
    + apply passthrough_keeps.
    + apply passthrough_keeps.
    + apply passthrough_keeps.
    + intros _ ps _. repeat constructor. apply answer_keeps.
    + intros _ ps _. repeat constructor. intros e s c Hs. exact Hs.
    + intros _ ps _. repeat constructor. apply historyjs_get_history_keeps.
    + intros _ ps _. repeat constructor. apply historyjs_get_history_by_email_keeps.
    + apply answer_keeps.
    + intros e e' s c Hs. exact Hs.
  - unfold serve. apply (dispatch_keeps (fun s => s = dbR)); [|reflexivity].
    unfold Riwayat.app. repeat apply Forall_cons_2; try apply Forall_nil_2; simpl;
      rewrite ?Hmeth.
    all: try (intros; discriminate).
    + apply passthrough_keeps.
    + apply passthrough_keeps.
    + intros _ ps _. repeat constructor. apply answer_keeps.
    + intros _ ps _. repeat constructor. apply riwayat_get_history_by_email_keeps.
    + intros e. apply answer_keeps.
Qed.

Lemma get_requests_read_only_witness :
  db_of (serve app (db_down_at 0) one_identity (request GET ["api"; "history"])) = one_identity.
Proof.
  exact (proj1 (get_requests_read_only (db_down_at 0) (request GET ["api"; "history"])
                  one_identity riwayat_empty eq_refl)).
Defined.

End HistoryJs_invariant.

Section HistoryJs_routes.

Import HistoryJs HistoryJsProps HistoryJsMore.

(** X8.  GET /api/history/:email in [src/history.js], when the lookup does not
    throw: 404 when no row carries the email, and otherwise 200 with the
    rows that carry it, each of them once and no other row. *)
Theorem historyjs_get_history_by_email_lists_its_rows
    (env : Env) (db : DB) (req : Request) (email : string) :
  req_method req = GET ->
  req_path req = ["api"; "history"; email] ->
  email ≠ "" ->
  env_db_fault env 0%nat = None ->
  let served := serve app env db req in
  (no_identity email db ->
   response_of served =
     res_status_json 404
       (error_json ("History untuk email " +:+ email +:+ " tidak ditemukan"))) /\
  (~ no_identity email db ->
   exists rows,
     response_of served =
       res_json (JObj [("status", JStr "success get data");
                       ("data", JArr (map format_found rows))]) /\
     NoDup rows /\
     forall id r, (id, r) ∈ rows <-> history db !! id = Some r /\ h_email r = email).
Proof.
  intros Hmeth Hpath Hemail F0.
  destruct req as [meth path ? ? ? ? ? ? ? ? ?]; simpl in Hmeth, Hpath; subst meth path.
  unfold serve, app.
  cbn -[String.eqb get_history_by_email].
  rewrite !String.eqb_refl, (eqb_empty_false _ Hemail).
  cbn -[get_history_by_email].
  unfold get_history_by_email, select_where_email. open_monad. rewrite F0; cbn.
  destruct (with_email email db) as [|x rest] eqn:Hwith; cbn.
  - split; [reflexivity|]. intros Hsome. exfalso. apply Hsome, with_email_nil, Hwith.
  - split.
    + intros Hnone. apply with_email_nil in Hnone. congruence.
    + intros _. exists (x :: rest). split; [reflexivity|].
      rewrite <- Hwith. split; [apply NoDup_map_to_list|].
      intros id r. apply with_email_elem.
Qed.

Lemma historyjs_get_history_by_email_lists_its_rows_witness :
  status (response_of (serve app calm two_rows
                         (request GET ["api"; "history"; "budi@example.com"]))) = 200.
Proof.
  destruct (historyjs_get_history_by_email_lists_its_rows calm two_rows
              (request GET ["api"; "history"; "budi@example.com"]) "budi@example.com")
    as [_ H].
  - reflexivity.
  - reflexivity.
  - discriminate.
  - reflexivity.
  - destruct H as (rows & Hresp & _).
    + intros Hnone. apply (Hnone "h-2" newer_row); [vm_compute|]; reflexivity.
    + rewrite Hresp. reflexivity.
Defined.

(** X9.  Both POST routes of [src/history.js] answer an incomplete body with 400
    before they send anything to the database.  The second route is the one
    of every path parameter that is not the word email in any letter case. *)
Theorem historyjs_rejects_incomplete_bodies (env : Env) (db : DB) (req : Request) :
  req_method req = POST ->
  let served := serve app env db req in
  (req_path req = ["api"; "history"; "email"] ->
   truthy_str (body_title req) = false \/ truthy_str (body_email req) = false ->
   response_of served = res_status_json 400 (error_json "Title dan email harus diisi") /\
   db_of served = db /\ db_calls (ctr_of served) = 0%nat) /\
  (forall email,
     req_path req = ["api"; "history"; email] -> email ≠ "" -> lower email ≠ "email" ->
     truthy_str (body_message req) = false \/ body_is_speech_to_text req = None ->
     response_of served =
       res_status_json 400 (error_json "Message dan is_speech_to_text harus diisi") /\
     db_of served = db /\ db_calls (ctr_of served) = 0%nat).
Proof.
  intros Hmeth.
  destruct req as [meth path title0 email0 msg0 stt0 ? ? ? ? ?];
    simpl in Hmeth; subst meth. cbv zeta. simpl. split.
  - intros -> Hbad. unfold serve, app; cbn.
    unfold post_history_email. open_monad.
    destruct Hbad as [-> | Hbad]; cbn; [auto|].
    rewrite Hbad. destruct (truthy_str title0); cbn; auto.
  - intros email -> Hemail Hlit Hbad. unfold serve, app.
    cbn -[String.eqb post_history_by_email post_history_email].
    rewrite !String.eqb_refl, (eqb_literal_false "email" (lower email) Hlit),
      (eqb_empty_false _ Hemail).
    cbn -[post_history_by_email post_history_email].
    unfold post_history_by_email. open_monad.
    destruct stt0 as [stt|]; cbn; [|auto].
    destruct Hbad as [-> | Hbad]; [cbn; auto | discriminate].
Qed.

Lemma historyjs_rejects_incomplete_bodies_witness :
  let served := serve app calm one_identity
                  (attach_request "ani@example.com" "" true) in
  status (response_of served) = 400 /\ db_of served = one_identity.
Proof.
  destruct (historyjs_rejects_incomplete_bodies calm one_identity
              (attach_request "ani@example.com" "" true) eq_refl) as [_ H].
  destruct (H "ani@example.com") as (Hresp & Hdb & _).
  - reflexivity.
  - discriminate.
  - discriminate.
  - left. reflexivity.
  - cbv zeta. rewrite Hresp. split; [reflexivity | exact Hdb].
Defined.

(** X10.  In [src/history.js] a request that no route takes (a PUT, or a path of
    more than three segments, none of them empty) is answered 404 "Route
    not found" by the last plain layer, with nothing sent to the database.
    A fourth segment that is empty is a trailing slash, which the routes of
    three segments accept. *)
Theorem historyjs_unmatched_route_not_found (env : Env) (db : DB) (req : Request) :
  req_method req = PUT \/
  ((3 < length (req_path req))%nat /\ Forall (fun seg => seg ≠ "") (req_path req)) ->
  serve app env db req =
    (res_status_json 404 (error_json "Route not found"), db, ctr0,
     ["cors"; "express.json"; "express.urlencoded"; "not_found"]).
Proof.
  intros Hreq. destruct req as [meth path ? ? ? ? ? ? ? ? ?]; simpl in Hreq.
  destruct Hreq as [-> | [Hlong Hsegs]].
  - reflexivity.
  - destruct path as [|a [|b [|c [|d rest]]]]; simpl in Hlong; try lia.
    assert (Hd : d ≠ "").
    { inversion Hsegs as [|? ? _ H1]; subst. inversion H1 as [|? ? _ H2]; subst.
      inversion H2 as [|? ? _ H3]; subst. inversion H3; subst. assumption. }
    unfold serve, app. destruct meth, rest; cbn -[String.eqb].
    all: rewrite ?(eqb_empty_false _ Hd); cbn -[String.eqb].
    all: repeat match goal with
         | |- context [String.eqb ?x ?y] => destruct (String.eqb x y); cbn -[String.eqb]
         end.
    all: reflexivity.
Qed.

Lemma historyjs_unmatched_route_not_found_witness :
  status (response_of (serve app calm one_identity
                         (request PUT ["api"; "history"; "ani@example.com"]))) = 404 /\
  status (response_of (serve app calm one_identity
                         (request GET ["api"; "history"; "ani@example.com"; "messages"])))
    = 404.
Proof.
  split.
  - rewrite (historyjs_unmatched_route_not_found calm one_identity
               (request PUT ["api"; "history"; "ani@example.com"])).
    + reflexivity.
    + left. reflexivity.
  - rewrite (historyjs_unmatched_route_not_found calm one_identity
               (request GET ["api"; "history"; "ani@example.com"; "messages"])).
    + reflexivity.
    + right. split; [simpl; lia|]. repeat constructor; discriminate.
Defined.

(** The optional trailing slash: the same request with an empty fourth
    segment is taken by the route of three segments. *)
Example historyjs_trailing_slash_is_routed :
  status (response_of (serve app calm one_identity
                         (request GET ["api"; "history"; "ani@example.com"; ""]))) = 200.
Proof. vm_compute. reflexivity. Qed.

(** X11.  When the SELECT throws with a message that is not empty, GET /api/history
    in [src/history.js] answers 500 carrying that message even outside
    development, while GET /api/history/:email hands the error to the error
    middleware, which shows the message in development only.  Neither
    changes the database. *)
Theorem historyjs_select_failure_messages
    (env : Env) (db : DB) (email msg : string) :
  email ≠ "" -> msg ≠ "" ->
  env_db_fault env 0%nat = Some msg ->
  let listed := serve app env db (request GET ["api"; "history"]) in
  let found := serve app env db (request GET ["api"; "history"; email]) in
  response_of listed = res_status_json 500 (error_json msg) /\
  response_of found =
    res_status_json 500
      (JObj [("status", JStr "error"); ("message", JStr "Internal server error");
             ("error", JStr (if env_development env then msg
                             else "Something went wrong"))]) /\
  db_of listed = db /\ db_of found = db.
Proof.
  intros Hemail Hmsg F0. cbv zeta. split; [|split; [|split]].
  - unfold serve, app; cbn. unfold get_history, select_order_by_created_at_desc.
    open_monad. rewrite F0; cbn. rewrite (eqb_empty_false _ Hmsg). reflexivity.
  - unfold serve, app. cbn -[String.eqb get_history_by_email].
    rewrite !String.eqb_refl, (eqb_empty_false _ Hemail). cbn -[get_history_by_email].
    unfold get_history_by_email, select_where_email. open_monad. rewrite F0; cbn.
    reflexivity.
  - unfold serve, app; cbn. unfold get_history, select_order_by_created_at_desc.
    open_monad. rewrite F0; cbn. reflexivity.
  - unfold serve, app. cbn -[String.eqb get_history_by_email].
    rewrite !String.eqb_refl, (eqb_empty_false _ Hemail). cbn -[get_history_by_email].
    unfold get_history_by_email, select_where_email. open_monad. rewrite F0; cbn.
    reflexivity.
Qed.

Lemma historyjs_select_failure_messages_witness :
  field "message"
    (body (response_of (serve app (db_down_at 0) one_identity
                          (request GET ["api"; "history"])))) =
    Some (JStr "connect ETIMEDOUT") /\
  field "error"
    (body (response_of (serve app (db_down_at 0) one_identity
                          (request GET ["api"; "history"; "ani@example.com"])))) =
    Some (JStr "Something went wrong").
Proof.
  destruct (historyjs_select_failure_messages (db_down_at 0) one_identity
              "ani@example.com" "connect ETIMEDOUT") as (H1 & H2 & _).
  - discriminate.
  - discriminate.
  - reflexivity.
  - rewrite H1, H2. split; reflexivity.
Defined.

Lemma rows_from_sub (db0 db db' : DB) :
  (forall id r, history db' !! id = Some r -> history db !! id = Some r) ->
  rows_from db0 db -> rows_from db0 db'.
Proof.
  intros Hsub Hdb id r' Hid. exact (Hdb id r' (Hsub id r' Hid)).
Qed.

Lemma historyjs_post_history_by_email_rows_from (db0 : DB) ps req :
  handler_keeps (rows_from db0) (post_history_by_email ps req).
Proof.
  intros env db c Hdb. unfold post_history_by_email, History_findOne, save_message.
  open_monad. split_matches; try exact Hdb.
  intros id r' Hid. simpl in Hid.
  apply lookup_alter_Some in Hid as [(-> & x & Hx & ->)|[_ Hid]].
  - destruct (Hdb _ x Hx) as (r & Hr & Htitle & Hemail). exists r. simpl. auto.
  - exact (Hdb id r' Hid).
Qed.

Lemma historyjs_delete_history_by_email_rows_from (db0 : DB) ps req :
  handler_keeps (rows_from db0) (delete_history_by_email ps req).
Proof.
  intros env db c Hdb. unfold delete_history_by_email, select_where_email,
    History_destroy_where.
  open_monad. split_matches; try exact Hdb.
  eapply rows_from_sub; [|exact Hdb].
  intros id r Hid. simpl in Hid. apply map_lookup_filter_Some in Hid as [Hid _]. exact Hid.
Qed.

Lemma historyjs_delete_history_by_pk_rows_from (db0 : DB) ps req :
  handler_keeps (rows_from db0) (delete_history_by_pk ps req).
Proof.
  intros env db c Hdb. unfold delete_history_by_pk, History_findByPk,
    History_destroy_instance.
  open_monad. split_matches; try exact Hdb.
  eapply rows_from_sub; [|exact Hdb].
  intros id r Hid. simpl in Hid. apply lookup_delete_Some in Hid as [_ Hid]. exact Hid.
Qed.

(** X12.  In [src/history.js] no request adds a row, and none changes the title
    or the email of a row: whatever the request and the environment, every
    row of the table after the request has the key, the title and the email
    of a row that was there before.  So an email that no row carries is
    carried by no row afterwards either. *)
Theorem historyjs_no_request_adds_a_row (env : Env) (db : DB) (req : Request) :
  rows_from db (db_of (serve app env db req)) /\
  forall email, no_identity email db -> no_identity email (db_of (serve app env db req)).
Proof.
  assert (Hrows : rows_from db (db_of (serve app env db req))).
  { unfold serve. apply dispatch_keeps.
    - unfold app. repeat apply Forall_cons_2; try apply Forall_nil_2; simpl.
      + apply passthrough_keeps.
      + apply passthrough_keeps.
      + apply passthrough_keeps.
      + intros _ ps _. repeat constructor. apply answer_keeps.
      + intros _ ps _. repeat constructor. intros e s c Hs. exact Hs.
      + intros _ ps _. repeat constructor. apply historyjs_post_history_email_keeps.
      + intros _ ps _. repeat constructor. apply historyjs_post_history_by_email_rows_from.
      + intros _ ps _. repeat constructor. apply historyjs_get_history_keeps.
      + intros _ ps _. repeat constructor. apply historyjs_get_history_by_email_keeps.
      + intros _ ps _. repeat constructor.
        apply historyjs_delete_history_by_email_rows_from.
      + intros _ ps _. repeat constructor. apply historyjs_delete_history_by_pk_rows_from.
      + apply answer_keeps.
      + intros e e' s c Hs. exact Hs.
    - intros id r Hid. exists r. auto. }
  split; [exact Hrows|].
  intros email Hnone id r' Hid.
  destruct (Hrows id r' Hid) as (r & Hr & _ & ->). exact (Hnone id r Hr).
Qed.

Lemma historyjs_no_request_adds_a_row_witness :
  no_identity "budi@example.com"
    (db_of (serve app calm one_identity (identity_request "Budi" "budi@example.com"))).
Proof.
  apply (proj2 (historyjs_no_request_adds_a_row calm one_identity
                  (identity_request "Budi" "budi@example.com"))).
  intros id r Hid. unfold one_identity in Hid. simpl in Hid.
  apply lookup_singleton_Some in Hid as [_ <-]. discriminate.
Defined.

End HistoryJs_routes.

Section Capstone_uploads.

Import Capstone CapstoneProps CapstoneMore.

(** X13.  PUT /api/profile with a file that multer refuses, whatever the rest of
    the body: the handler does not run, nothing is sent to the database and
    no row changes.  A type outside JPEG, PNG and JPG is a plain error: the
    second copy answers 500 through its error middleware (showing the
    filter's message in development only), the first copy answers 500 with
    the message.  A file of an accepted type above 5 MB is a multer error:
    the second copy answers 400 "File upload error", the first copy 500. *)
Theorem profile_picture_refused_by_multer
    (env : Env) (db : DB) (req : Request) (file : Upload) :
  is_profile_update req ->
  req_upload req = Some file ->
  let second := serve Capstone.app env db req in
  let first := serve CapstoneFirst.app env db req in
  (includes allowedMimes (mimetype file) = false ->
   response_of second =
     res_status_json 500
       (JObj [("success", JBool false); ("message", JStr "Internal server error");
              ("error", JStr (if env_development env
                              then "File harus berupa gambar (JPG, JPEG, atau PNG)."
                              else "Something went wrong"))]) /\
   response_of first =
     res_status_json 500
       (JObj [("success", JBool false); ("message", JStr "File harus berupa gambar.")]) /\
   db_of second = db /\ db_calls (ctr_of second) = 0%nat /\
   db_of first = db /\ db_calls (ctr_of first) = 0%nat) /\
  (includes allowedMimes (mimetype file) = true ->
   (fileSize_limit < size file)%N ->
   response_of second =
     res_status_json 400
       (JObj [("success", JBool false); ("message", JStr "File upload error");
              ("error", JStr "File too large")]) /\
   response_of first =
     res_status_json 500
       (JObj [("success", JBool false); ("message", JStr "File too large")]) /\
   db_of second = db /\ db_calls (ctr_of second) = 0%nat /\
   db_of first = db /\ db_calls (ctr_of first) = 0%nat).
Proof.
  intros [Hmeth Hpath] Hfile.
  destruct req as [meth path ? ? ? ? ? name0 ? ? file0];
    simpl in Hmeth, Hpath, Hfile; subst meth path file0.
  cbv zeta. split.
  - intros Hmime.
    unfold serve, Capstone.app, CapstoneFirst.app;
      cbn -[includes N.leb fileSize_limit put_profile CapstoneFirst.put_profile].
    unfold upload_single. rewrite Hmime.
    cbn -[put_profile CapstoneFirst.put_profile]. auto 10.
  - intros Hmime Hbig. apply N.lt_le_incl, N.leb_le in Hbig.
    unfold serve, Capstone.app, CapstoneFirst.app;
      cbn -[includes N.leb fileSize_limit put_profile CapstoneFirst.put_profile].
    unfold upload_single. rewrite Hmime, Hbig.
    cbn -[put_profile CapstoneFirst.put_profile]. auto 10.
Qed.

Lemma profile_picture_refused_by_multer_witness :
  status (response_of (serve Capstone.app calm one_profile
                         (profile_request "Budi" (Some animation)))) = 500 /\
  status (response_of (serve Capstone.app calm one_profile
                         (profile_request "Budi" (Some poster)))) = 400.
Proof.
  split.
  - destruct (profile_picture_refused_by_multer calm one_profile
                (profile_request "Budi" (Some animation)) animation) as [H _].
    + split; reflexivity.
    + reflexivity.
    + destruct H as [H _]; [reflexivity|]. rewrite H. reflexivity.
  - destruct (profile_picture_refused_by_multer calm one_profile
                (profile_request "Budi" (Some poster)) poster) as [_ H].
    + split; reflexivity.
    + reflexivity.
    + destruct H as [H _]; [reflexivity | reflexivity |]. rewrite H. reflexivity.
Defined.

(** A file of exactly the limit is refused as well. *)
Example profile_picture_of_the_limit_is_refused :
  status (response_of
            (serve Capstone.app calm one_profile
               (profile_request "Budi"
                  (Some {| originalname := "ani.png"; mimetype := "image/png";
                           size := fileSize_limit; buffer := "PNG" |})))) = 400.
Proof. vm_compute. reflexivity. Qed.

(** X14.  PUT /api/profile with a name and a file that multer lets through (an
    allowed type, a size under the limit) whose upload to the bucket
    throws: no row changes and nothing is sent to the database; the
    second copy answers 500 and shows the wrapped message in development
    only, the first copy answers 500 with the wrapped message. *)
Theorem profile_picture_upload_failure
    (env : Env) (db : DB) (req : Request) (file : Upload) (msg : string) :
  is_profile_update req ->
  truthy_str (body_name req) = true ->
  req_upload req = Some file ->
  includes allowedMimes (mimetype file) = true ->
  (size file < fileSize_limit)%N ->
  env_bucket env = true ->
  env_gcs_save env ("profiles/" +:+ pretty (env_now env) +:+ "-" +:+ originalname file)
    = Some msg ->
  let wrapped := "Error uploading to Google Cloud Storage: " +:+ msg in
  serve Capstone.app env db req =
    (res_status_json 500
       (JObj [("success", JBool false); ("message", JStr "Internal server error");
              ("error", JStr (if env_development env then wrapped
                              else "Something went wrong"))]),
     db, ctr0,
     ["cors"; "express.json"; "express.urlencoded"; "upload.single"; "put_profile";
      "error_middleware"]) /\
  serve CapstoneFirst.app env db req =
    (res_status_json 500 (JObj [("success", JBool false); ("message", JStr wrapped)]),
     db, ctr0,
     ["cors"; "express.json"; "express.urlencoded"; "upload.single"; "put_profile"]).
Proof.
  intros [Hmeth Hpath] Hname Hfile Hmime Hsize Hbucket Hsave.
  destruct req as [meth path ? ? ? ? ? name0 ? ? file0];
    simpl in Hmeth, Hpath, Hname, Hfile; subst meth path file0.
  destruct name0 as [name|]; [|discriminate]. simpl in Hname.
  apply negb_true_iff in Hname. apply N.leb_gt in Hsize.
  cbv zeta. split.
  - unfold serve, Capstone.app; cbn -[includes N.leb fileSize_limit].
    unfold upload_single, put_profile, put_profile_body, uploadToGCS.
    unfold try_catch, bind, ret, throw, ask, new_Date.
    rewrite Hmime, Hsize; cbn. rewrite Hname; cbn. rewrite Hbucket; cbn.
    rewrite Hsave; cbn. reflexivity.
  - unfold serve, CapstoneFirst.app; cbn -[includes N.leb fileSize_limit].
    unfold upload_single, CapstoneFirst.put_profile, put_profile_body,
      CapstoneFirst.uploadToGCS.
    unfold try_catch, bind, ret, throw, ask, new_Date.
    rewrite Hmime, Hsize; cbn. rewrite Hname; cbn.
    rewrite Hsave; cbn. reflexivity.
Qed.

Lemma profile_picture_upload_failure_witness :
  response_of (serve CapstoneFirst.app bucket_down one_profile
                 (profile_request "Budi" (Some photo))) =
    res_status_json 500
      (JObj [("success", JBool false);
             ("message",
              JStr "Error uploading to Google Cloud Storage: 503 Service Unavailable")]).
Proof.
  destruct (profile_picture_upload_failure bucket_down one_profile
              (profile_request "Budi" (Some photo)) photo "503 Service Unavailable")
    as [_ H].
  - split; reflexivity.
  - reflexivity.
  - reflexivity.
  - reflexivity.
  - vm_compute. reflexivity.
  - reflexivity.
  - reflexivity.
  - rewrite H. reflexivity.
Defined.

End Capstone_uploads.

Section Capstone_soundboards.

Import Capstone CapstoneProps CapstoneMore.

#[local] Instance newest_soundboard_first_total : Total newest_soundboard_first.
Proof. intros a b. unfold newest_soundboard_first. lia. Qed.

#[local] Instance newest_soundboard_first_trans : Transitive newest_soundboard_first.
Proof. intros a b c. unfold newest_soundboard_first. lia. Qed.

Lemma get_soundboards_served (env : Env) (db : DB) :
  env_db_fault env 0%nat = None ->
  (serve app env db (request GET ["api"; "soundboards"])).1.1 =
    (res_json (JObj [("success", JBool true);
                     ("message", JStr "Soundboards retrieved successfully");
                     ("data", JArr (map soundboard_json
                                      (merge_sort newest_soundboard_first
                                         (map_to_list (soundboards db)))))]),
     db).
Proof.
  intros F0. unfold serve, app; cbn. unfold get_soundboards, Soundboard_findAll.
  open_monad. rewrite F0; cbn. reflexivity.
Qed.

(** X15.  GET /api/soundboards, second copy, when the query does not throw: 200
    with every row of the table, the newest first (an empty list when the
    table is empty), and the database is left alone. *)
Theorem capstone_get_soundboards_newest_first (env : Env) (db : DB) (req : Request) :
  req_method req = GET ->
  req_path req = ["api"; "soundboards"] ->
  env_db_fault env 0%nat = None ->
  let served := serve app env db req in
  db_of served = db /\
  exists rows,
    rows ≡ₚ map_to_list (soundboards db) /\
    StronglySorted newest_soundboard_first rows /\
    (soundboards db = ∅ -> rows = []) /\
    response_of served =
      res_json (JObj [("success", JBool true);
                      ("message", JStr "Soundboards retrieved successfully");
                      ("data", JArr (map soundboard_json rows))]).
Proof.
  intros Hmeth Hpath F0.
  destruct req as [meth path ? ? ? ? ? ? ? ? ?]; simpl in Hmeth, Hpath; subst meth path.
  cbv zeta. unfold serve, app; cbn. unfold get_soundboards, Soundboard_findAll.
  open_monad. rewrite F0; cbn. split; [reflexivity|].
  exists (merge_sort newest_soundboard_first (map_to_list (soundboards db))).
  split; [apply merge_sort_Permutation|].
  split; [apply StronglySorted_merge_sort; apply _|].
  split; [|reflexivity].
  intros Hempty. apply Permutation_nil_r.
  rewrite merge_sort_Permutation, Hempty, map_to_list_empty. reflexivity.
Qed.

Lemma capstone_get_soundboards_newest_first_witness :
  response_of (serve app calm empty_db (request GET ["api"; "soundboards"])) =
    res_json (JObj [("success", JBool true);
                    ("message", JStr "Soundboards retrieved successfully");
                    ("data", JArr [])]).
Proof.
  destruct (capstone_get_soundboards_newest_first calm empty_db
              (request GET ["api"; "soundboards"]) eq_refl eq_refl eq_refl)
    as (_ & rows & _ & _ & Hempty & Hresp).
  rewrite Hresp, (Hempty eq_refl). reflexivity.
Defined.

Lemma post_soundboards_served (env : Env) (db : DB) (text audio : string) :
  text ≠ "" ->
  env_tts_client env = true -> env_synthesize env text = inl audio ->
  env_bucket env = true -> env_gcs_save env (env_uuid env 0%nat +:+ ".mp3") = None ->
  soundboards db !! env_uuid env 1%nat = None ->
  env_db_fault env 0%nat = None ->
  let fileName := env_uuid env 0%nat +:+ ".mp3" in
  let row := {| s_text := text; s_audioUrl := publicUrl env fileName;
                s_fileName := fileName; s_createdAt := env_now env;
                s_updatedAt := env_now env |} in
  (serve app env db (soundboard_request text)).1.1 =
    (res_status_json 201
       (JObj [("success", JBool true);
              ("message", JStr "Soundboard created successfully");
              ("data", soundboard_json (env_uuid env 1%nat, row))]),
     with_soundboards db (<[env_uuid env 1%nat := row]> (soundboards db))).
Proof.
  intros Htext Htts Hsyn Hbucket Hsave Hfresh F0.
  unfold serve, app; cbn.
  unfold post_soundboards, generateSpeech, uploadToGCS, Soundboard_create.
  open_monad. rewrite (eqb_empty_false _ Htext); cbn. rewrite Htts; cbn.
  rewrite Hsyn; cbn. rewrite Hbucket; cbn. rewrite Hsave; cbn. rewrite F0; cbn.
  rewrite Hfresh; cbn. reflexivity.
Qed.

(** X16.  A soundboard that POST /api/soundboards created is listed by the next
    GET /api/soundboards, together with every row that was there before,
    when neither query throws. *)
Theorem capstone_created_soundboard_is_listed
    (env1 env2 : Env) (db : DB) (text audio : string) :
  text ≠ "" ->
  env_tts_client env1 = true -> env_synthesize env1 text = inl audio ->
  env_bucket env1 = true -> env_gcs_save env1 (env_uuid env1 0%nat +:+ ".mp3") = None ->
  soundboards db !! env_uuid env1 1%nat = None ->
  env_db_fault env1 0%nat = None -> env_db_fault env2 0%nat = None ->
  let created := serve app env1 db (soundboard_request text) in
  let listed := serve app env2 (db_of created) (request GET ["api"; "soundboards"]) in
  exists new rows,
    new.1 = env_uuid env1 1%nat /\ s_text new.2 = text /\
    field "data" (body (response_of created)) = Some (soundboard_json new) /\
    field "data" (body (response_of listed)) = Some (JArr (map soundboard_json rows)) /\
    new ∈ rows /\
    (forall old, old ∈ map_to_list (soundboards db) -> old ∈ rows) /\
    length rows = S (length (map_to_list (soundboards db))).
Proof.
  intros Htext Htts Hsyn Hbucket Hsave Hfresh F1 F2. cbv zeta.
  pose proof (post_soundboards_served env1 db text audio
                Htext Htts Hsyn Hbucket Hsave Hfresh F1) as Hcreated.
  cbv zeta in Hcreated. unfold response_of, db_of in *.
  rewrite Hcreated. simpl fst. simpl snd.
  rewrite (get_soundboards_served env2 _ F2). simpl fst. simpl snd.
  set (row := {| s_text := text;
                 s_audioUrl := publicUrl env1 (env_uuid env1 0%nat +:+ ".mp3");
                 s_fileName := env_uuid env1 0%nat +:+ ".mp3";
                 s_createdAt := env_now env1; s_updatedAt := env_now env1 |}).
  exists (env_uuid env1 1%nat, row),
    (merge_sort newest_soundboard_first
       (map_to_list (<[env_uuid env1 1%nat := row]> (soundboards db)))).
  split; [reflexivity|]. split; [reflexivity|].
  split; [reflexivity|]. split; [reflexivity|].
  assert (Hperm : merge_sort newest_soundboard_first
                    (map_to_list (<[env_uuid env1 1%nat := row]> (soundboards db)))
                  ≡ₚ (env_uuid env1 1%nat, row) :: map_to_list (soundboards db)).
  { rewrite merge_sort_Permutation. apply map_to_list_insert. exact Hfresh. }
  split; [rewrite Hperm; apply list_elem_of_here|].
  split; [intros old Hold; rewrite Hperm; apply list_elem_of_further, Hold|].
  rewrite Hperm. reflexivity.
Qed.

Lemma capstone_created_soundboard_is_listed_witness :
  let created := serve app calm empty_db (soundboard_request "selamat pagi") in
  let listed := serve app calm (db_of created) (request GET ["api"; "soundboards"]) in
  exists new rows,
    field "data" (body (response_of listed)) = Some (JArr (map soundboard_json rows)) /\
    new ∈ rows /\ s_text new.2 = "selamat pagi".
Proof.
  destruct (capstone_created_soundboard_is_listed calm calm empty_db
              "selamat pagi" "mp3:selamat pagi")
    as (new & rows & _ & Htext & _ & Hlisted & Hin & _).
  - discriminate.
  - reflexivity.
  - reflexivity.
  - reflexivity.
  - reflexivity.
  - reflexivity.
  - reflexivity.
  - reflexivity.
  - exists new, rows. auto.
Defined.

(** X17.  POST /api/soundboards, second copy, with a text: what the client is told
    when a step fails.  The error middleware answers 500 and shows the
    message of the failed step in development only: the missing client, the
    wrapped synthesis error, the missing bucket, or the wrapped upload
    error. *)
Theorem capstone_soundboard_failure_messages
    (env : Env) (db : DB) (req : Request) (text : string) :
  req_method req = POST ->
  req_path req = ["api"; "soundboards"] ->
  body_text req = Some text -> text ≠ "" ->
  let served := serve app env db req in
  let shown message :=
    res_status_json 500
      (JObj [("success", JBool false); ("message", JStr "Internal server error");
             ("error", JStr (if env_development env then message
                             else "Something went wrong"))]) in
  (env_tts_client env = false ->
   response_of served = shown "Text-to-Speech client not initialized") /\
  (forall message,
     env_tts_client env = true -> env_synthesize env text = inr message ->
     response_of served = shown ("Error generating speech: " +:+ message)) /\
  (forall audio,
     env_tts_client env = true -> env_synthesize env text = inl audio ->
     env_bucket env = false ->
     response_of served = shown "Storage bucket not initialized") /\
  (forall audio message,
     env_tts_client env = true -> env_synthesize env text = inl audio ->
     env_bucket env = true ->
     env_gcs_save env (env_uuid env 0%nat +:+ ".mp3") = Some message ->
     response_of served =
       shown ("Error uploading to Google Cloud Storage: " +:+ message)).
Proof.
  intros Hmeth Hpath Hbody Htext.
  destruct req as [meth path ? ? ? ? text0 ? ? ? ?];
    simpl in Hmeth, Hpath, Hbody; subst meth path text0.
  cbv zeta. unfold serve, app; cbn.
  unfold post_soundboards, generateSpeech, uploadToGCS, Soundboard_create.
  open_monad. rewrite (eqb_empty_false _ Htext); cbn.
  split; [intros H1; rewrite H1; cbn; reflexivity|].
  split; [intros message H1 H2; rewrite H1; cbn; rewrite H2; cbn; reflexivity|].
  split.
  - intros audio H1 H2 H3. rewrite H1; cbn. rewrite H2; cbn. rewrite H3; cbn. reflexivity.
  - intros audio message H1 H2 H3 H4.
    rewrite H1; cbn. rewrite H2; cbn. rewrite H3; cbn. rewrite H4; cbn. reflexivity.
Qed.

Lemma capstone_soundboard_failure_messages_witness :
  response_of (serve app bucket_down empty_db (soundboard_request "selamat pagi")) =
    res_status_json 500
      (JObj [("success", JBool false); ("message", JStr "Internal server error");
             ("error", JStr "Something went wrong")]).
Proof.
  destruct (capstone_soundboard_failure_messages bucket_down empty_db
              (soundboard_request "selamat pagi") "selamat pagi")
    as (_ & _ & _ & H).
  - reflexivity.
  - reflexivity.
  - reflexivity.
  - discriminate.
  - rewrite (H "mp3:selamat pagi" "503 Service Unavailable"); reflexivity.
Defined.

(** X18.  POST /api/soundboards, first copy: a request without text is answered
    400; with a text, whichever step fails (the synthesis, the upload, the
    INSERT) the answer is the same fixed 500 body and the database is
    unchanged; a row appears only together with a 201. *)
Theorem first_copy_soundboard_failures_share_one_body
    (env : Env) (db : DB) (req : Request) :
  req_method req = POST ->
  req_path req = ["api"; "soundboards"] ->
  let served := serve CapstoneFirstSoundboards.app env db req in
  let text := str_of (body_text req) in
  let fileName := env_uuid env 0%nat +:+ ".mp3" in
  let failed :=
    res_status_json 500
      (JObj [("success", JBool false); ("error", JStr "Failed to create soundboard")]) in
  (truthy_str (body_text req) = false ->
   response_of served = res_status_json 400 (JObj [("error", JStr "Text is required")]) /\
   db_of served = db) /\
  (truthy_str (body_text req) = true ->
   (exists message, env_synthesize env text = inr message) \/
   (exists message, env_gcs_save env fileName = Some message) \/
   (exists message, env_db_fault env 0%nat = Some message) \/
   is_Some (soundboards db !! env_uuid env 1%nat) ->
   response_of served = failed /\ db_of served = db) /\
  (db_of served ≠ db -> status (response_of served) = 201).
Proof.
  intros Hmeth Hpath.
  destruct req as [meth path ? ? ? ? text0 ? ? ? ?]; simpl in Hmeth, Hpath; subst meth path.
  cbv zeta. unfold serve, CapstoneFirstSoundboards.app; cbn.
  unfold CapstoneFirstSoundboards.post_soundboards, CapstoneFirstSoundboards.generateSpeech,
    CapstoneFirst.uploadToGCS, Soundboard_create.
  open_monad.
  destruct text0 as [text|]; cbn.
  2: { split; [auto|]. split; [discriminate|]. intros H; destruct (H eq_refl). }
  destruct (String.eqb text ""); cbn.
  { split; [auto|]. split; [discriminate|]. intros H; destruct (H eq_refl). }
  destruct (env_synthesize env text) as [audio|m1]; cbn.
  2: { split; [discriminate|]. split; [auto|]. intros H; destruct (H eq_refl). }
  destruct (env_gcs_save env (env_uuid env 0%nat +:+ ".mp3")) as [m2|]; cbn.
  { split; [discriminate|]. split; [auto|]. intros H; destruct (H eq_refl). }
  destruct (env_db_fault env 0%nat) as [m3|]; cbn.
  { split; [discriminate|]. split; [auto|]. intros H; destruct (H eq_refl). }
  destruct (soundboards db !! env_uuid env 1%nat) as [taken|]; cbn.
  { split; [discriminate|]. split; [auto|]. intros H; destruct (H eq_refl). }
  split; [discriminate|]. split; [|reflexivity].
  intros _ [[m H]|[[m H]|[[m H]|[x H]]]]; discriminate.
Qed.

Lemma first_copy_soundboard_failures_share_one_body_witness :
  response_of (serve CapstoneFirstSoundboards.app bucket_down empty_db
                 (soundboard_request "selamat pagi")) =
    res_status_json 500
      (JObj [("success", JBool false); ("error", JStr "Failed to create soundboard")]).
Proof.
  destruct (first_copy_soundboard_failures_share_one_body bucket_down empty_db
              (soundboard_request "selamat pagi") eq_refl eq_refl) as (_ & H & _).
  destruct H as [H _].
  - reflexivity.
  - right. left. exists "503 Service Unavailable". reflexivity.
  - exact H.
Defined.

End Capstone_soundboards.

Section Capstone_profile_and_feedback.

Import Capstone CapstoneProps CapstoneMore.

(** X19.  GET /api/profile, second copy, when the query does not throw: 404 on an
    empty table, otherwise 200 with one row of the table; the database is
    left alone. *)
Theorem capstone_get_profile_reads_one_row (env : Env) (db : DB) (req : Request) :
  req_method req = GET ->
  req_path req = ["api"; "profile"] ->
  env_db_fault env 0%nat = None ->
  let served := serve app env db req in
  db_of served = db /\
  (profile db = ∅ ->
   response_of served =
     res_status_json 404
       (JObj [("success", JBool false); ("message", JStr "Profil tidak ditemukan")])) /\
  (profile db ≠ ∅ ->
   exists id row,
     profile db !! id = Some row /\
     response_of served =
       res_json (JObj [("success", JBool true); ("data", profile_json (id, row))])).
Proof.
  intros Hmeth Hpath F0.
  destruct req as [meth path ? ? ? ? ? ? ? ? ?]; simpl in Hmeth, Hpath; subst meth path.
  cbv zeta. unfold serve, app; cbn. unfold get_profile, select_profile_limit_1.
  open_monad. rewrite F0; cbn.
  destruct (map_to_list (profile db)) as [|[id row] rest] eqn:Hrows; cbn.
  - split; [reflexivity|]. split; [reflexivity|]. intros Hne. exfalso. apply Hne.
    apply map_to_list_empty_iff. exact Hrows.
  - split; [reflexivity|]. split.
    + intros Hempty. rewrite Hempty, map_to_list_empty in Hrows. discriminate.
    + intros _. exists id, row. split; [|reflexivity].
      apply elem_of_map_to_list. rewrite Hrows. apply list_elem_of_here.
Qed.

Lemma capstone_get_profile_reads_one_row_witness :
  status (response_of (serve app calm empty_db (request GET ["api"; "profile"]))) = 404.
Proof.
  destruct (capstone_get_profile_reads_one_row calm empty_db
              (request GET ["api"; "profile"]) eq_refl eq_refl eq_refl) as (_ & H & _).
  rewrite (H eq_refl). reflexivity.
Defined.

(** X20.  After a PUT /api/profile with a name and no file on the single profile
    row, GET /api/profile answers the row with the new name, the picture it
    had before, and the database's time of the update, when neither
    statement throws. *)
Theorem capstone_profile_update_is_read_back
    (env1 env2 : Env) (db : DB) (row : ProfileRow) (name : string) :
  profile db = {[ 1 := row ]} ->
  name ≠ "" ->
  env_db_fault env1 0%nat = None -> env_db_fault env2 0%nat = None ->
  let updated := serve app env1 db (profile_request name None) in
  let read := serve app env2 (db_of updated) (request GET ["api"; "profile"]) in
  response_of read =
    res_json
      (JObj [("success", JBool true);
             ("data", profile_json
                        (1, {| p_name := name;
                               p_profile_picture_url := p_profile_picture_url row;
                               p_created_at := p_created_at row;
                               p_updated_at := env_db_now env1 |}))]).
Proof.
  intros Hprofile Hname F1 F2. cbv zeta.
  assert (Hupdated : db_of (serve app env1 db (profile_request name None)) =
            with_profile db {[ 1 := set_name name (env_db_now env1) row ]}).
  { unfold serve, app; cbn.
    unfold upload_single, put_profile, put_profile_body, update_profile_name.
    open_monad. rewrite (eqb_empty_false _ Hname); cbn. rewrite F1; cbn.
    rewrite Hprofile, alter_singleton_eq. reflexivity. }
  rewrite Hupdated. unfold serve, app; cbn. unfold get_profile, select_profile_limit_1.
  open_monad. rewrite F2; cbn. rewrite map_to_list_singleton. reflexivity.
Qed.

Lemma capstone_profile_update_is_read_back_witness :
  field "data"
    (body (response_of
       (serve app calm (db_of (serve app calm one_profile (profile_request "Budi" None)))
          (request GET ["api"; "profile"])))) =
    Some (profile_json
            (1, {| p_name := "Budi";
                   p_profile_picture_url := p_profile_picture_url first_profile;
                   p_created_at := p_created_at first_profile;
                   p_updated_at := env_db_now calm |})).
Proof.
  rewrite (capstone_profile_update_is_read_back calm calm one_profile first_profile "Budi").
  - reflexivity.
  - reflexivity.
  - discriminate.
  - reflexivity.
  - reflexivity.
Defined.

(** X21.  POST /api/feedback, second copy, on a table whose ids all lie below the
    next auto-increment id: whatever the request and the environment, that
    stays so, no stored feedback is changed or removed, and the next id never
    goes down; a call answered 201 stored one more row, under the id the
    answer carries, and moved the next id up by one. *)
Theorem capstone_feedback_ids_stay_fresh (env : Env) (db : DB) (req : Request) :
  is_feedback_post req ->
  feedback_ids_fresh db ->
  let served := serve app env db req in
  feedback_ids_fresh (db_of served) /\
  (forall k row, feedback db !! k = Some row -> feedback (db_of served) !! k = Some row) /\
  feedback_auto_increment db <= feedback_auto_increment (db_of served) /\
  (status (response_of served) = 201 ->
   (exists comment rating,
      field "data" (body (response_of served)) =
        Some (JObj [("id", JNum (feedback_auto_increment db));
                    ("comment", JStr comment); ("rating", JNum rating)])) /\
   is_Some (feedback (db_of served) !! feedback_auto_increment db) /\
   feedback_auto_increment (db_of served) = feedback_auto_increment db + 1 /\
   base.size (feedback (db_of served)) = S (base.size (feedback db))).
Proof.
  intros [Hmeth Hpath] Hfresh.
  destruct req as [meth path ? ? ? ? ? ? comment0 rating0 ?];
    simpl in Hmeth, Hpath; subst meth path.
  cbv zeta. unfold serve, app; cbn. unfold post_feedback, insert_feedback. open_monad.
  assert (Hsame : feedback_ids_fresh db /\
            (forall k row, feedback db !! k = Some row -> feedback db !! k = Some row) /\
            feedback_auto_increment db <= feedback_auto_increment db)
    by (split; [exact Hfresh|split; [auto|lia]]).
  destruct (negb (truthy_str comment0) || negb (truthy_num rating0)); cbn.
  { destruct Hsame as (?&?&?). repeat split; auto; discriminate. }
  destruct ((default 0 rating0 <? 1) || (4 <? default 0 rating0)); cbn.
  { destruct Hsame as (?&?&?). repeat split; auto; discriminate. }
  destruct (env_db_fault env 0%nat); cbn.
  { destruct (env_development env); cbn.
    all: destruct Hsame as (?&?&?); repeat split; auto; discriminate. }
  destruct (feedback db !! feedback_auto_increment db) eqn:Hfree; cbn.
  { rewrite Hfresh in Hfree by lia. discriminate. }
  split.
  { intros k Hk. simpl in *. rewrite lookup_insert_ne by lia. apply Hfresh. lia. }
  split.
  { intros k row Hk. simpl.
    rewrite lookup_insert_ne; [exact Hk|]. intros <-. congruence. }
  split; [simpl; lia|].
  intros _. split; [eauto|]. simpl.
  split; [rewrite lookup_insert_eq; eauto|].
  split; [reflexivity|]. apply map_size_insert_None. exact Hfree.
Qed.

Lemma capstone_feedback_ids_stay_fresh_witness :
  feedback_ids_fresh
    (db_of (serve app calm empty_db (feedback_request "Aplikasi sangat membantu" 4))).
Proof.
  apply capstone_feedback_ids_stay_fresh.
  - split; reflexivity.
  - intros k _. reflexivity.
Defined.

Lemma append_same_prefix (prefix a b : string) : prefix +:+ a = prefix +:+ b -> a = b.
Proof.
  induction prefix as [|ch prefix IH]; simpl; intros H; [exact H|].
  inversion H. auto.
Qed.

(** X22.  Within one configuration two different object names never share a
    public URL, so the URL stored with a soundboard or a profile identifies
    its object. *)
Theorem publicUrl_identifies_the_object (env : Env) (filename1 filename2 : string) :
  filename1 ≠ filename2 -> publicUrl env filename1 ≠ publicUrl env filename2.
Proof.
  unfold publicUrl. intros Hne H. apply Hne.
  apply append_same_prefix in H. apply append_same_prefix in H.
  apply append_same_prefix in H. exact H.
Qed.

Lemma publicUrl_identifies_the_object_witness :
  publicUrl calm "profiles/1-ani.png" ≠ publicUrl calm "profiles/2-budi.png".
Proof.
  apply (publicUrl_identifies_the_object calm "profiles/1-ani.png" "profiles/2-budi.png").
  discriminate.
Defined.

End Capstone_profile_and_feedback.

Section Capstone_post_history.

Import Capstone CapstoneProps CapstoneHistoryPost.

(** X23.  POST /api/history, second copy, never answers 201, whatever the database
    makes of the INSERT.  Without a title or a message it answers 400 and
    sends nothing.  With both it ends in the error middleware's 500: with
    the database's error when the INSERT throws, and otherwise, after the
    INSERT took effect, with the ReferenceError of the answer it could not
    build. *)
Theorem capstone_post_history_never_succeeds
    (effect : Env -> DB -> Exn + (Z * DB)) (env : Env) (db : DB) (req : Request) :
  req_method req = POST ->
  req_path req = ["api"; "history"] ->
  let served := serve (app effect) env db req in
  let shown message :=
    res_status_json 500
      (JObj [("success", JBool false); ("message", JStr "Internal server error");
             ("error", JStr (if env_development env then message
                             else "Something went wrong"))]) in
  (truthy_str (body_title req) = false \/ truthy_str (body_message req) = false ->
   response_of served =
     res_status_json 400
       (JObj [("success", JBool false); ("message", JStr "Judul dan pesan harus diisi")]) /\
   db_of served = db /\ db_calls (ctr_of served) = 0%nat) /\
  status (response_of served) ≠ 201 /\
  (forall id db',
     truthy_str (body_title req) = true -> truthy_str (body_message req) = true ->
     env_db_fault env 0%nat = None -> effect env db = inr (id, db') ->
     response_of served = shown "created_at is not defined" /\ db_of served = db').
Proof.
  intros Hmeth Hpath.
  destruct req as [meth path title0 ? msg0 ? ? ? ? ? ?];
    simpl in Hmeth, Hpath; subst meth path.
  cbv zeta. unfold serve, app; cbn. unfold post_history, insert_history. open_monad.
  destruct (truthy_str title0); cbn.
  2: { split; [auto|]. split; [discriminate|]. intros; discriminate. }
  destruct (truthy_str msg0); cbn.
  2: { split; [auto|]. split; [discriminate|]. intros; discriminate. }
  split; [intros [H|H]; discriminate|].
  destruct (env_db_fault env 0%nat) as [msg|]; cbn.
  { split; [discriminate|]. intros; discriminate. }
  destruct (effect env db) as [e|[id db']]; cbn.
  - split; [|intros; discriminate].
    destruct (exn_class e); cbn; discriminate.
  - split; [discriminate|]. intros id0 db0 _ _ _ Heq. inversion Heq; subst. auto.
Qed.

Lemma capstone_post_history_never_succeeds_witness :
  let served := serve (app accepted) calm empty_db
                  (history_request "Contoh Judul" "Ini adalah isi pesan") in
  status (response_of served) = 500 /\ is_Some (history (db_of served) !! 1).
Proof.
  destruct (capstone_post_history_never_succeeds accepted calm empty_db
              (history_request "Contoh Judul" "Ini adalah isi pesan") eq_refl eq_refl)
    as (_ & _ & H).
  destruct (H 1 _ eq_refl eq_refl eq_refl eq_refl) as [Hresp Hdb].
  cbv zeta. rewrite Hresp, Hdb. split; [reflexivity|].
  simpl. rewrite lookup_insert_eq. eauto.
Defined.

End Capstone_post_history.

Section Riwayat_failures.

Import Riwayat RiwayatProps RiwayatMore.

(** X24.  In [src/riwayat.js] a route whose first statement throws answers 500 with
    the message of the database error as it is, and changes nothing: shown
    for creating an identity, attaching a message, reading and deleting, for
    an email that is not the word email in any letter case. *)
Theorem riwayat_database_failure_shows_the_message
    (env : Env) (db : DB) (title email message msg : string) (stt : bool) :
  title ≠ "" -> email ≠ "" -> lower email ≠ "email" -> message ≠ "" ->
  env_db_fault env 0%nat = Some msg ->
  let failed := (res_status_json 500 (JObj [("message", JStr msg)]), db) in
  (serve app env db (identity_request title email)).1.1 = failed /\
  (serve app env db (attach_request email message stt)).1.1 = failed /\
  (serve app env db (get_request email)).1.1 = failed /\
  (serve app env db (delete_request email)).1.1 = failed.
Proof.
  intros Htitle Hemail Hlit Hmsg F0. cbv zeta. repeat split.
  - unfold serve, app; cbn. unfold post_history_email, History_findOne. open_monad.
    rewrite (eqb_empty_false _ Hemail), (eqb_empty_false _ Htitle); cbn.
    rewrite F0; cbn. reflexivity.
  - unfold serve, app. cbn -[String.eqb post_history_by_email post_history_email].
    rewrite !String.eqb_refl, (eqb_literal_false "email" (lower email) Hlit),
      (eqb_empty_false _ Hemail).
    cbn -[post_history_by_email post_history_email].
    unfold post_history_by_email, History_findOne. open_monad.
    rewrite (eqb_empty_false _ Hmsg); cbn. rewrite F0; cbn. reflexivity.
  - unfold serve, app. cbn -[String.eqb get_history_by_email].
    rewrite !String.eqb_refl, (eqb_empty_false _ Hemail). cbn -[get_history_by_email].
    unfold get_history_by_email, History_findOne. open_monad. rewrite F0; cbn.
    reflexivity.
  - unfold serve, app. cbn -[String.eqb delete_history_by_email].
    rewrite !String.eqb_refl, (eqb_empty_false _ Hemail). cbn -[delete_history_by_email].
    unfold delete_history_by_email, History_findOne. open_monad. rewrite F0; cbn.
    reflexivity.
Qed.

Lemma riwayat_database_failure_shows_the_message_witness :
  response_of (serve app (db_down_at 0) one_history_one_message
                 (get_request "ani@example.com")) =
    res_status_json 500 (JObj [("message", JStr "connect ETIMEDOUT")]).
Proof.
  destruct (riwayat_database_failure_shows_the_message (db_down_at 0)
              one_history_one_message "Ani" "ani@example.com" "halo"
              "connect ETIMEDOUT" true) as (_ & _ & H & _).
  - discriminate.
  - discriminate.
  - discriminate.
  - discriminate.
  - reflexivity.
  - unfold response_of. rewrite H. reflexivity.
Defined.

End Riwayat_failures.

Section HistoryJs_listing.

Import HistoryJs HistoryJsProps HistoryJsMore.

#[local] Instance newer_first_is_total : Total newer_first.
Proof. intros a b. unfold newer_first. lia. Qed.

#[local] Instance newer_first_is_transitive : Transitive newer_first.
Proof. intros a b c. unfold newer_first. lia. Qed.

(** X25.  GET /api/history in [src/history.js] never changes the database.  When
    the SELECT does not throw it answers 404 on an empty table and otherwise
    200 with every row of the table, each once, ordered by created_at from
    the newest to the oldest; each entry carries the row's id, email and
    title, its message as a list of one element, and the detection type read
    off the speech-to-text flag. *)
Theorem historyjs_get_history_all_rows_newest_first
    (env : Env) (db : DB) (req : Request) :
  req_method req = GET ->
  req_path req = ["api"; "history"] ->
  let served := serve app env db req in
  db_of served = db /\
  (env_db_fault env 0%nat = None ->
   (history db = ∅ ->
    response_of served = res_status_json 404 (error_json "History tidak ditemukan")) /\
   (history db ≠ ∅ ->
    exists rows,
      rows ≡ₚ map_to_list (history db) /\
      StronglySorted newer_first rows /\
      response_of served =
        res_json (JObj [("status", JStr "success get data");
                        ("data", JArr (map format_listed rows))]))).
Proof.
  intros Hmeth Hpath.
  destruct req as [meth path ? ? ? ? ? ? ? ? ?]; simpl in Hmeth, Hpath; subst meth path.
  cbv zeta. unfold serve, app; cbn.
  unfold get_history, select_order_by_created_at_desc. open_monad.
  destruct (env_db_fault env 0%nat) as [msg|]; cbn.
  { split; [reflexivity|]. discriminate. }
  pose proof (merge_sort_Permutation newer_first (map_to_list (history db))) as Hperm.
  pose proof (StronglySorted_merge_sort newer_first (map_to_list (history db))) as Hsorted.
  destruct (merge_sort newer_first (map_to_list (history db))) as [|x rows] eqn:Hrows; cbn.
  - split; [reflexivity|]. intros _. split; [reflexivity|].
    intros Hne. exfalso. apply Hne. apply map_to_list_empty_iff.
    apply Permutation_nil_r. symmetry. exact Hperm.
  - split; [reflexivity|]. intros _. split.
    + intros Hempty. rewrite Hempty, map_to_list_empty in Hperm.
      apply Permutation_nil_r in Hperm. discriminate.
    + intros _. exists (x :: rows). auto.
Qed.

Lemma historyjs_get_history_all_rows_newest_first_witness :
  status (response_of (serve app calm two_rows (request GET ["api"; "history"]))) = 200.
Proof.
  destruct (historyjs_get_history_all_rows_newest_first calm two_rows
              (request GET ["api"; "history"]) eq_refl eq_refl) as [_ H].
  destruct (H eq_refl) as [_ H'].
  destruct H' as (rows & _ & _ & Hresp).
  - intros Hempty. apply (f_equal (fun m => m !! "h-1")) in Hempty.
    vm_compute in Hempty. discriminate.
  - rewrite Hresp. reflexivity.
Defined.

(** The sample table, listed. *)
Example historyjs_get_history_sample :
  field "data" (body (response_of (serve app calm two_rows (request GET ["api"; "history"]))))
  = Some (JArr [format_listed ("h-2", newer_row); format_listed ("h-1", older_row)]).
Proof. vm_compute. reflexivity. Qed.

End HistoryJs_listing.
